(** * cobra.io.sbml : model <-> SBML document mapping layer

    A shallow embedding of [src/cobra/io/sbml.py]: the identifier codec, the
    notes codec, the annotation codec, the bound/parameter manager, the
    gene-association rendering, the model reader [_sbml_to_model], the model
    writer [_model_to_sbml] and the validator [validate_sbml_model].

    Conventions.
    - Python [str] is [string]; only ASCII text is considered, so that the
      regular-expression classes [\w] and [\s] and [str.strip] have their
      ASCII meaning.
    - Python numbers (flux bounds, stoichiometric coefficients, objective
      coefficients) are [Z]: the code only compares them with [==] and [<],
      negates, adds and subtracts them, and takes [min]/[max]; the [number]
      conversion of the reader ([float] or [int]) is the identity on them.
      libsbml stores the value of a parameter, a stoichiometry and an
      objective coefficient as a double and a charge as a C [int]: the
      records hold the number handed to the setter, which is what the getter
      returns for the integers a double (a C [int]) holds exactly.
    - Python dictionaries keep insertion order: they are association lists
      with in-place update ([dict_set]).
    - The libsbml element tree is an opaque library for the source; it is
      represented by records holding what the accessors used in the source
      return.
    - Exceptions are values of [exn]; code that can raise or log lives in the
      monad [M], which threads the log of warnings. *)

From Stdlib Require Import String Ascii List ZArith Bool Lia Arith.
Import ListNotations.

Set Warnings "-register-all".

Local Open Scope string_scope.
Local Open Scope list_scope.

(* ------------------------------------------------------------------ *)
(** * Python string primitives *)
(* ------------------------------------------------------------------ *)

Module PyStr.

(** [s[n:]] *)
Fixpoint drop (n : nat) (s : string) : string :=
  match n, s with
  | O, _ => s
  | S k, String _ s' => drop k s'
  | S _, EmptyString => EmptyString
  end.

(** [s.startswith(p)] *)
Definition startswith (s p : string) : bool := String.prefix p s.

(** [c in s] for a one-character [c]. *)
Fixpoint has_char (c : ascii) (s : string) : bool :=
  match s with
  | EmptyString => false
  | String c' s' => Ascii.eqb c c' || has_char c s'
  end.

(** [sub in s] *)
Fixpoint contains (sub s : string) : bool :=
  String.prefix sub s ||
  match s with
  | EmptyString => false
  | String _ s' => contains sub s'
  end.

(** [s.replace(old, new)] for a non-empty [old]: the occurrences of [old] are
    found from the left and do not overlap.  [skip] counts the characters of
    an occurrence that are still to be passed over. *)
Fixpoint replace_from (old new s : string) (skip : nat) : string :=
  match s with
  | EmptyString => EmptyString
  | String c s' =>
      match skip with
      | S k => replace_from old new s' k
      | O =>
          if String.prefix old s
          then new ++ replace_from old new s' (String.length old - 1)
          else String c (replace_from old new s' 0)
      end
  end.

Definition replace (old new s : string) : string := replace_from old new s 0.

(** [s.split(sep)] for a one-character separator: empty fields are kept. *)
Fixpoint split_acc (sep : ascii) (s : string) (cur : string) : list string :=
  match s with
  | EmptyString => [cur]
  | String c s' =>
      if Ascii.eqb c sep then cur :: split_acc sep s' ""
      else split_acc sep s' (cur ++ String c "")
  end.

Definition split (sep : ascii) (s : string) : list string := split_acc sep s "".

(** [sep.join(l)] *)
Fixpoint join (sep : string) (l : list string) : string :=
  match l with
  | [] => ""
  | [x] => x
  | x :: rest => x ++ sep ++ join sep rest
  end.

(** ASCII white space, as [str.isspace] and the class [\s] see it. *)
Definition is_space (c : ascii) : bool :=
  let n := nat_of_ascii c in
  (Nat.leb 9 n && Nat.leb n 13) || (Nat.leb 28 n && Nat.leb n 32).

(** ASCII word characters, the class [\w]. *)
Definition is_word (c : ascii) : bool :=
  let n := nat_of_ascii c in
  (Nat.leb 48 n && Nat.leb n 57) || (Nat.leb 65 n && Nat.leb n 90)
  || (Nat.leb 97 n && Nat.leb n 122) || Nat.eqb n 95.

Fixpoint lstrip (s : string) : string :=
  match s with
  | String c s' => if is_space c then lstrip s' else s
  | EmptyString => EmptyString
  end.

(** [rstrip] drops the trailing run of white space. *)
Fixpoint rstrip (s : string) : string :=
  match s with
  | EmptyString => EmptyString
  | String c s' =>
      match rstrip s' with
      | EmptyString => if is_space c then EmptyString else String c EmptyString
      | r => String c r
      end
  end.

(** [s.strip()] *)
Definition strip (s : string) : string := rstrip (lstrip s).

Fixpoint last_char (s : string) : option ascii :=
  match s with
  | EmptyString => None
  | String c EmptyString => Some c
  | String _ s' => last_char s'
  end.

(** [s[1:-1]] *)
Definition inner (s : string) : string :=
  String.substring 1 (String.length s - 2) s.

End PyStr.

(* ------------------------------------------------------------------ *)
(** * Functions for id replacements (import/export) *)
(* ------------------------------------------------------------------ *)

Definition SBML_DOT : string := "__SBML_DOT__".

(** Clips a prefix from the beginning of a string if it exists. *)
Definition _clip (sid prefix : string) : string :=
  if PyStr.startswith sid prefix then PyStr.drop (String.length prefix) sid
  else sid.

(** Clips gene prefix from id. *)
Definition _f_gene (sid : string) : string :=
  let sid := PyStr.replace SBML_DOT "." sid in
  _clip sid "G_".

(** Adds gene prefix to id. *)
Definition _f_gene_rev (sid : string) : string :=
  "G_" ++ PyStr.replace "." SBML_DOT sid.

Definition _f_specie (sid : string) : string := _clip sid "M_".
Definition _f_specie_rev (sid : string) : string := "M_" ++ sid.
Definition _f_reaction (sid : string) : string := _clip sid "R_".
Definition _f_reaction_rev (sid : string) : string := "R_" ++ sid.

(** The dictionary [f_replace]: a key that is absent is [None]. *)
Record FReplace : Type := mkFReplace {
  F_GENE : option (string -> string);
  F_GENE_REV : option (string -> string);
  F_SPECIE : option (string -> string);
  F_SPECIE_REV : option (string -> string);
  F_REACTION : option (string -> string);
  F_REACTION_REV : option (string -> string)
}.

Definition F_REPLACE : FReplace :=
  {| F_GENE := Some _f_gene;
     F_GENE_REV := Some _f_gene_rev;
     F_SPECIE := Some _f_specie;
     F_SPECIE_REV := Some _f_specie_rev;
     F_REACTION := Some _f_reaction;
     F_REACTION_REV := Some _f_reaction_rev |}.

(** [f_replace = {}] (or [None]): no identifier is rewritten. *)
Definition F_NONE : FReplace :=
  {| F_GENE := None; F_GENE_REV := None; F_SPECIE := None;
     F_SPECIE_REV := None; F_REACTION := None; F_REACTION_REV := None |}.

(** [if f_replace and KEY in f_replace: sid = f_replace[KEY](sid)] *)
Definition apply_f (f : option (string -> string)) (sid : string) : string :=
  match f with
  | Some g => g sid
  | None => sid
  end.

(** The three entity kinds of the codec, with [strip] and [restore] as the
    default configuration [F_REPLACE] defines them. *)
Inductive entity_kind : Type := KGene | KSpecie | KReaction.

Definition kind_prefix (k : entity_kind) : string :=
  match k with
  | KGene => "G_"
  | KSpecie => "M_"
  | KReaction => "R_"
  end.

Definition strip_id (k : entity_kind) : string -> string :=
  match k with
  | KGene => _f_gene
  | KSpecie => _f_specie
  | KReaction => _f_reaction
  end.

Definition restore_id (k : entity_kind) : string -> string :=
  match k with
  | KGene => _f_gene_rev
  | KSpecie => _f_specie_rev
  | KReaction => _f_reaction_rev
  end.

(* ------------------------------------------------------------------ *)
(** * Python dictionaries *)
(* ------------------------------------------------------------------ *)

(** An insertion-ordered dictionary with string keys. *)
Definition dict (V : Type) : Type := list (string * V).

Fixpoint dict_get {V : Type} (d : dict V) (k : string) : option V :=
  match d with
  | [] => None
  | (k', v) :: rest => if String.eqb k k' then Some v else dict_get rest k
  end.

(** [k in d] *)
Definition dict_mem {V : Type} (d : dict V) (k : string) : bool :=
  match dict_get d k with
  | Some _ => true
  | None => false
  end.

(** [d[k] = v]: a key already present keeps its position. *)
Fixpoint dict_set {V : Type} (d : dict V) (k : string) (v : V) : dict V :=
  match d with
  | [] => [(k, v)]
  | (k', v') :: rest =>
      if String.eqb k k' then (k', v) :: rest else (k', v') :: dict_set rest k v
  end.

(** [{k: v for (k, v) in items}] *)
Definition dict_of_items {V : Type} (items : list (string * V)) : dict V :=
  fold_left (fun d kv => dict_set d (fst kv) (snd kv)) items [].

(* ------------------------------------------------------------------ *)
(** * Regular expressions of the notes pattern *)
(* ------------------------------------------------------------------ *)

(** The fragment of [re] the source uses: a sequence of literal characters,
    greedy repetitions of a character class and capture groups, matched by
    backtracking in the priority order of [re] (longest repetition first). *)
Module Regex.

Inductive item : Type :=
| Lit (c : ascii)
| Star (cls : ascii -> bool)
| Plus (cls : ascii -> bool)
| GOpen
| GClose.

Section Star.

Variable R : Type.
Variable cls : ascii -> bool.
Variable k : string -> nat -> option R.

(** Greedy [cls*] followed by the continuation [k]. *)
Fixpoint star (s : string) (pos : nat) : option R :=
  match s with
  | String c s' =>
      if cls c then
        match star s' (S pos) with
        | Some r => Some r
        | None => k s pos
        end
      else k s pos
  | EmptyString => k s pos
  end.

End Star.

(** [match_items p caps s pos]: match [p] at the start of [s], which is at
    offset [pos] of the subject; returns the end offset and the group
    boundaries met, latest first. *)
Fixpoint match_items (p : list item) (caps : list nat) (s : string) (pos : nat)
  : option (nat * list nat) :=
  match p with
  | [] => Some (pos, caps)
  | Lit c :: p' =>
      match s with
      | String c' s' =>
          if Ascii.eqb c c' then match_items p' caps s' (S pos) else None
      | EmptyString => None
      end
  | Star cls :: p' => star _ cls (match_items p' caps) s pos
  | Plus cls :: p' =>
      match s with
      | String c s' =>
          if cls c then star _ cls (match_items p' caps) s' (S pos) else None
      | EmptyString => None
      end
  | GOpen :: p' => match_items p' (pos :: caps) s pos
  | GClose :: p' => match_items p' (pos :: caps) s pos
  end.

(** The groups of a match, from the boundaries in the order they were met. *)
Fixpoint groups (whole : string) (bounds : list nat) : list string :=
  match bounds with
  | o :: c :: rest => String.substring o (c - o) whole :: groups whole rest
  | _ => []
  end.

(** [re.findall]: all non-overlapping matches, scanning from the left. *)
Fixpoint findall_from (p : list item) (whole s : string) (pos skip : nat)
  : list (list string) :=
  match s with
  | EmptyString =>
      match skip, match_items p [] s pos with
      | O, Some (_, caps) => [groups whole (rev caps)]
      | _, _ => []
      end
  | String _ s' =>
      match skip with
      | S k => findall_from p whole s' (S pos) k
      | O =>
          match match_items p [] s pos with
          | Some (e, caps) =>
              groups whole (rev caps)
                :: findall_from p whole s' (S pos) (e - pos - 1)
          | None => findall_from p whole s' (S pos) 0
          end
      end
  end.

Definition findall (p : list item) (s : string) : list (list string) :=
  findall_from p s s 0 0.

End Regex.

(* ------------------------------------------------------------------ *)
(** * Notes *)
(* ------------------------------------------------------------------ *)

(** The notes pattern: the literal [<p>], white space, a first group made of
    one or more word characters, white space and further word characters,
    then white space, a colon, white space, a second group of one or more
    characters that are word characters, the pipe or white space, and the
    literal [<].  All repetitions are greedy. *)
Definition notes_value_class (c : ascii) : bool :=
  PyStr.is_word c || Ascii.eqb c "|" || PyStr.is_space c.

Definition NOTES_PATTERN : list Regex.item :=
  [ Regex.Lit "<"; Regex.Lit "p"; Regex.Lit ">";
    Regex.Star PyStr.is_space;
    Regex.GOpen;
    Regex.Plus PyStr.is_word; Regex.Star PyStr.is_space;
    Regex.Star PyStr.is_word;
    Regex.GClose;
    Regex.Star PyStr.is_space; Regex.Lit ":"; Regex.Star PyStr.is_space;
    Regex.GOpen; Regex.Plus notes_value_class; Regex.GClose;
    Regex.Lit "<" ].

(** [matches = re.findall(pattern, notes)] as (key, value) pairs. *)
Definition notes_matches (notes : string) : list (string * string) :=
  flat_map (fun g => match g with
                     | [k; v] => [(k, v)]
                     | _ => []
                     end)
           (Regex.findall NOTES_PATTERN notes).

(** [d = {k.strip(): v.strip() for (k, v) in matches}] *)
Definition notes_stripped (notes : string) : dict string :=
  dict_of_items
    (map (fun kv => (PyStr.strip (fst kv), PyStr.strip (snd kv)))
         (notes_matches notes)).

(** Creates dictionary of COBRA notes, from [sbase.getNotesString()]. *)
Definition _parse_notes_dict (notes : string) : dict string :=
  if Nat.ltb 0 (String.length notes) then
    filter (fun kv => Nat.ltb 0 (String.length (snd kv))) (notes_stripped notes)
  else [].

(** The markup [_sbase_notes_dict] installs with [sbase.setNotes]; [None]
    when the dictionary is empty and nothing is set. *)
Definition notes_markup (notes : dict string) : option string :=
  match notes with
  | [] => None
  | _ =>
      Some (PyStr.join (String (ascii_of_nat 10) "")
              ([("<html xmlns = " ++ String (ascii_of_nat 34) ""
                  ++ "http://www.w3.org/1999/xhtml"
                  ++ String (ascii_of_nat 34) "" ++ " >")%string]
               ++ map (fun kv =>
                         ("<p>" ++ fst kv ++ ": " ++ snd kv ++ "</p>")%string)
                      notes
               ++ ["</html>"]))
  end.

(* ------------------------------------------------------------------ *)
(** * Exceptions and logging *)
(* ------------------------------------------------------------------ *)

(** The exceptions the module raises or lets through.  [PyException] stands
    for any exception of Python that is not a [CobraSBMLError] (a [KeyError],
    an [AttributeError] on [None], ...), with its class name. *)
Inductive exn : Type :=
| CobraSBMLError (msg : string)
| PyException (cls msg : string).

(** [str(e)] *)
Definition exn_str (e : exn) : string :=
  match e with
  | CobraSBMLError msg => msg
  | PyException _ msg => msg
  end.

(** The events sent to [LOGGER.warning].  Where the source formats a libsbml
    object into the message, the event carries the id of that object. *)
Inductive warning : Type :=
| WarnNoFbc
| WarnNotStrict
| WarnFbcV1
| WarnPackage (key : string)
| WarnChargeAttribute (sid : option string)
| WarnChargeNote (sid : option string)
| WarnFormulaNote (sid : option string)
| WarnKineticLawBounds (rid : option string)
| WarnGeneAssociationNote (rid : option string)
| WarnNoListOfObjectives
| WarnNoObjective
| WarnNoActiveObjective
| WarnKineticLawObjective (rid : option string)
| WarnMemberType (gid : option string)
| WarnUri (uri : string)
| WarnSBOProvider
| WarnQualifier (qualifier_str : string).

(** Computations that may log warnings and may raise: the log so far and
    either the exception or the value. *)
Definition M (A : Type) : Type := list warning * (exn + A).

Definition ret {A : Type} (a : A) : M A := ([], inr a).

Definition raise {A : Type} (e : exn) : M A := ([], inl e).

Definition warn (w : warning) : M unit := ([w], inr tt).

Definition bind {A B : Type} (m : M A) (f : A -> M B) : M B :=
  match m with
  | (l, inl e) => (l, inl e)
  | (l, inr a) => let '(l', r) := f a in (l ++ l', r)
  end.

Declare Scope sbml_scope.
Delimit Scope sbml_scope with sbml.
Notation "x <- m ;; k" := (bind m (fun x => k))
  (at level 61, m at next level, right associativity) : sbml_scope.
Notation "m ;;; k" := (bind m (fun _ => k))
  (at level 61, right associativity) : sbml_scope.
Local Open Scope sbml_scope.

(** [for x in l: body], the body returning the updated loop state. *)
Fixpoint foldM {A S : Type} (body : S -> A -> M S) (l : list A) (st : S) : M S :=
  match l with
  | [] => ret st
  | x :: rest => st' <- body st x ;; foldM body rest st'
  end.

Definition when_ (b : bool) (m : M unit) : M unit := if b then m else ret tt.

(** The log and the outcome of a computation. *)
Definition log_of {A : Type} (m : M A) : list warning := fst m.
Definition value_of {A : Type} (m : M A) : option A :=
  match snd m with
  | inr a => Some a
  | inl _ => None
  end.
Definition raised {A : Type} (m : M A) : option exn :=
  match snd m with
  | inl e => Some e
  | inr _ => None
  end.

(* ------------------------------------------------------------------ *)
(** * Defaults and constants for writing SBML *)
(* ------------------------------------------------------------------ *)

(** [config = cobra.Configuration()]: the process-wide default bounds.  The
    class is not part of this module; its two values are a parameter of the
    writer. *)
Record Configuration : Type := mkConfiguration {
  LOWER_BOUND : Z;
  UPPER_BOUND : Z
}.

(** The values cobra ships as defaults. *)
Definition default_config : Configuration :=
  {| LOWER_BOUND := -1000; UPPER_BOUND := 1000 |}.

Definition LOWER_BOUND_ID : string := "cobra_default_lb".
Definition UPPER_BOUND_ID : string := "cobra_default_ub".
Definition ZERO_BOUND_ID : string := "cobra_0_bound".

Definition SBO_FBA_FRAMEWORK : string := "SBO:0000624".
Definition SBO_DEFAULT_FLUX_BOUND : string := "SBO:0000626".
Definition SBO_FLUX_BOUND : string := "SBO:0000625".

Definition LONG_SHORT_DIRECTION : dict string :=
  [("maximize", "max"); ("minimize", "min")].
Definition SHORT_LONG_DIRECTION : dict string :=
  [("min", "minimize"); ("max", "maximize")].

Definition UNITS_FLUX_ID : string := "mmol_per_gDW_per_hr".

(* ------------------------------------------------------------------ *)
(** * The libsbml element tree *)
(* ------------------------------------------------------------------ *)

(** What the accessors of the document tree return.  An attribute that was
    never set reads as [None] where the source tests the value against
    [None], and is the empty string where the source uses an id as it is
    ([getId_str]). *)

Inductive qualifier_type : Type := BIOLOGICAL_QUALIFIER | MODEL_QUALIFIER.

Inductive qualifier : Type :=
| BQB_IS | BQB_HAS_PART | BQB_IS_PART_OF | BQB_IS_VERSION_OF
| BQB_HAS_VERSION | BQB_IS_HOMOLOG_TO | BQB_IS_DESCRIBED_BY
| BQB_IS_ENCODED_BY | BQB_ENCODES | BQB_OCCURS_IN | BQB_HAS_PROPERTY
| BQB_IS_PROPERTY_OF | BQB_HAS_TAXON | BQB_UNKNOWN
| BQM_IS | BQM_IS_DESCRIBED_BY | BQM_IS_DERIVED_FROM | BQM_IS_INSTANCE_OF
| BQM_HAS_INSTANCE | BQM_UNKNOWN.

(** A controlled-vocabulary term: one qualifier and its resources. *)
Record CVTerm : Type := mkCVTerm {
  cv_qualifier_type : qualifier_type;
  cv_qualifier : qualifier;
  cv_resources : list string
}.

(** What every element has: id, name, meta id, SBO term, CV terms, notes. *)
Record SBase : Type := mkSBase {
  sb_id : option string;
  sb_name : option string;
  sb_meta_id : option string;
  sb_sbo : option string;
  sb_cvterms : list CVTerm;
  sb_notes : string
}.

(** A freshly created element. *)
Definition new_sbase : SBase :=
  {| sb_id := None; sb_name := None; sb_meta_id := None; sb_sbo := None;
     sb_cvterms := []; sb_notes := "" |}.

Definition setId (b : SBase) (i : string) : SBase :=
  {| sb_id := Some i; sb_name := sb_name b; sb_meta_id := sb_meta_id b;
     sb_sbo := sb_sbo b; sb_cvterms := sb_cvterms b; sb_notes := sb_notes b |}.

Definition setName (b : SBase) (n : string) : SBase :=
  {| sb_id := sb_id b; sb_name := Some n; sb_meta_id := sb_meta_id b;
     sb_sbo := sb_sbo b; sb_cvterms := sb_cvterms b; sb_notes := sb_notes b |}.

(** [sbase.getName()]: the empty string when no name is set, never
    [None]. *)
Definition getName (b : SBase) : string :=
  match sb_name b with
  | Some n => n
  | None => ""
  end.

Definition setMetaId (b : SBase) (m : string) : SBase :=
  {| sb_id := sb_id b; sb_name := sb_name b; sb_meta_id := Some m;
     sb_sbo := sb_sbo b; sb_cvterms := sb_cvterms b; sb_notes := sb_notes b |}.

Definition setSBOTerm (b : SBase) (t : string) : SBase :=
  {| sb_id := sb_id b; sb_name := sb_name b; sb_meta_id := sb_meta_id b;
     sb_sbo := Some t; sb_cvterms := sb_cvterms b; sb_notes := sb_notes b |}.

Definition setCVTerms (b : SBase) (terms : list CVTerm) : SBase :=
  {| sb_id := sb_id b; sb_name := sb_name b; sb_meta_id := sb_meta_id b;
     sb_sbo := sb_sbo b; sb_cvterms := terms; sb_notes := sb_notes b |}.

Definition qualifier_type_eqb (a b : qualifier_type) : bool :=
  match a, b with
  | BIOLOGICAL_QUALIFIER, BIOLOGICAL_QUALIFIER
  | MODEL_QUALIFIER, MODEL_QUALIFIER => true
  | _, _ => false
  end.

Definition qualifier_eqb (a b : qualifier) : bool :=
  match a, b with
  | BQB_IS, BQB_IS | BQB_HAS_PART, BQB_HAS_PART
  | BQB_IS_PART_OF, BQB_IS_PART_OF | BQB_IS_VERSION_OF, BQB_IS_VERSION_OF
  | BQB_HAS_VERSION, BQB_HAS_VERSION | BQB_IS_HOMOLOG_TO, BQB_IS_HOMOLOG_TO
  | BQB_IS_DESCRIBED_BY, BQB_IS_DESCRIBED_BY
  | BQB_IS_ENCODED_BY, BQB_IS_ENCODED_BY | BQB_ENCODES, BQB_ENCODES
  | BQB_OCCURS_IN, BQB_OCCURS_IN | BQB_HAS_PROPERTY, BQB_HAS_PROPERTY
  | BQB_IS_PROPERTY_OF, BQB_IS_PROPERTY_OF | BQB_HAS_TAXON, BQB_HAS_TAXON
  | BQB_UNKNOWN, BQB_UNKNOWN
  | BQM_IS, BQM_IS | BQM_IS_DESCRIBED_BY, BQM_IS_DESCRIBED_BY
  | BQM_IS_DERIVED_FROM, BQM_IS_DERIVED_FROM
  | BQM_IS_INSTANCE_OF, BQM_IS_INSTANCE_OF
  | BQM_HAS_INSTANCE, BQM_HAS_INSTANCE | BQM_UNKNOWN, BQM_UNKNOWN => true
  | _, _ => false
  end.

(** The unknown qualifier of either vocabulary. *)
Definition unknown_qualifier (q : qualifier) : bool :=
  match q with
  | BQB_UNKNOWN | BQM_UNKNOWN => true
  | _ => false
  end.

(** [CVTerm::hasRequiredAttributes]: a qualifier that is not the unknown
    one, and at least one resource. *)
Definition hasRequiredAttributes (cv : CVTerm) : bool :=
  negb (unknown_qualifier (cv_qualifier cv))
  && match cv_resources cv with
     | [] => false
     | _ :: _ => true
     end.

(** [getResourceBiologicalQualifier] and [getResourceModelQualifier]: the
    qualifier of the first term of the type [qt] that holds the resource,
    the unknown qualifier when there is none. *)
Fixpoint resource_qualifier (qt : qualifier_type) (terms : list CVTerm)
  (resource : string) : qualifier :=
  match terms with
  | [] =>
      match qt with
      | BIOLOGICAL_QUALIFIER => BQB_UNKNOWN
      | MODEL_QUALIFIER => BQM_UNKNOWN
      end
  | t :: rest =>
      if qualifier_type_eqb (cv_qualifier_type t) qt
         && existsb (String.eqb resource) (cv_resources t)
      then cv_qualifier t
      else resource_qualifier qt rest resource
  end.

Definition same_qualifier (t cv : CVTerm) : bool :=
  qualifier_type_eqb (cv_qualifier_type t) (cv_qualifier_type cv)
  && qualifier_eqb (cv_qualifier t) (cv_qualifier cv).

(** The resources added to the first term that has the qualifier of [cv];
    [None] when no term has it. *)
Fixpoint merge_resources (terms : list CVTerm) (cv : CVTerm)
  (resources : list string) : option (list CVTerm) :=
  match terms with
  | [] => None
  | t :: rest =>
      if same_qualifier t cv
      then Some ({| cv_qualifier_type := cv_qualifier_type t;
                    cv_qualifier := cv_qualifier t;
                    cv_resources := cv_resources t ++ resources |} :: rest)
      else option_map (cons t) (merge_resources rest cv resources)
  end.

(** [sbase.addCVTerm(cv)] of libsbml.  An element without meta id and a
    term without the required attributes are refused.  The first term of an
    element is taken as it is.  After that, the resources the element holds
    already (under a qualifier of the same type) are left out, and the others
    go to the first term with the same qualifier, or to a new term when there
    is none and a resource is left.  The source adds terms of one resource
    only. *)
Definition addCVTerm (b : SBase) (cv : CVTerm) : SBase :=
  match sb_meta_id b with
  | None => b
  | Some _ =>
      if negb (hasRequiredAttributes cv) then b
      else
        match sb_cvterms b with
        | [] => setCVTerms b [cv]
        | terms =>
            let resources :=
              filter (fun r => unknown_qualifier
                                 (resource_qualifier (cv_qualifier_type cv)
                                    terms r))
                     (cv_resources cv) in
            match merge_resources terms cv resources with
            | Some terms' => setCVTerms b terms'
            | None =>
                match resources with
                | [] => b
                | _ :: _ =>
                    setCVTerms b
                      (terms ++ [ {| cv_qualifier_type := cv_qualifier_type cv;
                                     cv_qualifier := cv_qualifier cv;
                                     cv_resources := resources |} ])
                end
            end
        end
  end.

Definition setNotes (b : SBase) (n : string) : SBase :=
  {| sb_id := sb_id b; sb_name := sb_name b; sb_meta_id := sb_meta_id b;
     sb_sbo := sb_sbo b; sb_cvterms := sb_cvterms b; sb_notes := n |}.

(** [sbase.getId()] used without a test against [None]. *)
Definition getId_str (b : SBase) : string :=
  match sb_id b with
  | Some x => x
  | None => ""
  end.

(** [str(sbase.getId())] inside a format string. *)
Definition id_str (i : option string) : string :=
  match i with
  | Some x => x
  | None => "None"
  end.

Record FbcSpeciesPlugin : Type := mkFbcSpeciesPlugin {
  fs_charge : option Z;
  fs_formula : option string
}.

(** [s_fbc.getCharge()] and [s_fbc.getChemicalFormula()]: zero and the
    empty string when the attribute is not set, never [None]. *)
Definition getCharge (f : FbcSpeciesPlugin) : Z :=
  match fs_charge f with
  | Some c => c
  | None => 0%Z
  end.

Definition getChemicalFormula (f : FbcSpeciesPlugin) : string :=
  match fs_formula f with
  | Some x => x
  | None => ""
  end.

Record Species : Type := mkSpecies {
  s_base : SBase;
  s_compartment : option string;
  s_constant : bool;
  s_boundary_condition : bool;
  s_has_only_substance_units : bool;
  s_charge : option Z;
  s_fbc : option FbcSpeciesPlugin
}.

(** [s.getCompartment()]: the empty string when none is set. *)
Definition getCompartment (s : Species) : string :=
  match s_compartment s with
  | Some c => c
  | None => ""
  end.

Record GeneProduct : Type := mkGeneProduct {
  gp_base : SBase;
  gp_label : option string
}.

Record SBMLParameter : Type := mkSBMLParameter {
  p_base : SBase;
  p_value : option Z;
  p_constant : bool;
  p_units : option string
}.

Record SpeciesReference : Type := mkSpeciesReference {
  sr_species : string;
  sr_stoichiometry : option Z;
  sr_constant : bool
}.

(** The tree of a gene-product association; [FbcUnknown] is a node of none
    of the three kinds the reader tests for. *)
Inductive FbcAssociation : Type :=
| FbcOr (children : list FbcAssociation)
| FbcAnd (children : list FbcAssociation)
| GeneProductRef (gid : string)
| FbcUnknown.

(** A gene-product association element: [getAssociation()] is its tree, or
    [None]. *)
Record GeneProductAssociation : Type := mkGeneProductAssociation {
  gpa_association : option FbcAssociation
}.

Record FbcReactionPlugin : Type := mkFbcReactionPlugin {
  fr_lower_flux_bound : option string;
  fr_upper_flux_bound : option string;
  fr_gpa : option GeneProductAssociation
}.

(** A kinetic law: its local parameters, id and value. *)
Record KineticLaw : Type := mkKineticLaw {
  kl_parameters : list (string * Z)
}.

Record Reaction : Type := mkReaction {
  r_base : SBase;
  r_fast : bool;
  r_reversible : bool;
  r_reactants : list SpeciesReference;
  r_products : list SpeciesReference;
  r_fbc : option FbcReactionPlugin;
  r_kinetic_law : option KineticLaw
}.

Record FluxObjective : Type := mkFluxObjective {
  fo_reaction : string;
  fo_coefficient : Z
}.

Record Objective : Type := mkObjective {
  o_id : string;
  o_type : string;
  o_flux_objectives : list FluxObjective
}.

Record FbcModelPlugin : Type := mkFbcModelPlugin {
  fm_strict : option bool;
  fm_gene_products : list GeneProduct;
  fm_objectives : option (list Objective);
  fm_active_objective : string
}.

Record Member : Type := mkMember {
  m_id_ref : option string;
  m_meta_id_ref : option string;
  m_name : option string
}.

Record Group : Type := mkGroup {
  g_base : SBase;
  g_kind : option string;
  g_members : list Member
}.

Record Unit : Type := mkUnit {
  u_kind : string;
  u_scale : Z;
  u_multiplier : Z;
  u_exponent : Z
}.

Record UnitDefinition : Type := mkUnitDefinition {
  ud_id : string;
  ud_units : list Unit
}.

Record Compartment : Type := mkCompartment {
  c_id : string;
  c_name : string;
  c_constant : bool
}.

Record SModel : Type := mkSModel {
  sm_base : SBase;
  sm_level : nat;
  sm_version : nat;
  sm_unit_definitions : list UnitDefinition;
  sm_parameters : list SBMLParameter;
  sm_compartments : list Compartment;
  sm_species : list Species;
  sm_reactions : list Reaction;
  sm_fbc : option FbcModelPlugin;
  sm_groups : option (list Group)
}.

(** The document.  [doc_plugins] lists the packages with their versions;
    [doc_v1_converts] is the outcome of libsbml's conversion of an FBC
    version 1 document, whose result the other fields already hold. *)
Record SBMLDocument : Type := mkSBMLDocument {
  doc_base : SBase;
  doc_model : option SModel;
  doc_plugins : list (string * nat);
  doc_required : list (string * bool);
  doc_v1_converts : bool
}.

(* ------------------------------------------------------------------ *)
(** * The cobra model *)
(* ------------------------------------------------------------------ *)

(** An annotation value: a bare string, or a list whose items are bare
    strings or (qualifier, entity) pairs. *)
Inductive annot_item : Type :=
| AItem (entity : string)
| AQual (qualifier_str entity : string).

Inductive annot_value : Type :=
| AStr (entity : string)
| AList (items : list annot_item).

Definition annotation : Type := dict annot_value.

(** Modelled from the spec: the classes Metabolite, Gene, Reaction, Group and
    Model of [cobra.core] are not part of this module; the records hold the
    attributes of section 3 (DATA MODEL) that the reader sets and the writer
    reads.  An attribute holding [None] is [None] here.  The name and the
    compartment of a metabolite and the name of a reaction are strings: the
    reader sets them from getters that return a string, and the writer hands
    them to setters that take one. *)
Record Metabolite : Type := mkMetabolite {
  met_id : string;
  met_name : string;
  met_notes : dict string;
  met_annotation : annotation;
  met_compartment : string;
  met_charge : option Z;
  met_formula : option string
}.

Record Gene : Type := mkGene {
  gene_id : string;
  gene_name : option string;
  gene_annotation : annotation;
  gene_notes : dict string
}.

(** [_metabolites] maps metabolite objects to coefficients; an object of the
    model is named by its id. *)
Record CReaction : Type := mkCReaction {
  rxn_id : string;
  rxn_name : string;
  rxn_annotation : annotation;
  rxn_notes : dict string;
  lower_bound : Z;
  upper_bound : Z;
  _metabolites : dict Z;
  gene_reaction_rule : string
}.

(** A group member is a metabolite, a reaction or a gene of the model. *)
Inductive member : Type :=
| MemMetabolite (m : Metabolite)
| MemReaction (r : CReaction)
| MemGene (g : Gene).

Definition member_id (m : member) : string :=
  match m with
  | MemMetabolite x => met_id x
  | MemReaction x => rxn_id x
  | MemGene x => gene_id x
  end.

Definition member_name (m : member) : option string :=
  match m with
  | MemMetabolite x => Some (met_name x)
  | MemReaction x => Some (rxn_name x)
  | MemGene x => gene_name x
  end.

Record CGroup : Type := mkCGroup {
  grp_id : string;
  grp_name : option string;
  grp_kind : option string;
  grp_members : list member;
  grp_notes : dict string;
  grp_annotation : annotation
}.

(** [_sbml]: the meta information kept from the document (the creators, the
    creation date and the info text are left out). *)
Record Meta : Type := mkMeta {
  meta_model_id : option string;
  meta_level : nat;
  meta_version : nat;
  meta_packages : dict nat;
  meta_notes : dict string;
  meta_annotation : annotation
}.

(** The objective: its direction ([max] or [min]) and the coefficient of
    each reaction in it, by reaction id
    ([linear_reaction_coefficients]). *)
Record CModel : Type := mkCModel {
  cm_id : option string;
  cm_name : option string;
  cm_sbml : option Meta;
  cm_notes : dict string;
  cm_annotation : annotation;
  cm_compartments : dict string;
  cm_metabolites : list Metabolite;
  cm_genes : list Gene;
  cm_reactions : list CReaction;
  cm_groups : list CGroup;
  cm_objective_direction : string;
  cm_objective_coefficients : dict Z
}.

(** Modelled from the spec: [DictList.get_by_id] of [cobra.core], the lookup
    by id in an ordered id-indexed collection; a missing id raises
    [KeyError]. *)
Fixpoint get_by_id {A : Type} (key : A -> string) (l : list A) (i : string)
  : option A :=
  match l with
  | [] => None
  | x :: rest => if String.eqb (key x) i then Some x else get_by_id key rest i
  end.

(** [reaction.objective_coefficient], and
    [linear_reaction_coefficients(model).get(reaction, 0)]. *)
Definition objective_coefficient (m : CModel) (r : CReaction) : Z :=
  match dict_get (cm_objective_coefficients m) (rxn_id r) with
  | Some c => c
  | None => 0%Z
  end.

(* ------------------------------------------------------------------ *)
(** * Required attributes *)
(* ------------------------------------------------------------------ *)

(** Get required attribute from the SBase. *)
Definition _check_required {A : Type} (sbase : SBase) (value : option A)
  (attribute : string) : M A :=
  match value with
  | Some v => ret v
  | None =>
      let msg := ("required attribute '" ++ attribute ++ "' not found")%string in
      let msg :=
        match sb_id sbase, sb_name sbase with
        | Some i, _ => (msg ++ " with id '" ++ i ++ "'")%string
        | None, Some n => (msg ++ " with name '" ++ n ++ "'")%string
        | None, None => msg
        end in
      raise (CobraSBMLError msg)
  end.

(* ------------------------------------------------------------------ *)
(** * Annotations *)
(* ------------------------------------------------------------------ *)

Definition URL_IDENTIFIERS_PREFIX : string := "https://identifiers.org".

Definition QUALIFIER_TYPES : dict qualifier :=
  [ ("is", BQB_IS);
    ("hasPart", BQB_HAS_PART);
    ("isPartOf", BQB_IS_PART_OF);
    ("isVersionOf", BQB_IS_VERSION_OF);
    ("hasVersion", BQB_HAS_VERSION);
    ("isHomologTo", BQB_IS_HOMOLOG_TO);
    ("isDescribedBy", BQB_IS_DESCRIBED_BY);
    ("isEncodedBy", BQB_IS_ENCODED_BY);
    ("encodes", BQB_ENCODES);
    ("occursIn", BQB_OCCURS_IN);
    ("hasProperty", BQB_HAS_PROPERTY);
    ("isPropertyOf", BQB_IS_PROPERTY_OF);
    ("hasTaxon", BQB_HAS_TAXON);
    ("unknown", BQB_UNKNOWN);
    ("bqm_is", BQM_IS);
    ("bqm_isDescribedBy", BQM_IS_DESCRIBED_BY);
    ("bqm_isDerivedFrom", BQM_IS_DERIVED_FROM);
    ("bqm_isInstanceOf", BQM_IS_INSTANCE_OF);
    ("bqm_hasInstance", BQM_HAS_INSTANCE);
    ("bqm_unknown", BQM_UNKNOWN) ].

(** One resource URI of a CV term, in [_parse_annotations]. *)
Definition parse_resource (st : annotation) (uri : string) : M annotation :=
  let tokens := PyStr.split "/" uri in
  match tokens with
  | [_; _; host; provider; identifier] =>
      if String.eqb host "identifiers.org" then
        match dict_get st provider with
        | Some (AStr old) =>
            ret (dict_set st provider (AList [AItem old; AItem identifier]))
        | Some (AList l) =>
            ret (dict_set st provider (AList (l ++ [AItem identifier])))
        | None => ret (dict_set st provider (AStr identifier))
        end
      else (warn (WarnUri uri) ;;; ret st)
  | _ => (warn (WarnUri uri) ;;; ret st)
  end.

(** Parses cobra annotations from a given SBase object. *)
Definition _parse_annotations (sbase : SBase) : M annotation :=
  let annotation0 : annotation :=
    match sb_sbo sbase with
    | Some t => [("sbo", AStr t)]
    | None => []
    end in
  foldM (fun st cvterm => foldM parse_resource (cv_resources cvterm) st)
        (sb_cvterms sbase) annotation0.

(** The standardized annotation data: every value a list of
    (qualifier, entity) pairs. *)
Definition standardize_item (it : annot_item) : string * string :=
  match it with
  | AItem e => ("is", e)
  | AQual q e => (q, e)
  end.

Definition standardize (v : annot_value) : list (string * string) :=
  match v with
  | AStr e => [("is", e)]
  | AList l => map standardize_item l
  end.

(** One (qualifier, entity) item of a provider, in [_sbase_annotations].
    For a qualifier that is not in the table the source takes [BQB_IS],
    which is the number of [BQM_IS] too when the term is a model term. *)
Definition annotate_item (provider : string) (sbase : SBase)
  (item : string * string) : M SBase :=
  let '(qualifier_str, entity) := item in
  let qtype := if PyStr.startswith qualifier_str "bqm_"
               then MODEL_QUALIFIER else BIOLOGICAL_QUALIFIER in
  qual <- match dict_get QUALIFIER_TYPES qualifier_str with
          | Some q => ret q
          | None =>
              warn (WarnQualifier qualifier_str) ;;;
              ret (match qtype with
                   | BIOLOGICAL_QUALIFIER => BQB_IS
                   | MODEL_QUALIFIER => BQM_IS
                   end)
          end ;;
  let resource :=
    (URL_IDENTIFIERS_PREFIX ++ "/" ++ provider ++ "/" ++ entity)%string in
  ret (addCVTerm sbase
         {| cv_qualifier_type := qtype; cv_qualifier := qual;
            cv_resources := [resource] |}).

(** One provider of the annotation data. *)
Definition annotate_provider (sbase : SBase)
  (entry : string * list (string * string)) : M SBase :=
  let '(provider, data) := entry in
  if String.eqb provider "SBO" || String.eqb provider "sbo" then
    when_ (String.eqb provider "SBO") (warn WarnSBOProvider) ;;;
    match data with
    | (_, sbo_term) :: _ => ret (setSBOTerm sbase sbo_term)
    | [] => raise (PyException "IndexError" "list index out of range")
    end
  else foldM (annotate_item provider) data sbase.

(** Set SBase annotations based on cobra annotations. *)
Definition _sbase_annotations (sbase : SBase) (ann : annotation) : M SBase :=
  match ann with
  | [] => ret sbase
  | _ =>
      let annotation_data := map (fun kv => (fst kv, standardize (snd kv))) ann in
      let meta_id := ("meta_" ++ id_str (sb_id sbase))%string in
      let sbase := setMetaId sbase meta_id in
      foldM annotate_provider annotation_data sbase
  end.

(** Set SBase notes based on dictionary.  [_check] only logs the return code
    of libsbml and is left out. *)
Definition _sbase_notes_dict (sbase : SBase) (notes : dict string) : SBase :=
  match notes_markup notes with
  | Some markup => setNotes sbase markup
  | None => sbase
  end.

(* ------------------------------------------------------------------ *)
(** * Bounds and parameters *)
(* ------------------------------------------------------------------ *)

(** Create parameter in SBML model: the parameter appended to the model's
    list.  [flux_udef] is the id of the flux unit definition. *)
Definition _create_parameter (pid : string) (value : Z) (sbo : option string)
  (constant : bool) (units : bool) (flux_udef : option string) : SBMLParameter :=
  let b := setId new_sbase pid in
  let b := match sbo with
           | Some t => setSBOTerm b t
           | None => b
           end in
  {| p_base := b; p_value := Some value; p_constant := constant;
     p_units := if units then flux_udef else None |}.

(** The two values of [bound_type], the attribute name [getattr] reads. *)
Inductive bound_type : Type := lower_bound_attr | upper_bound_attr.

Definition bound_type_name (bt : bound_type) : string :=
  match bt with
  | lower_bound_attr => "lower_bound"
  | upper_bound_attr => "upper_bound"
  end.

Definition getattr_bound (reaction : CReaction) (bt : bound_type) : Z :=
  match bt with
  | lower_bound_attr => lower_bound reaction
  | upper_bound_attr => upper_bound reaction
  end.

(** Creates bound in model for given reaction: the id of the bound parameter
    and the parameters added to the model. *)
Definition _create_bound (config : Configuration) (reaction : CReaction)
  (bt : bound_type) (f_replace : FReplace) (units : bool)
  (flux_udef : option string) : string * list SBMLParameter :=
  let value := getattr_bound reaction bt in
  if Z.eqb value (LOWER_BOUND config) then (LOWER_BOUND_ID, [])
  else if Z.eqb value 0 then (ZERO_BOUND_ID, [])
  else if Z.eqb value (UPPER_BOUND config) then (UPPER_BOUND_ID, [])
  else
    let rid := apply_f (F_REACTION_REV f_replace) (rxn_id reaction) in
    let pid := (rid ++ "_" ++ bound_type_name bt)%string in
    (pid, [_create_parameter pid value (Some SBO_FLUX_BOUND) true units flux_udef]).

(* ------------------------------------------------------------------ *)
(** * Read SBML *)
(* ------------------------------------------------------------------ *)

(** [int(s)] on a decimal numeral with an optional sign, white space around
    it and single underscores between digits; [None] is the
    [ValueError]. *)
Fixpoint digits_value (s : string) (acc : Z) (after_digit : bool)
  : option Z :=
  match s with
  | EmptyString => if after_digit then Some acc else None
  | String c s' =>
      let n := nat_of_ascii c in
      if Nat.leb 48 n && Nat.leb n 57
      then digits_value s' (10 * acc + Z.of_nat (n - 48))%Z true
      else if Ascii.eqb c "_" && after_digit
           then digits_value s' acc false
           else None
  end.

Definition py_int (s : string) : option Z :=
  match PyStr.strip s with
  | EmptyString => None
  | String "-" r => option_map Z.opp (digits_value r 0 false)
  | String "+" r => digits_value r 0 false
  | t => digits_value t 0 false
  end.

(** [boundary_ids.add(i)] *)
Definition set_add (st : list string) (i : string) : list string :=
  if existsb (String.eqb i) st then st else st ++ [i].

(** [i in boundary_ids] *)
Definition set_mem (st : list string) (i : string) : bool :=
  existsb (String.eqb i) st.

(** The body of the loop over [model.getListOfSpecies()]: the state is
    [(boundary_ids, metabolites)]. *)
Definition read_species (f_replace : FReplace)
  (st : list string * list Metabolite) (s : Species)
  : M (list string * list Metabolite) :=
  let '(boundary_ids, metabolites) := st in
  sid <- _check_required (s_base s) (sb_id (s_base s)) "id" ;;
  let sid := apply_f (F_SPECIE f_replace) sid in
  let notes := _parse_notes_dict (sb_notes (s_base s)) in
  ann <- _parse_annotations (s_base s) ;;
  cf <- match s_fbc s with
        | Some s_fbc =>
            ret (Some (getCharge s_fbc), Some (getChemicalFormula s_fbc))
        | None =>
            charge <-
              match s_charge s with
              | Some c =>
                  warn (WarnChargeAttribute (sb_id (s_base s))) ;;; ret (Some c)
              | None =>
                  match dict_get notes "CHARGE" with
                  | Some txt =>
                      warn (WarnChargeNote (sb_id (s_base s))) ;;;
                      ret (py_int txt)
                  | None => ret None
                  end
              end ;;
            formula <-
              match dict_get notes "FORMULA" with
              | Some txt =>
                  warn (WarnFormulaNote (sb_id (s_base s))) ;;; ret (Some txt)
              | None => ret None
              end ;;
            ret (charge, formula)
        end ;;
  let met := {| met_id := sid; met_name := getName (s_base s);
                met_notes := notes; met_annotation := ann;
                met_compartment := getCompartment s;
                met_charge := fst cf; met_formula := snd cf |} in
  let boundary_ids :=
    if s_boundary_condition s
    then set_add boundary_ids (getId_str (s_base s))
    else boundary_ids in
  ret (boundary_ids, metabolites ++ [met]).

(** The loop over the species of the model. *)
Definition read_all_species (f_replace : FReplace) (model : SModel)
  : M (list string * list Metabolite) :=
  foldM (read_species f_replace) (sm_species model) ([], []).

(** The body of the loop over [model_fbc.getListOfGeneProducts()].
    [gp.getName()] is a string, so the test [gene.name is None] of the
    source never holds and a gene product without name gives a gene whose
    name is the empty string. *)
Definition read_gene_product (f_replace : FReplace) (genes : list Gene)
  (gp : GeneProduct) : M (list Gene) :=
  let gid := apply_f (F_GENE f_replace) (getId_str (gp_base gp)) in
  let name : option string := Some (getName (gp_base gp)) in
  let name := match name with
              | None => Some gid
              | Some _ => name
              end in
  ann <- _parse_annotations (gp_base gp) ;;
  let notes := _parse_notes_dict (sb_notes (gp_base gp)) in
  ret (genes ++ [ {| gene_id := gid; gene_name := name;
                     gene_annotation := ann; gene_notes := notes |} ]).

(** The gene-association text of a reaction's notes, or the empty string. *)
Definition notes_gpr (notes : dict string) : string :=
  match dict_get notes "GENE ASSOCIATION" with
  | Some g => g
  | None =>
      match dict_get notes "GENE_ASSOCIATION" with
      | Some g => g
      | None => ""
      end
  end.

(** The gene ids of a gene-association text, as the fallback splits it. *)
Definition gpr_gene_ids (gpr : string) : list string :=
  let gpr := PyStr.replace "(" ";" gpr in
  let gpr := PyStr.replace ")" ";" gpr in
  let gpr := PyStr.replace "or" ";" gpr in
  let gpr := PyStr.replace "and" ";" gpr in
  map PyStr.strip (PyStr.split ";" gpr).

(** The body of the loop that creates the genes from the notes of the
    reactions, when the model has no FBC plugin. *)
Definition read_genes_from_notes (f_replace : FReplace) (genes : list Gene)
  (reaction : Reaction) : list Gene :=
  let notes := _parse_notes_dict (sb_notes (r_base reaction)) in
  let gpr := notes_gpr notes in
  if Nat.ltb 0 (String.length gpr) then
    fold_left
      (fun genes gid =>
         let gid := apply_f (F_GENE f_replace) gid in
         match get_by_id gene_id genes gid with
         | Some _ => genes
         | None => genes ++ [ {| gene_id := gid; gene_name := Some gid;
                                 gene_annotation := []; gene_notes := [] |} ]
         end)
      (gpr_gene_ids gpr) genes
  else genes.

(** All the elements of a list of optional values, when none is missing. *)
Fixpoint all_some {A : Type} (l : list (option A)) : option (list A) :=
  match l with
  | [] => Some []
  | Some x :: rest => option_map (cons x) (all_some rest)
  | None :: _ => None
  end.

(** Recursively convert gpr association to a gpr string.  [None] is the
    [None] the function returns on a node of another kind, and the
    [TypeError] of joining it into a string. *)
Fixpoint process_association (f_replace : FReplace) (ass : FbcAssociation)
  : option string :=
  match ass with
  | FbcOr cs =>
      option_map
        (fun l => PyStr.join " " ["("; PyStr.join " or " l; ")"])
        (all_some (map (process_association f_replace) cs))
  | FbcAnd cs =>
      option_map
        (fun l => PyStr.join " " ["("; PyStr.join " and " l; ")"])
        (all_some (map (process_association f_replace) cs))
  | GeneProductRef gid => Some (apply_f (F_GENE f_replace) gid)
  | FbcUnknown => None
  end.

(** [model.getParameter(pid)] *)
Definition getParameter (model : SModel) (pid : string) : option SBMLParameter :=
  get_by_id (fun p => getId_str (p_base p)) (sm_parameters model) pid.

(** The value of a flux bound parameter of the FBC plugin. *)
Definition fbc_bound (model : SModel) (rid : option string) (pid : string) : M Z :=
  match getParameter model pid with
  | None =>
      raise (PyException "AttributeError"
               "'NoneType' object has no attribute 'getConstant'")
  | Some p =>
      match p_constant p, p_value p with
      | true, Some v => ret v
      | _, _ =>
          raise (CobraSBMLError
                   ("No constant bound '" ++ pid ++ "' for reaction '"
                      ++ id_str rid))
      end
  end.

(** The bounds of a reaction: from the FBC plugin, else from the kinetic
    law, else none. *)
Definition read_bounds (model : SModel) (r : Reaction) : M (Z * Z) :=
  match r_fbc r with
  | Some r_fbc =>
      lb_id <- _check_required new_sbase (fr_lower_flux_bound r_fbc)
                 "lowerFluxBound" ;;
      ub_id <- _check_required new_sbase (fr_upper_flux_bound r_fbc)
                 "upperFluxBound" ;;
      lb <- fbc_bound model (sb_id (r_base r)) lb_id ;;
      ub <- fbc_bound model (sb_id (r_base r)) ub_id ;;
      ret (lb, ub)
  | None =>
      match r_kinetic_law r with
      | Some klaw =>
          match dict_get (kl_parameters klaw) "LOWER_BOUND" with
          | Some lb =>
              match dict_get (kl_parameters klaw) "UPPER_BOUND" with
              | Some ub =>
                  warn (WarnKineticLawBounds (sb_id (r_base r))) ;;;
                  ret (lb, ub)
              | None =>
                  raise (CobraSBMLError
                           ("Missing flux bounds on reaction "
                              ++ id_str (sb_id (r_base r))))
              end
          | None =>
              raise (CobraSBMLError
                       ("Missing flux bounds on reaction "
                          ++ id_str (sb_id (r_base r))))
          end
      | None =>
          raise (CobraSBMLError
                   ("No flux bounds on reaction '"
                      ++ id_str (sb_id (r_base r)) ++ "'"))
      end
  end.

(** [stoichiometry[sid]] of the [defaultdict(lambda: 0)]. *)
Definition stoich_get (st : dict Z) (sid : string) : Z :=
  match dict_get st sid with
  | Some v => v
  | None => 0%Z
  end.

(** One species reference: [sign] is [-1] for a reactant, [1] for a
    product. *)
Definition read_sref (f_replace : FReplace) (sign : Z) (st : dict Z)
  (sref : SpeciesReference) : M (dict Z) :=
  let sid := apply_f (F_SPECIE f_replace) (sr_species sref) in
  v <- _check_required new_sbase (sr_stoichiometry sref) "stoichiometry" ;;
  ret (dict_set st sid (stoich_get st sid + sign * v)%Z).

(** What the two warnings of the loop below raise before anything is
    logged: their text is formatted with [reaction.getId()], and [reaction]
    is the cobra reaction, which has no such method. *)
Definition REACTION_HAS_NO_GETID : exn :=
  PyException "AttributeError" "'Reaction' object has no attribute 'getId'".

(** The entries of [stoichiometry] turned into entries on metabolite
    objects.  For a boundary id and for an unknown id the source means to
    warn and go on, and raises while it formats the warning. *)
Definition resolve_stoichiometry (boundary_ids : list string)
  (metabolites : list Metabolite) (obj : dict Z)
  (entry : string * Z) : M (dict Z) :=
  let '(met_id', coefficient) := entry in
  if set_mem boundary_ids met_id' then raise REACTION_HAS_NO_GETID
  else
    match get_by_id met_id metabolites met_id' with
    | None => raise REACTION_HAS_NO_GETID
    | Some metabolite => ret (dict_set obj (met_id metabolite) coefficient)
    end.

(** [gpr[1:-1].strip()] when [gpr] starts with an opening and ends with a
    closing parenthesis. *)
Definition strip_outer_parentheses (gpr : string) : string :=
  if PyStr.startswith gpr "("
     && match PyStr.last_char gpr with
        | Some c => Ascii.eqb c ")"
        | None => false
        end
  then PyStr.strip (PyStr.inner gpr)
  else gpr.

(** The gene-reaction rule of a reaction before the outer parentheses are
    removed. *)
Definition read_gpr (f_replace : FReplace) (r : Reaction) (notes : dict string)
  : M string :=
  match r_fbc r with
  | Some r_fbc =>
      match fr_gpa r_fbc with
      | None => ret ""
      | Some gpa =>
          match gpa_association gpa with
          | None =>
              raise (PyException "AttributeError"
                       "'NoneType' object has no attribute 'isFbcOr'")
          | Some association =>
              match process_association f_replace association with
              | Some gpr => ret gpr
              | None =>
                  raise (PyException "TypeError"
                           "gene product association of unknown kind")
              end
          end
      end
  | None =>
      let gpr := notes_gpr notes in
      if Nat.ltb 0 (String.length gpr) then
        warn (WarnGeneAssociationNote (sb_id (r_base r))) ;;;
        match F_GENE f_replace with
        | Some f => ret (PyStr.join " " (map f (PyStr.split " " gpr)))
        | None => ret gpr
        end
      else ret gpr
  end.

(** The stoichiometry of a reaction: the reactants subtracted, the
    products added, then the ids resolved to metabolites of the model. *)
Definition read_stoichiometry (f_replace : FReplace)
  (boundary_ids : list string) (metabolites : list Metabolite) (r : Reaction)
  : M (dict Z) :=
  stoichiometry <- foldM (read_sref f_replace (-1)) (r_reactants r) [] ;;
  stoichiometry <- foldM (read_sref f_replace 1) (r_products r) stoichiometry ;;
  foldM (resolve_stoichiometry boundary_ids metabolites) stoichiometry [].

(** The body of the loop over [model.getListOfReactions()]. *)
Definition read_reaction (f_replace : FReplace) (model : SModel)
  (boundary_ids : list string) (metabolites : list Metabolite)
  (reactions : list CReaction) (r : Reaction) : M (list CReaction) :=
  rid <- _check_required (r_base r) (sb_id (r_base r)) "id" ;;
  let rid := apply_f (F_REACTION f_replace) rid in
  ann <- _parse_annotations (r_base r) ;;
  let notes := _parse_notes_dict (sb_notes (r_base r)) in
  bounds <- read_bounds model r ;;
  object_stoichiometry <-
    read_stoichiometry f_replace boundary_ids metabolites r ;;
  gpr <- read_gpr f_replace r notes ;;
  let gpr := strip_outer_parentheses gpr in
  ret (reactions ++
       [ {| rxn_id := rid; rxn_name := getName (r_base r);
            rxn_annotation := ann; rxn_notes := notes;
            lower_bound := fst bounds; upper_bound := snd bounds;
            _metabolites := object_stoichiometry;
            gene_reaction_rule := gpr |} ]).

(** The body of the loop over the flux objectives of the active
    objective. *)
Definition read_flux_objective (f_replace : FReplace)
  (reactions : list CReaction) (coefficients : dict Z) (flux_obj : FluxObjective)
  : M (dict Z) :=
  let rid := apply_f (F_REACTION f_replace) (fo_reaction flux_obj) in
  match get_by_id rxn_id reactions rid with
  | None =>
      raise (CobraSBMLError ("Objective reaction '" ++ rid ++ "' not found"))
  | Some objective_reaction =>
      ret (dict_set coefficients (rxn_id objective_reaction)
             (fo_coefficient flux_obj))
  end.

(** The objective read from the FBC plugin: direction and coefficients. *)
Definition read_fbc_objective (f_replace : FReplace) (model_fbc : FbcModelPlugin)
  (reactions : list CReaction) : M (string * dict Z) :=
  match fm_objectives model_fbc with
  | None => warn WarnNoListOfObjectives ;;; ret ("max", [])
  | Some [] => warn WarnNoObjective ;;; ret ("max", [])
  | Some obj_list =>
      if Nat.eqb (String.length (fm_active_objective model_fbc)) 0 then
        warn WarnNoActiveObjective ;;; ret ("max", [])
      else
        match get_by_id o_id obj_list (fm_active_objective model_fbc) with
        | None =>
            raise (PyException "AttributeError"
                     "'NoneType' object has no attribute 'getType'")
        | Some obj =>
            match dict_get LONG_SHORT_DIRECTION (o_type obj) with
            | None => raise (PyException "KeyError" (o_type obj))
            | Some obj_direction =>
                coefficients <-
                  foldM (read_flux_objective f_replace reactions)
                        (o_flux_objectives obj) [] ;;
                ret (obj_direction, coefficients)
            end
        end
  end.

(** The body of the loop that reads the objective coefficients of a legacy
    document from the kinetic laws.  [r] is the variable of the loop over the
    reactions that ran before: the last reaction of the model. *)
Definition read_klaw_objective (f_replace : FReplace) (r : Reaction)
  (reactions : list CReaction) (coefficients : dict Z) (reaction : Reaction)
  : M (dict Z) :=
  match r_kinetic_law reaction with
  | None => ret coefficients
  | Some _ =>
      match r_kinetic_law r with
      | None =>
          raise (PyException "AttributeError"
                   "'NoneType' object has no attribute 'getParameter'")
      | Some klaw =>
          match dict_get (kl_parameters klaw) "OBJECTIVE_COEFFICIENT" with
          | None => ret coefficients
          | Some p_oc =>
              let rid := apply_f (F_REACTION f_replace)
                           (getId_str (r_base reaction)) in
              match get_by_id rxn_id reactions rid with
              | None =>
                  raise (CobraSBMLError
                           ("Objective reaction '" ++ rid ++ "' not found"))
              | Some objective_reaction =>
                  warn (WarnKineticLawObjective (sb_id (r_base reaction))) ;;;
                  ret (dict_set coefficients (rxn_id objective_reaction) p_oc)
              end
          end
      end
  end.

(** The objective of the model: from the FBC plugin, else from the kinetic
    laws. *)
Definition read_objective (f_replace : FReplace) (model : SModel)
  (reactions : list CReaction) : M (string * dict Z) :=
  match sm_fbc model with
  | Some model_fbc => read_fbc_objective f_replace model_fbc reactions
  | None =>
      match rev (sm_reactions model) with
      | [] => ret ("max", [])
      | r :: _ =>
          coefficients <-
            foldM (read_klaw_objective f_replace r reactions)
                  (sm_reactions model) [] ;;
          ret ("max", coefficients)
      end
  end.

(** The elements a group member can refer to, with the type code the reader
    dispatches on. *)
Inductive element : Type :=
| ElSpecies (i : string)
| ElReaction (i : string)
| ElGeneProduct (i : string)
| ElOther.

Definition gene_products (model : SModel) : list GeneProduct :=
  match sm_fbc model with
  | Some f => fm_gene_products f
  | None => []
  end.

(** [doc.getElementBySId] and [doc.getElementByMetaId], through the key
    [key] of an element. *)
Definition find_element (key : SBase -> option string) (model : SModel)
  (i : string) : option element :=
  let is_it (b : SBase) :=
    match key b with
    | Some k => String.eqb k i
    | None => false
    end in
  match find (fun x => is_it (s_base x)) (sm_species model) with
  | Some x => Some (ElSpecies (getId_str (s_base x)))
  | None =>
      match find (fun x => is_it (r_base x)) (sm_reactions model) with
      | Some x => Some (ElReaction (getId_str (r_base x)))
      | None =>
          match find (fun x => is_it (gp_base x)) (gene_products model) with
          | Some x => Some (ElGeneProduct (getId_str (gp_base x)))
          | None =>
              if existsb (fun x => is_it (p_base x)) (sm_parameters model)
                 || existsb (fun c => String.eqb (c_id c) i)
                            (sm_compartments model)
              then Some ElOther
              else None
          end
      end
  end.

(** The cobra collections a member is looked up in. *)
Record Collections : Type := mkCollections {
  col_metabolites : list Metabolite;
  col_reactions : list CReaction;
  col_genes : list Gene
}.

Definition key_error {A : Type} (i : string) : M A :=
  raise (PyException "KeyError" i).

(** The body of the loop over the members of a group.  The state is the
    variable [obj] (unbound, or bound to [None] or to an element) and the
    members found so far. *)
Definition read_member (f_replace : FReplace) (model : SModel)
  (cols : Collections) (gid : option string)
  (st : option (option element) * list member) (m : Member)
  : M (option (option element) * list member) :=
  let '(obj, members) := st in
  let obj :=
    match m_id_ref m, m_meta_id_ref m with
    | Some i, _ => Some (find_element sb_id model i)
    | None, Some i => Some (find_element sb_meta_id model i)
    | None, None => obj
    end in
  match obj with
  | None =>
      raise (PyException "UnboundLocalError"
               "local variable 'obj' referenced before assignment")
  | Some None =>
      raise (PyException "AttributeError"
               "'NoneType' object has no attribute 'getTypeCode'")
  | Some (Some (ElSpecies obj_id)) =>
      let obj_id := apply_f (F_SPECIE f_replace) obj_id in
      match get_by_id met_id (col_metabolites cols) obj_id with
      | Some x => ret (obj, members ++ [MemMetabolite x])
      | None => key_error obj_id
      end
  | Some (Some (ElReaction obj_id)) =>
      let obj_id := apply_f (F_REACTION f_replace) obj_id in
      match get_by_id rxn_id (col_reactions cols) obj_id with
      | Some x => ret (obj, members ++ [MemReaction x])
      | None => key_error obj_id
      end
  | Some (Some (ElGeneProduct obj_id)) =>
      let obj_id := apply_f (F_GENE f_replace) obj_id in
      match get_by_id gene_id (col_genes cols) obj_id with
      | Some x => ret (obj, members ++ [MemGene x])
      | None => key_error obj_id
      end
  | Some (Some ElOther) => warn (WarnMemberType gid) ;;; ret (obj, members)
  end.

(** The body of the loop over the groups of the groups plugin. *)
Definition read_group (f_replace : FReplace) (model : SModel)
  (cols : Collections) (st : option (option element) * list CGroup) (g : Group)
  : M (option (option element) * list CGroup) :=
  let '(obj, groups) := st in
  ann <- _parse_annotations (g_base g) ;;
  let notes := _parse_notes_dict (sb_notes (g_base g)) in
  r <- foldM (read_member f_replace model cols (sb_id (g_base g)))
             (g_members g) (obj, []) ;;
  ret (fst r,
       groups ++ [ {| grp_id := getId_str (g_base g);
                      grp_name := Some (getName (g_base g));
                      grp_kind := g_kind g;
                      grp_members := snd r;
                      grp_notes := notes;
                      grp_annotation := ann |} ]).

(** [groups_dict]: the reactions of each SUBSYSTEM note, in the order the
    subsystems first appear. *)
Definition subsystem_groups (reactions : list CReaction)
  : dict (list CReaction) :=
  fold_left
    (fun groups_dict reaction =>
       match dict_get (rxn_notes reaction) "SUBSYSTEM" with
       | Some g_name =>
           match dict_get groups_dict g_name with
           | Some l => dict_set groups_dict g_name (l ++ [reaction])
           | None => dict_set groups_dict g_name [reaction]
           end
       | None => groups_dict
       end)
    reactions [].

(** The groups of the model: from the groups plugin, else from the
    deprecated subsystems of the reactions.  [obj0] is the state of the
    variable [obj] left by the objective. *)
Definition read_groups (f_replace : FReplace) (model : SModel)
  (cols : Collections) (obj0 : option (option element)) : M (list CGroup) :=
  match sm_groups model with
  | Some model_groups =>
      r <- foldM (read_group f_replace model cols) model_groups (obj0, []) ;;
      ret (snd r)
  | None =>
      ret (map (fun kv =>
                  {| grp_id := fst kv; grp_name := Some (fst kv);
                     grp_kind := Some "collection";
                     grp_members := map MemReaction (snd kv);
                     grp_notes := []; grp_annotation := [] |})
               (subsystem_groups (col_reactions cols)))
  end.

(** The packages of the document, with a warning for each one that is
    neither [fbc] nor [groups]. *)
Definition read_package (packages : dict nat) (plugin : string * nat)
  : M (dict nat) :=
  let '(key, value) := plugin in
  when_ (negb (String.eqb key "fbc" || String.eqb key "groups"))
        (warn (WarnPackage key)) ;;;
  ret (dict_set packages key value).

(** The checks on the FBC plugin at the start of the reader. *)
Definition check_fbc (doc : SBMLDocument) (model : SModel) : M unit :=
  match sm_fbc model with
  | None => warn WarnNoFbc
  | Some model_fbc =>
      when_ (match fm_strict model_fbc with
             | None => true
             | Some _ => false
             end)
            (warn WarnNotStrict) ;;;
      match dict_get (doc_plugins doc) "fbc" with
      | None =>
          raise (PyException "AttributeError"
                   "'NoneType' object has no attribute 'getPackageVersion'")
      | Some fbc_version =>
          if Nat.eqb fbc_version 1 then
            warn WarnFbcV1 ;;;
            if doc_v1_converts doc then ret tt
            else raise (PyException "Exception"
                          "Conversion of SBML fbc v1 to fbc v2 failed")
          else ret tt
      end
  end.

(** The state of the variable [obj] after the objective has been read: it is
    bound only when the active objective was looked up. *)
Definition obj_after_objective (model : SModel) : option (option element) :=
  match sm_fbc model with
  | Some model_fbc =>
      match fm_objectives model_fbc with
      | None => None
      | Some [] => None
      | Some _ =>
          if Nat.eqb (String.length (fm_active_objective model_fbc)) 0
          then None
          else Some (Some ElOther)
      end
  | None => None
  end.

(** Creates cobra model from SBMLDocument. *)
Definition _sbml_to_model (doc : SBMLDocument) (f_replace : FReplace)
  : M CModel :=
  match doc_model doc with
  | None => raise (CobraSBMLError "No SBML model detected in file.")
  | Some model =>
      check_fbc doc model ;;;
      doc_annotation <- _parse_annotations (doc_base doc) ;;
      packages <- foldM read_package (doc_plugins doc) [] ;;
      let meta := {| meta_model_id := sb_id (sm_base model);
                     meta_level := sm_level model;
                     meta_version := sm_version model;
                     meta_packages := packages;
                     meta_notes := _parse_notes_dict (sb_notes (doc_base doc));
                     meta_annotation := doc_annotation |} in
      let notes := _parse_notes_dict (sb_notes (sm_base model)) in
      ann <- _parse_annotations (sm_base model) ;;
      let compartments :=
        dict_of_items (map (fun c => (c_id c, c_name c))
                           (sm_compartments model)) in
      sp <- read_all_species f_replace model ;;
      let '(boundary_ids, metabolites) := sp in
      genes <- match sm_fbc model with
               | Some model_fbc =>
                   foldM (read_gene_product f_replace)
                         (fm_gene_products model_fbc) []
               | None =>
                   ret (fold_left (read_genes_from_notes f_replace)
                                  (sm_reactions model) [])
               end ;;
      reactions <- foldM (read_reaction f_replace model boundary_ids metabolites)
                         (sm_reactions model) [] ;;
      objective <- read_objective f_replace model reactions ;;
      let cols := {| col_metabolites := metabolites;
                     col_reactions := reactions;
                     col_genes := genes |} in
      groups <- read_groups f_replace model cols (obj_after_objective model) ;;
      ret {| cm_id := sb_id (sm_base model);
             cm_name := Some (getName (sm_base model));
             cm_sbml := Some meta;
             cm_notes := notes;
             cm_annotation := ann;
             cm_compartments := compartments;
             cm_metabolites := metabolites;
             cm_genes := genes;
             cm_reactions := reactions;
             cm_groups := groups;
             cm_objective_direction := fst objective;
             cm_objective_coefficients := snd objective |}
  end.

(** The input of the reader and of the validator: what
    [_get_doc_from_filename] gets from libsbml for a path, an SBML string or
    a file handle, or an object of another type. *)
Inductive sbml_input : Type :=
| InDocument (doc : SBMLDocument)
| InUnsupported.

(** Get SBMLDocument from given filename. *)
Definition _get_doc_from_filename (filename : sbml_input) : M SBMLDocument :=
  match filename with
  | InDocument doc => ret doc
  | InUnsupported =>
      raise (CobraSBMLError "Input format for 'filename' is not supported.")
  end.

(** Reads SBML model from given filename: any exception becomes one
    [CobraSBMLError]. *)
Definition read_sbml_model (filename : sbml_input) (f_replace : FReplace)
  : M CModel :=
  match (doc <- _get_doc_from_filename filename ;; _sbml_to_model doc f_replace) with
  | (l, inl _) =>
      (l, inl (CobraSBMLError
                 "Something went wrong reading the SBML model. You can get a detailed report using the `cobra.io.sbml.validate_sbml_model` function or using the online validator at http://sbml.org/validator"))
  | (l, inr m) => (l, inr m)
  end.

(* ------------------------------------------------------------------ *)
(** * Write SBML *)
(* ------------------------------------------------------------------ *)

Section Writer.

(** libsbml's parser of the infix text of a gene association, which
    [gpa.setAssociation(gpr)] runs; [None] when it rejects the text. *)
Variable parse_infix : string -> option FbcAssociation.

Variable config : Configuration.

(** [min(l)] and [max(l)] of a non-empty list. *)
Definition py_min (x : Z) (l : list Z) : Z := fold_left Z.min l x.
Definition py_max (x : Z) (l : list Z) : Z := fold_left Z.max l x.

(** The three shared bound parameters, created before anything else is
    added to the list of parameters. *)
Definition shared_parameters (cobra_model : CModel) : list SBMLParameter :=
  let '(min_value, max_value) :=
    match cm_reactions cobra_model with
    | r :: rest =>
        (py_min (lower_bound r) (map lower_bound rest),
         py_max (upper_bound r) (map upper_bound rest))
    | [] => (LOWER_BOUND config, UPPER_BOUND config)
    end in
  [ _create_parameter LOWER_BOUND_ID min_value (Some SBO_DEFAULT_FLUX_BOUND)
      true false None;
    _create_parameter UPPER_BOUND_ID max_value (Some SBO_DEFAULT_FLUX_BOUND)
      true false None;
    _create_parameter ZERO_BOUND_ID 0 (Some SBO_DEFAULT_FLUX_BOUND)
      true false None ].

Definition write_compartment (c : string * string) : Compartment :=
  {| c_id := fst c; c_name := snd c; c_constant := true |}.

(** The body of the loop over [cobra_model.metabolites]. *)
Definition write_species (f_replace : FReplace) (met : Metabolite) : M Species :=
  let mid := apply_f (F_SPECIE_REV f_replace) (met_id met) in
  let b := setId new_sbase mid in
  let b := setName b (met_name met) in
  b <- _sbase_annotations b (met_annotation met) ;;
  let b := _sbase_notes_dict b (met_notes met) in
  ret {| s_base := b;
         s_compartment := Some (met_compartment met);
         s_constant := true;
         s_boundary_condition := true;
         s_has_only_substance_units := false;
         s_charge := None;
         s_fbc := Some {| fs_charge := met_charge met;
                          fs_formula := met_formula met |} |}.

(** The body of the loop over [cobra_model.genes]. *)
Definition write_gene (f_replace : FReplace) (gene : Gene) : M GeneProduct :=
  let gid := apply_f (F_GENE_REV f_replace) (gene_id gene) in
  let gname := match gene_name gene with
               | None => gid
               | Some n => if Nat.eqb (String.length n) 0 then gid else n
               end in
  let b := setId new_sbase gid in
  let b := setName b gname in
  b <- _sbase_annotations b (gene_annotation gene) ;;
  let b := _sbase_notes_dict b (gene_notes gene) in
  ret {| gp_base := b; gp_label := Some gid |}.

(** One entry of [reaction._metabolites]: a reactant when the coefficient
    is negative, else a product.  The state is [(reactants, products)]. *)
Definition write_sref (f_replace : FReplace)
  (st : list SpeciesReference * list SpeciesReference) (entry : string * Z)
  : list SpeciesReference * list SpeciesReference :=
  let '(metabolite_id, stoichiometry) := entry in
  let sid := apply_f (F_SPECIE_REV f_replace) metabolite_id in
  if Z.ltb stoichiometry 0 then
    (fst st ++ [ {| sr_species := sid;
                    sr_stoichiometry := Some (- stoichiometry)%Z;
                    sr_constant := true |} ], snd st)
  else
    (fst st, snd st ++ [ {| sr_species := sid;
                           sr_stoichiometry := Some stoichiometry;
                           sr_constant := true |} ]).

(** The rewriting of the ids in a gene-reaction rule. *)
Definition write_gpr_text (f_replace : FReplace) (gpr : string) : string :=
  match F_GENE_REV f_replace with
  | Some f =>
      PyStr.join " "
        (map (fun t =>
                if String.eqb t "and" || String.eqb t "or"
                   || String.eqb t "(" || String.eqb t ")"
                then t else f t)
             (PyStr.split " " gpr))
  | None => gpr
  end.

(** The body of the loop over [cobra_model.reactions].  The state is the
    parameters of the model and the flux objectives of the objective. *)
Definition write_reaction (f_replace : FReplace) (units : bool)
  (flux_udef : option string) (cobra_model : CModel)
  (st : list SBMLParameter * list FluxObjective * list Reaction)
  (reaction : CReaction)
  : M (list SBMLParameter * list FluxObjective * list Reaction) :=
  let '(parameters, flux_objectives, reactions) := st in
  let rid := apply_f (F_REACTION_REV f_replace) (rxn_id reaction) in
  let b := setId new_sbase rid in
  let b := setName b (rxn_name reaction) in
  b <- _sbase_annotations b (rxn_annotation reaction) ;;
  let b := _sbase_notes_dict b (rxn_notes reaction) in
  let srefs := fold_left (write_sref f_replace) (_metabolites reaction) ([], []) in
  when_ (negb units && match flux_udef with None => true | Some _ => false end)
        (raise (PyException "UnboundLocalError"
                  "local variable 'flux_udef' referenced before assignment")) ;;;
  let '(lb_id, lb_new) :=
    _create_bound config reaction lower_bound_attr f_replace units flux_udef in
  let '(ub_id, ub_new) :=
    _create_bound config reaction upper_bound_attr f_replace units flux_udef in
  let gpr := gene_reaction_rule reaction in
  let gpa :=
    if Nat.ltb 0 (String.length gpr)
    then Some {| gpa_association := parse_infix (write_gpr_text f_replace gpr) |}
    else None in
  let flux_objectives :=
    if negb (Z.eqb (objective_coefficient cobra_model reaction) 0)
    then flux_objectives ++
         [ {| fo_reaction := rid;
              fo_coefficient := objective_coefficient cobra_model reaction |} ]
    else flux_objectives in
  ret (parameters ++ lb_new ++ ub_new,
       flux_objectives,
       reactions ++
       [ {| r_base := b;
            r_fast := false;
            r_reversible := Z.ltb (lower_bound reaction) 0;
            r_reactants := fst srefs;
            r_products := snd srefs;
            r_fbc := Some {| fr_lower_flux_bound := Some lb_id;
                             fr_upper_flux_bound := Some ub_id;
                             fr_gpa := gpa |};
            r_kinetic_law := None |} ]).

(** A member of a group: its id rewritten by the transform of its kind. *)
Definition write_member (f_replace : FReplace) (m : member) : Member :=
  let mid :=
    match m with
    | MemReaction _ => apply_f (F_REACTION_REV f_replace) (member_id m)
    | MemMetabolite _ => apply_f (F_SPECIE_REV f_replace) (member_id m)
    | MemGene _ => apply_f (F_GENE_REV f_replace) (member_id m)
    end in
  {| m_id_ref := Some mid;
     m_meta_id_ref := None;
     m_name := match member_name m with
               | Some n => if Nat.ltb 0 (String.length n) then Some n else None
               | None => None
               end |}.

(** What a libsbml setter that takes a string raises when it is handed
    [None]. *)
Definition NONE_FOR_STRING (method : string) : exn :=
  PyException "TypeError"
    ("in method '" ++ method ++ "', argument 2 of type 'std::string const &'").

(** The body of the loop over [cobra_model.groups].  The name goes to
    [setName] unguarded. *)
Definition write_group (f_replace : FReplace) (group : CGroup) : M Group :=
  let b := setId new_sbase (grp_id group) in
  b <- match grp_name group with
       | Some n => ret (setName b n)
       | None => raise (NONE_FOR_STRING "SBase_setName")
       end ;;
  let b := _sbase_notes_dict b (grp_notes group) in
  b <- _sbase_annotations b (grp_annotation group) ;;
  ret {| g_base := b;
         g_kind := grp_kind group;
         g_members := map (write_member f_replace) (grp_members group) |}.

(** [for x in l: out.append(body(x))] *)
Fixpoint mapM {A B : Type} (body : A -> M B) (l : list A) : M (list B) :=
  match l with
  | [] => ret []
  | x :: rest => y <- body x ;; ys <- mapM body rest ;; ret (y :: ys)
  end.

(** Convert Cobra model to SBMLDocument.  The [ModelHistory] the source fills
    from the meta information is never attached to the model and is left
    out. *)
Definition _model_to_sbml (cobra_model : CModel) (f_replace : FReplace)
  (units : bool) : M SBMLDocument :=
  let doc_b := setSBOTerm new_sbase SBO_FBA_FRAMEWORK in
  let model_b := match cm_id cobra_model with
                 | Some i => setId new_sbase i
                 | None => new_sbase
                 end in
  let model_b := match cm_name cobra_model with
                 | Some n => setName model_b n
                 | None => model_b
                 end in
  doc_b <- match cm_sbml cobra_model with
           | Some meta =>
               b <- _sbase_annotations doc_b (meta_annotation meta) ;;
               ret (_sbase_notes_dict b (meta_notes meta))
           | None => ret doc_b
           end ;;
  let unit_definitions :=
    if units then
      [ {| ud_id := UNITS_FLUX_ID;
           ud_units :=
             [ {| u_kind := "mole"; u_scale := -3; u_multiplier := 1;
                  u_exponent := 1 |};
               {| u_kind := "gram"; u_scale := 0; u_multiplier := 1;
                  u_exponent := -1 |};
               {| u_kind := "second"; u_scale := 0; u_multiplier := 3600;
                  u_exponent := -1 |} ] |} ]
    else [] in
  let flux_udef := if units then Some UNITS_FLUX_ID else None in
  let parameters := shared_parameters cobra_model in
  let compartments := map write_compartment (cm_compartments cobra_model) in
  species <- mapM (write_species f_replace) (cm_metabolites cobra_model) ;;
  gene_products <- mapM (write_gene f_replace) (cm_genes cobra_model) ;;
  objective_type <-
    match dict_get SHORT_LONG_DIRECTION (cm_objective_direction cobra_model) with
    | Some t => ret t
    | None => raise (PyException "KeyError" (cm_objective_direction cobra_model))
    end ;;
  rs <- foldM (write_reaction f_replace units flux_udef cobra_model)
              (cm_reactions cobra_model) (parameters, [], []) ;;
  let '(parameters, flux_objectives, reactions) := rs in
  groups <- match cm_groups cobra_model with
            | [] => ret None
            | gs => l <- mapM (write_group f_replace) gs ;; ret (Some l)
            end ;;
  ret {| doc_base := doc_b;
         doc_model :=
           Some {| sm_base := model_b;
                   sm_level := 3;
                   sm_version := 1;
                   sm_unit_definitions := unit_definitions;
                   sm_parameters := parameters;
                   sm_compartments := compartments;
                   sm_species := species;
                   sm_reactions := reactions;
                   sm_fbc :=
                     Some {| fm_strict := Some true;
                             fm_gene_products := gene_products;
                             fm_objectives :=
                               Some [ {| o_id := "obj";
                                         o_type := objective_type;
                                         o_flux_objectives := flux_objectives |} ];
                             fm_active_objective := "obj" |};
                   sm_groups := groups |};
         doc_plugins :=
           ("fbc", 2) :: match groups with
                         | Some _ => [("groups", 1)]
                         | None => []
                         end;
         doc_required :=
           ("fbc", false) :: match groups with
                             | Some _ => [("groups", false)]
                             | None => []
                             end;
         doc_v1_converts := true |}.

End Writer.

(* ------------------------------------------------------------------ *)
(** * Validation *)
(* ------------------------------------------------------------------ *)

(** The severities of the errors libsbml reports on a document. *)
Inductive severity : Type :=
| LIBSBML_SEV_INFO
| LIBSBML_SEV_WARNING
| LIBSBML_SEV_ERROR
| LIBSBML_SEV_FATAL
| LIBSBML_SEV_SCHEMA_ERROR.

Section Validator.

(** [check_metabolite_compartment_formula] of [cobra.manipulation.validate],
    which is not part of this module. *)
Variable check_metabolite_compartment_formula : CModel -> list string.

(** The errors libsbml holds for the document after its consistency checks,
    each with the text [_error_string] gives it. *)
Variable libsbml_errors : list (severity * string).

(** The warnings of the [warnings] module recorded while the model is
    read. *)
Variable warning_list : list string.

(** [errors[group].append(err_msg)] *)
Definition err (errors : dict (list string)) (err_msg group : string)
  : M (dict (list string)) :=
  match dict_get errors group with
  | Some l => ret (dict_set errors group (l ++ [err_msg]))
  | None => raise (PyException "KeyError" group)
  end.

(** The body of the loop over the errors of the document. *)
Definition record_libsbml_error (errors : dict (list string))
  (e : severity * string) : M (dict (list string)) :=
  match fst e with
  | LIBSBML_SEV_FATAL => err errors (snd e) "SBML_FATAL"
  | LIBSBML_SEV_ERROR => err errors (snd e) "SBML_ERROR"
  | LIBSBML_SEV_SCHEMA_ERROR => err errors (snd e) "SBML_SCHEMA_ERROR"
  | LIBSBML_SEV_WARNING => err errors (snd e) "SBML_WARNING"
  | LIBSBML_SEV_INFO => ret errors
  end.

(** [errors[key].extend(l)] on a key the dictionary has. *)
Definition extend (errors : dict (list string)) (key : string) (l : list string)
  : dict (list string) :=
  match dict_get errors key with
  | Some old => dict_set errors key (old ++ l)
  | None => errors
  end.

(** Validate SBML model and returns the model along with a list of
    errors. *)
Definition validate_sbml_model (filename : sbml_input) (use_libsbml : bool)
  (check_model : bool) : M (option CModel * dict (list string)) :=
  let errors : dict (list string) :=
    [("validator", []); ("warnings", []); ("other", []); ("SBML errors", [])] in
  let errors :=
    if use_libsbml
    then errors ++ [("SBML_FATAL", []); ("SBML ERROR", []);
                    ("SBML_SCHEMA_ERROR", []); ("SBML_WARNING", [])]
    else errors in
  doc <- _get_doc_from_filename filename ;;
  match doc_model doc with
  | None => raise (CobraSBMLError "No SBML model detected in file.")
  | Some _ =>
      errors <- (if use_libsbml
                 then foldM record_libsbml_error libsbml_errors errors
                 else ret errors) ;;
      match _sbml_to_model doc F_NONE with
      | (l, inl (CobraSBMLError msg)) =>
          match err errors msg "SBML errors" with
          | (l', r) => (l ++ l', match r with
                                 | inl e => inl e
                                 | inr errors => inr (None, errors)
                                 end)
          end
      | (l, inl e) =>
          match err errors (exn_str e) "other" with
          | (l', r) => (l ++ l', match r with
                                 | inl e => inl e
                                 | inr errors => inr (None, errors)
                                 end)
          end
      | (l, inr model) =>
          let errors := extend errors "warnings" warning_list in
          let errors :=
            if check_model
            then extend errors "validator"
                        (check_metabolite_compartment_formula model)
            else errors in
          (l, inr (Some model, errors))
      end
  end.

End Validator.

(* ------------------------------------------------------------------ *)
(** * Vocabulary of the properties *)
(* ------------------------------------------------------------------ *)

(** The keys of a dictionary, in order. *)
Definition keys {V : Type} (d : dict V) : list string := map fst d.

(** When does an id survive [restore] after [strip]: for a gene id, its text
    has no dot and no placeholder starts on the underscore of the prefix. *)
Definition restorable (k : entity_kind) (x : string) : Prop :=
  match k with
  | KGene =>
      PyStr.has_char "." x = false
      /\ String.prefix SBML_DOT (PyStr.drop 1 x) = false
  | KSpecie | KReaction => True
  end.

(** When is [strip] without effect on an id that lacks the prefix: for a
    gene id, it does not hold the placeholder. *)
Definition unescaped (k : entity_kind) (x : string) : Prop :=
  match k with
  | KGene => PyStr.contains SBML_DOT x = false
  | KSpecie | KReaction => True
  end.

(** A parameter made for one bound of one reaction: a constant tagged with
    the flux bound ontology term. *)
Definition is_flux_bound_parameter (p : SBMLParameter) : Prop :=
  sb_sbo (p_base p) = Some SBO_FLUX_BOUND /\ p_constant p = true.

(** The configured default and the shared id that correspond to a kind of
    bound. *)
Definition default_of (config : Configuration) (bt : bound_type) : Z :=
  match bt with
  | lower_bound_attr => LOWER_BOUND config
  | upper_bound_attr => UPPER_BOUND config
  end.

Definition default_id (bt : bound_type) : string :=
  match bt with
  | lower_bound_attr => LOWER_BOUND_ID
  | upper_bound_attr => UPPER_BOUND_ID
  end.

(** [<reaction-id>_<bound_kind>], the reaction id as the document has it. *)
Definition bound_parameter_id (f_replace : FReplace) (reaction : CReaction)
  (bt : bound_type) : string :=
  (apply_f (F_REACTION_REV f_replace) (rxn_id reaction) ++ "_"
     ++ bound_type_name bt)%string.

(** The annotation of the round-trip example and the term it becomes. *)
Definition chebi_annotation : annotation := [("chebi", AStr "CHEBI:17234")].

Definition chebi_term : CVTerm :=
  {| cv_qualifier_type := BIOLOGICAL_QUALIFIER;
     cv_qualifier := BQB_IS;
     cv_resources := ["https://identifiers.org/chebi/CHEBI:17234"] |}.

(* ------------------------------------------------------------------ *)
(** * Sample models and documents *)
(* ------------------------------------------------------------------ *)

Module Samples.

Definition met_a : Metabolite :=
  {| met_id := "a_c"; met_name := "A"; met_notes := [];
     met_annotation := [("chebi", AStr "CHEBI:17234")];
     met_compartment := "c"; met_charge := Some (-2)%Z;
     met_formula := Some "C6H12O6" |}.

Definition met_b : Metabolite :=
  {| met_id := "b_c"; met_name := "B"; met_notes := [];
     met_annotation := []; met_compartment := "c";
     met_charge := Some 0%Z; met_formula := Some "C3H6O3" |}.

(** A reaction with the configured default bounds. *)
Definition rxn_1 : CReaction :=
  {| rxn_id := "r1"; rxn_name := "first"; rxn_annotation := [];
     rxn_notes := []; lower_bound := -1000; upper_bound := 1000;
     _metabolites := [("a_c", (-1)%Z); ("b_c", 2%Z)];
     gene_reaction_rule := "" |}.

(** A reaction whose lower bound is below the configured default. *)
Definition rxn_2 : CReaction :=
  {| rxn_id := "r2"; rxn_name := "second"; rxn_annotation := [];
     rxn_notes := []; lower_bound := -2000; upper_bound := 1000;
     _metabolites := [("b_c", (-1)%Z)];
     gene_reaction_rule := "" |}.

(** A canonical model: no legacy feature, two reactions. *)
Definition two_reactions : CModel :=
  {| cm_id := Some "toy"; cm_name := Some "toy model"; cm_sbml := None;
     cm_notes := []; cm_annotation := [];
     cm_compartments := [("c", "cytosol")];
     cm_metabolites := [met_a; met_b];
     cm_genes := [];
     cm_reactions := [rxn_1; rxn_2];
     cm_groups := [];
     cm_objective_direction := "max";
     cm_objective_coefficients := [("r1", 1%Z)] |}.

(** The infix parser is not reached when no reaction has a gene rule. *)
Definition no_infix (_ : string) : option FbcAssociation := None.

(** A reaction whose upper bound is the configured default lower bound. *)
Definition rxn_low : CReaction :=
  {| rxn_id := "r3"; rxn_name := ""; rxn_annotation := [];
     rxn_notes := []; lower_bound := -2000; upper_bound := -1000;
     _metabolites := []; gene_reaction_rule := "" |}.

(** A reaction with bounds of its own. *)
Definition rxn_custom : CReaction :=
  {| rxn_id := "r4"; rxn_name := ""; rxn_annotation := [];
     rxn_notes := []; lower_bound := -5; upper_bound := 7;
     _metabolites := []; gene_reaction_rule := "" |}.

(** A model without reactions. *)
Definition no_reactions : CModel :=
  {| cm_id := Some "empty"; cm_name := None; cm_sbml := None;
     cm_notes := []; cm_annotation := [];
     cm_compartments := []; cm_metabolites := [met_a]; cm_genes := [];
     cm_reactions := []; cm_groups := [];
     cm_objective_direction := "max"; cm_objective_coefficients := [] |}.

(** A kinetic law with the bounds, and the objective coefficient if any, of
    a legacy document. *)
Definition kinetic_law (lb ub : Z) (oc : option Z) : KineticLaw :=
  {| kl_parameters :=
       [("LOWER_BOUND", lb); ("UPPER_BOUND", ub)]
       ++ match oc with
          | Some c => [("OBJECTIVE_COEFFICIENT", c)]
          | None => []
          end |}.

(** A reaction of a legacy document: no FBC plugin, notes and a kinetic
    law. *)
Definition legacy_reaction (i notes : string) (klaw : KineticLaw)
  (reactants products : list SpeciesReference) : Reaction :=
  {| r_base := setNotes (setId new_sbase i) notes;
     r_fast := false; r_reversible := false;
     r_reactants := reactants; r_products := products;
     r_fbc := None; r_kinetic_law := Some klaw |}.

(** A legacy document: level 2, no package. *)
Definition legacy_document (species : list Species) (reactions : list Reaction)
  : SBMLDocument :=
  {| doc_base := new_sbase;
     doc_model :=
       Some {| sm_base := setId new_sbase "legacy";
               sm_level := 2; sm_version := 4;
               sm_unit_definitions := []; sm_parameters := [];
               sm_compartments := [ {| c_id := "c"; c_name := "cytosol";
                                       c_constant := true |} ];
               sm_species := species; sm_reactions := reactions;
               sm_fbc := None; sm_groups := None |};
     doc_plugins := []; doc_required := []; doc_v1_converts := true |}.

(** A legacy document whose reaction carries a parenthesized gene
    association in its notes. *)
Definition gpr_note_document : SBMLDocument :=
  legacy_document []
    [ legacy_reaction "R_r1" "<p>GENE_ASSOCIATION: (g1 and g2)</p>"
        (kinetic_law 0 1000 None) [] [] ].

(** The same document with the association written without parentheses. *)
Definition bare_gpr_note_document : SBMLDocument :=
  legacy_document []
    [ legacy_reaction "R_r1" "<p>GENE_ASSOCIATION: g1 and g2</p>"
        (kinetic_law 0 1000 None) [] [] ].

(** A legacy document with two reactions whose kinetic laws hold different
    objective coefficients. *)
Definition klaw_objective_document : SBMLDocument :=
  legacy_document []
    [ legacy_reaction "R_a" "" (kinetic_law 0 1000 (Some 1%Z)) [] [];
      legacy_reaction "R_b" "" (kinetic_law 0 1000 (Some 0%Z)) [] [] ].

Definition species_of (i : string) (boundary : bool) : Species :=
  {| s_base := setId new_sbase i; s_compartment := Some "c";
     s_constant := false; s_boundary_condition := boundary;
     s_has_only_substance_units := false; s_charge := None;
     s_fbc := None |}.

(** A legacy document with one species that carries its charge and its
    formula in its notes. *)
Definition charge_note_document (charge : string) : SBMLDocument :=
  legacy_document
    [ {| s_base := setNotes (setId new_sbase "M_a")
                     ("<p>CHARGE: " ++ charge
                        ++ "</p><p>FORMULA: C6H12O6</p>")%string;
         s_compartment := Some "c"; s_constant := false;
         s_boundary_condition := false;
         s_has_only_substance_units := false; s_charge := None;
         s_fbc := None |} ]
    [].

Definition sref (i : string) (n : Z) : SpeciesReference :=
  {| sr_species := i; sr_stoichiometry := Some n; sr_constant := true |}.

(** A document with a boundary species [M_a] consumed by a reaction. *)
Definition boundary_document : SBMLDocument :=
  legacy_document
    [ species_of "M_a" true; species_of "M_b" false ]
    [ legacy_reaction "R_r" "" (kinetic_law 0 1000 None)
        [sref "M_a" 1] [sref "M_b" 1] ].

(** A document without a model, as libsbml returns for a text that is not
    SBML. *)
Definition no_model_document : SBMLDocument :=
  {| doc_base := new_sbase; doc_model := None; doc_plugins := [];
     doc_required := []; doc_v1_converts := true |}.

(** A document whose only reaction has no flux bounds at all. *)
Definition no_bounds_document : SBMLDocument :=
  legacy_document []
    [ {| r_base := setId new_sbase "R_x"; r_fast := false;
         r_reversible := false; r_reactants := []; r_products := [];
         r_fbc := None; r_kinetic_law := None |} ].

(** A semantic checker that finds nothing. *)
Definition no_findings (_ : CModel) : list string := [].

End Samples.
(* ------------------------------------------------------------------ *)
(** * Vocabulary of further properties *)
(* ------------------------------------------------------------------ *)

(** A gene id that [strip] gives back after [restore]: it has no
    underscore.  Ids of the other kinds always come back. *)
Definition reversible_id (k : entity_kind) (x : string) : Prop :=
  match k with
  | KGene => PyStr.has_char "_" x = false
  | KSpecie | KReaction => True
  end.

(** An annotation entry made of a provider other than the ontology-term keys
    and one bare entity id, neither holding a slash. *)
Definition plain_entry (kv : string * annot_value) : Prop :=
  match snd kv with
  | AStr e =>
      PyStr.has_char "/" (fst kv) = false
      /\ PyStr.has_char "/" e = false
      /\ String.eqb (fst kv) "SBO" = false
      /\ String.eqb (fst kv) "sbo" = false
  | AList _ => False
  end.

(** The resource [_sbase_annotations] makes of an entry with a bare entity
    id, and the term with the qualifier [is] that holds resources. *)
Definition resource_of (kv : string * annot_value) : string :=
  (URL_IDENTIFIERS_PREFIX ++ "/" ++ fst kv ++ "/"
     ++ match snd kv with
        | AStr e => e
        | AList _ => ""
        end)%string.

Definition is_term (resources : list string) : CVTerm :=
  {| cv_qualifier_type := BIOLOGICAL_QUALIFIER;
     cv_qualifier := BQB_IS;
     cv_resources := resources |}.






Section WrittenReaction.

Variable parse_infix : string -> option FbcAssociation.
Variable config : Configuration.
Variable f_replace : FReplace.
Variable units : bool.
Variable flux_udef : option string.
Variable cobra_model : CModel.

(** The parameters the writer adds for the two bounds of a reaction. *)
Definition new_parameters (reaction : CReaction) : list SBMLParameter :=
  snd (_create_bound config reaction lower_bound_attr f_replace units flux_udef)
  ++ snd (_create_bound config reaction upper_bound_attr f_replace units
            flux_udef).

(** The flux objective the writer adds for a reaction: one when its
    objective coefficient is not zero. *)
Definition new_flux_objectives (reaction : CReaction) : list FluxObjective :=
  if negb (Z.eqb (objective_coefficient cobra_model reaction) 0)
  then [ {| fo_reaction := apply_f (F_REACTION_REV f_replace) (rxn_id reaction);
            fo_coefficient := objective_coefficient cobra_model reaction |} ]
  else [].

(** The reaction element [w] is what the writer makes of [reaction]. *)
Definition written_as (reaction : CReaction) (w : Reaction) : Prop :=
  sb_id (r_base w)
  = Some (apply_f (F_REACTION_REV f_replace) (rxn_id reaction))
  /\ sb_name (r_base w) = Some (rxn_name reaction)
  /\ r_reactants w
     = fst (fold_left (write_sref f_replace) (_metabolites reaction) ([], []))
  /\ r_products w
     = snd (fold_left (write_sref f_replace) (_metabolites reaction) ([], []))
  /\ r_kinetic_law w = None
  /\ r_reversible w = Z.ltb (lower_bound reaction) 0
  /\ r_fbc w
     = Some {| fr_lower_flux_bound :=
                 Some (fst (_create_bound config reaction lower_bound_attr
                              f_replace units flux_udef));
               fr_upper_flux_bound :=
                 Some (fst (_create_bound config reaction upper_bound_attr
                              f_replace units flux_udef));
               fr_gpa :=
                 if Nat.ltb 0 (String.length (gene_reaction_rule reaction))
                 then Some {| gpa_association :=
                                parse_infix
                                  (write_gpr_text f_replace
                                     (gene_reaction_rule reaction)) |}
                 else None |}.

End WrittenReaction.

(** The species element [s] is what the writer makes of [met]. *)
Definition species_written_as (f_replace : FReplace) (met : Metabolite)
  (s : Species) : Prop :=
  sb_id (s_base s) = Some (apply_f (F_SPECIE_REV f_replace) (met_id met))
  /\ sb_name (s_base s) = Some (met_name met)
  /\ s_compartment s = Some (met_compartment met)
  /\ s_fbc s = Some {| fs_charge := met_charge met;
                       fs_formula := met_formula met |}
  /\ s_charge s = None.

(** The gene product [gp] is what the writer makes of [gene]. *)
Definition gene_written_as (f_replace : FReplace) (gene : Gene)
  (gp : GeneProduct) : Prop :=
  sb_id (gp_base gp) = Some (apply_f (F_GENE_REV f_replace) (gene_id gene))
  /\ gp_label gp = Some (apply_f (F_GENE_REV f_replace) (gene_id gene))
  /\ sb_name (gp_base gp)
     = Some (match gene_name gene with
             | None => apply_f (F_GENE_REV f_replace) (gene_id gene)
             | Some n =>
                 if Nat.eqb (String.length n) 0
                 then apply_f (F_GENE_REV f_replace) (gene_id gene)
                 else n
             end).

(** A bound value that resolves to one of the three shared parameters. *)
Definition shared_value (config : Configuration) (v : Z) : Prop :=
  v = LOWER_BOUND config \/ v = 0%Z \/ v = UPPER_BOUND config.

(** The values the writer stores in the shared parameters of the default
    bounds. *)
Definition min_value (config : Configuration) (cobra_model : CModel) : Z :=
  match cm_reactions cobra_model with
  | r :: rest => py_min (lower_bound r) (map lower_bound rest)
  | [] => LOWER_BOUND config
  end.

Definition max_value (config : Configuration) (cobra_model : CModel) : Z :=
  match cm_reactions cobra_model with
  | r :: rest => py_max (upper_bound r) (map upper_bound rest)
  | [] => UPPER_BOUND config
  end.



(** The id of a parameter, as [getParameter] compares it. *)
Definition parameter_id (p : SBMLParameter) : string := getId_str (p_base p).

Definition shared_ids : list string :=
  [LOWER_BOUND_ID; UPPER_BOUND_ID; ZERO_BOUND_ID].

(* ------------------------------------------------------------------ *)
(** * Further sample models and documents *)
(* ------------------------------------------------------------------ *)

Module MoreSamples.

Definition plain_reaction (i : string) (lb ub : Z) : CReaction :=
  {| rxn_id := i; rxn_name := ""; rxn_annotation := []; rxn_notes := [];
     lower_bound := lb; upper_bound := ub; _metabolites := [];
     gene_reaction_rule := "" |}.

(** A model of three reactions whose bounds are all configured defaults or
    zero. *)
Definition default_bounds_model : CModel :=
  {| cm_id := Some "defaults"; cm_name := None; cm_sbml := None;
     cm_notes := []; cm_annotation := [];
     cm_compartments := []; cm_metabolites := []; cm_genes := [];
     cm_reactions := [ plain_reaction "r1" (-1000) 1000;
                       plain_reaction "r2" 0 1000;
                       plain_reaction "r3" (-1000) 0 ];
     cm_groups := [];
     cm_objective_direction := "max"; cm_objective_coefficients := [] |}.

(** A model with the configured default bounds, bounds of its own and a
    zero bound. *)
Definition custom_bounds_model : CModel :=
  {| cm_id := Some "custom"; cm_name := None; cm_sbml := None;
     cm_notes := []; cm_annotation := [];
     cm_compartments := []; cm_metabolites := []; cm_genes := [];
     cm_reactions := [ plain_reaction "r1" (-1000) 1000;
                       plain_reaction "r2" (-5) 7;
                       plain_reaction "r3" 0 1000 ];
     cm_groups := [];
     cm_objective_direction := "max"; cm_objective_coefficients := [] |}.

(** A legacy document whose species carry the charge and the formula in
    the deprecated places: notes, the charge attribute, or a note that is
    no numeral. *)
Definition legacy_species_document : SBMLDocument :=
  Samples.legacy_document
    [ {| s_base := setNotes (setId new_sbase "M_a")
                     "<p>CHARGE: 2</p><p>FORMULA: C6H12O6</p>";
         s_compartment := Some "c"; s_constant := false;
         s_boundary_condition := false;
         s_has_only_substance_units := false; s_charge := None;
         s_fbc := None |};
      {| s_base := setNotes (setId new_sbase "M_b") "<p>CHARGE: 5</p>";
         s_compartment := Some "c"; s_constant := false;
         s_boundary_condition := false;
         s_has_only_substance_units := false; s_charge := Some 1%Z;
         s_fbc := None |};
      {| s_base := setNotes (setId new_sbase "M_c") "<p>CHARGE: NA</p>";
         s_compartment := Some "c"; s_constant := false;
         s_boundary_condition := false;
         s_has_only_substance_units := false; s_charge := None;
         s_fbc := None |} ]
    [].

(** A legacy document whose reactions carry SUBSYSTEM notes. *)
Definition subsystem_document : SBMLDocument :=
  Samples.legacy_document []
    [ Samples.legacy_reaction "R_r1" "<p>SUBSYSTEM: Glycolysis</p>"
        (Samples.kinetic_law 0 1000 None) [] [];
      Samples.legacy_reaction "R_r2" "<p>SUBSYSTEM: Transport</p>"
        (Samples.kinetic_law 0 1000 None) [] [];
      Samples.legacy_reaction "R_r3" "<p>SUBSYSTEM: Glycolysis</p>"
        (Samples.kinetic_law 0 1000 None) [] [];
      Samples.legacy_reaction "R_r4" "" (Samples.kinetic_law 0 1000 None)
        [] [] ].

(** A model with two genes, one without a name. *)
Definition gene_model : CModel :=
  {| cm_id := Some "genes"; cm_name := None; cm_sbml := None;
     cm_notes := []; cm_annotation := [];
     cm_compartments := []; cm_metabolites := [];
     cm_genes := [ {| gene_id := "b0001.2"; gene_name := Some "thrL";
                      gene_annotation := []; gene_notes := [] |};
                   {| gene_id := "b0002"; gene_name := None;
                      gene_annotation := []; gene_notes := [] |} ];
     cm_reactions := []; cm_groups := [];
     cm_objective_direction := "max"; cm_objective_coefficients := [] |}.

(** A document with an FBC plugin that holds two gene products, one
    without a name, and nothing else. *)
Definition gene_product_document : SBMLDocument :=
  {| doc_base := new_sbase;
     doc_model :=
       Some {| sm_base := setId new_sbase "genes";
               sm_level := 3; sm_version := 1;
               sm_unit_definitions := []; sm_parameters := [];
               sm_compartments := []; sm_species := []; sm_reactions := [];
               sm_fbc :=
                 Some {| fm_strict := Some true;
                         fm_gene_products :=
                           [ {| gp_base := setName (setId new_sbase "G_b0001")
                                             "thrL";
                                gp_label := Some "G_b0001" |};
                             {| gp_base := setId new_sbase "G_b0002";
                                gp_label := Some "G_b0002" |} ];
                         fm_objectives := Some [];
                         fm_active_objective := "" |};
               sm_groups := None |};
     doc_plugins := [("fbc", 2)]; doc_required := [("fbc", false)];
     doc_v1_converts := true |}.

(** The model element of a document, or an empty model. *)
Definition model_of (doc : SBMLDocument) : SModel :=
  match doc_model doc with
  | Some model => model
  | None =>
      {| sm_base := new_sbase; sm_level := 0; sm_version := 0;
         sm_unit_definitions := []; sm_parameters := [];
         sm_compartments := []; sm_species := []; sm_reactions := [];
         sm_fbc := None; sm_groups := None |}
  end.

(** A reaction whose association is [(b0001 and b0002) or b0003], with the
    gene ids as the writer stores them. *)
Definition association_reaction : Reaction :=
  {| r_base := setId new_sbase "R_r1";
     r_fast := false; r_reversible := true;
     r_reactants := []; r_products := [];
     r_fbc :=
       Some {| fr_lower_flux_bound := Some "cobra_default_lb";
               fr_upper_flux_bound := Some "cobra_default_ub";
               fr_gpa :=
                 Some {| gpa_association :=
                           Some (FbcOr [FbcAnd [GeneProductRef "G_b0001";
                                                GeneProductRef "G_b0002"];
                                        GeneProductRef "G_b0003"]) |} |};
     r_kinetic_law := None |}.

(** A model element that holds the two default bound parameters and the
    reaction above. *)
Definition association_model : SModel :=
  {| sm_base := setId new_sbase "gpr"; sm_level := 3; sm_version := 1;
     sm_unit_definitions := [];
     sm_parameters :=
       [ {| p_base := setId new_sbase "cobra_default_lb";
            p_value := Some (-1000)%Z; p_constant := true;
            p_units := None |};
         {| p_base := setId new_sbase "cobra_default_ub";
            p_value := Some 1000%Z; p_constant := true;
            p_units := None |} ];
     sm_compartments := []; sm_species := [];
     sm_reactions := [association_reaction];
     sm_fbc := None; sm_groups := None |}.

(** A model element with one species, the collections that hold its
    metabolite, a member that refers to the species and a member without a
    reference. *)
Definition member_model : SModel :=
  model_of (Samples.legacy_document [Samples.species_of "M_a_c" false] []).

Definition member_collections : Collections :=
  {| col_metabolites := [Samples.met_a]; col_reactions := [];
     col_genes := [] |}.

Definition member_by_id : Member :=
  {| m_id_ref := Some "M_a_c"; m_meta_id_ref := None; m_name := None |}.

Definition member_bare : Member :=
  {| m_id_ref := None; m_meta_id_ref := None; m_name := None |}.

End MoreSamples.

(** The metabolite [met] is what the reader makes of the species [s].  The
    name and the compartment are those of the species, the empty string
    when it has none.  The charge and the formula come from the FBC plugin
    when the species has one, zero and the empty string when the plugin does
    not set them; else the charge comes from the attribute of the species,
    else from the CHARGE note when it is a numeral, and the formula from the
    FORMULA note. *)
Definition species_read_as (f_replace : FReplace) (s : Species)
  (met : Metabolite) : Prop :=
  option_map (apply_f (F_SPECIE f_replace)) (sb_id (s_base s))
  = Some (met_id met)
  /\ met_name met = match sb_name (s_base s) with
                    | Some n => n
                    | None => ""
                    end
  /\ met_compartment met = match s_compartment s with
                           | Some c => c
                           | None => ""
                           end
  /\ met_notes met = _parse_notes_dict (sb_notes (s_base s))
  /\ match s_fbc s, s_charge s with
     | Some s_fbc, _ =>
         met_charge met = Some (match fs_charge s_fbc with
                                | Some c => c
                                | None => 0%Z
                                end)
     | None, Some c => met_charge met = Some c
     | None, None =>
         match dict_get (_parse_notes_dict (sb_notes (s_base s))) "CHARGE" with
         | Some txt => met_charge met = py_int txt
         | None => met_charge met = None
         end
     end
  /\ met_formula met
     = match s_fbc s with
       | Some s_fbc => Some (match fs_formula s_fbc with
                             | Some x => x
                             | None => ""
                             end)
       | None => dict_get (_parse_notes_dict (sb_notes (s_base s))) "FORMULA"
       end.

(** The id [i] is the document id of a species whose boundary-condition
    flag is set. *)
Definition boundary_species_id (model : SModel) (i : string) : Prop :=
  exists s, In s (sm_species model)
            /\ s_boundary_condition s = true
            /\ getId_str (s_base s) = i.

(** The first entry of [l] with the key [k] has the value [v]. *)
Definition first_entry {V : Type} (l : list (string * V)) (k : string)
  (v : V) : Prop :=
  exists before after,
    l = before ++ (k, v) :: after
    /\ Forall (fun e => fst e <> k) before.

(** The first parameter of the model with the id [pid] is a constant with
    the value [v]. *)
Definition constant_parameter (model : SModel) (pid : string) (v : Z)
  : Prop :=
  exists before p after,
    sm_parameters model = before ++ p :: after
    /\ Forall (fun q => parameter_id q <> pid) before
    /\ parameter_id p = pid
    /\ p_constant p = true
    /\ p_value p = Some v.

(** The bounds the document gives the reaction [r]: when the reaction has
    an FBC plugin, the values of the two constant parameters the plugin
    names as lower and as upper flux bound; otherwise the values of the
    parameters LOWER_BOUND and UPPER_BOUND of its kinetic law. *)
Definition document_bounds (model : SModel) (r : Reaction) (lb ub : Z)
  : Prop :=
  match r_fbc r with
  | Some plugin =>
      exists lb_id ub_id,
        fr_lower_flux_bound plugin = Some lb_id
        /\ fr_upper_flux_bound plugin = Some ub_id
        /\ constant_parameter model lb_id lb
        /\ constant_parameter model ub_id ub
  | None =>
      exists klaw,
        r_kinetic_law r = Some klaw
        /\ first_entry (kl_parameters klaw) "LOWER_BOUND" lb
        /\ first_entry (kl_parameters klaw) "UPPER_BOUND" ub
  end.

(** The cobra reaction [cr] is what the reader makes of the reaction [r] of
    the document. *)
Definition reaction_read_as (f_replace : FReplace) (model : SModel)
  (r : Reaction) (cr : CReaction) : Prop :=
  option_map (apply_f (F_REACTION f_replace)) (sb_id (r_base r))
  = Some (rxn_id cr)
  /\ rxn_name cr = match sb_name (r_base r) with
                   | Some n => n
                   | None => ""
                   end
  /\ rxn_notes cr = _parse_notes_dict (sb_notes (r_base r))
  /\ document_bounds model r (lower_bound cr) (upper_bound cr).

(** Every key of a stoichiometry is the id of a metabolite of [mets] and is
    not in the set of boundary ids. *)
Definition resolved_keys (bids : list string) (mets : list Metabolite)
  (d : dict Z) : Prop :=
  forall k, In k (keys d) ->
            set_mem bids k = false
            /\ exists met, get_by_id met_id mets k = Some met.

(** The same of a list of ids. *)
Definition resolved_ids (bids : list string) (mets : list Metabolite)
  (ids : list string) : Prop :=
  forall k, In k ids ->
            set_mem bids k = false
            /\ exists met, get_by_id met_id mets k = Some met.

(** The rewritten ids of the species the reaction element [r] refers to. *)
Definition referred_ids (f_replace : FReplace) (r : Reaction) : list string :=
  map (fun sref => apply_f (F_SPECIE f_replace) (sr_species sref))
      (r_reactants r ++ r_products r).

(** Every key of the objective coefficients is the id of a reaction of
    [reactions]. *)
Definition resolved_coefficients (reactions : list CReaction) (d : dict Z)
  : Prop :=
  forall k, In k (keys d) ->
            exists cr, get_by_id rxn_id reactions k = Some cr.

(** A group member is one of the objects of the collections. *)
Definition member_of (cols : Collections) (x : member) : Prop :=
  match x with
  | MemMetabolite y => In y (col_metabolites cols)
  | MemReaction y => In y (col_reactions cols)
  | MemGene y => In y (col_genes cols)
  end.

(** The collections of a model. *)
Definition collections (m : CModel) : Collections :=
  {| col_metabolites := cm_metabolites m;
     col_reactions := cm_reactions m;
     col_genes := cm_genes m |}.

(** The gene [gene] is what the reader makes of the gene product [gp]: its
    name is the name of the gene product, the empty string when it has
    none. *)
Definition gene_read_as (f_replace : FReplace) (gp : GeneProduct)
  (gene : Gene) : Prop :=
  gene_id gene = apply_f (F_GENE f_replace) (getId_str (gp_base gp))
  /\ gene_name gene
     = Some (match sb_name (gp_base gp) with
             | Some n => n
             | None => ""
             end)
  /\ gene_notes gene = _parse_notes_dict (sb_notes (gp_base gp)).

(** The gene id tokens the reader takes from the gene-association note of a
    reaction of a document without FBC plugin. *)
Definition notes_gene_tokens (r : Reaction) : list string :=
  let gpr := notes_gpr (_parse_notes_dict (sb_notes (r_base r))) in
  if Nat.ltb 0 (String.length gpr) then gpr_gene_ids gpr else [].




(** An association tree made of the three kinds of node the reader knows. *)
Fixpoint known (ass : FbcAssociation) : bool :=
  match ass with
  | FbcOr cs => forallb known cs
  | FbcAnd cs => forallb known cs
  | GeneProductRef _ => true
  | FbcUnknown => false
  end.

(** The rendered children of an or/and node. *)
Definition rendered_children (f_replace : FReplace)
  (cs : list FbcAssociation) : option (list string) :=
  all_some (map (process_association f_replace) cs).

(** The gene-reaction rule the reader gives a reaction with the
    association [ass]: the children of the root joined by its operator,
    without the outer parentheses. *)
Definition rule_of (f_replace : FReplace) (ass : FbcAssociation)
  : option string :=
  match ass with
  | FbcOr cs =>
      option_map (fun l => PyStr.strip (PyStr.join " or " l))
                 (rendered_children f_replace cs)
  | FbcAnd cs =>
      option_map (fun l => PyStr.strip (PyStr.join " and " l))
                 (rendered_children f_replace cs)
  | GeneProductRef gid =>
      Some (strip_outer_parentheses (apply_f (F_GENE f_replace) gid))
  | FbcUnknown => None
  end.

Definition severity_eqb (a b : severity) : bool :=
  match a, b with
  | LIBSBML_SEV_INFO, LIBSBML_SEV_INFO
  | LIBSBML_SEV_WARNING, LIBSBML_SEV_WARNING
  | LIBSBML_SEV_ERROR, LIBSBML_SEV_ERROR
  | LIBSBML_SEV_FATAL, LIBSBML_SEV_FATAL
  | LIBSBML_SEV_SCHEMA_ERROR, LIBSBML_SEV_SCHEMA_ERROR => true
  | _, _ => false
  end.

(** The texts of the libsbml errors of one severity, in the order of the
    document. *)
Definition messages_of (sev : severity) (l : list (severity * string))
  : list string :=
  map snd (filter (fun e => severity_eqb (fst e) sev) l).

Definition has_severity (sev : severity) (l : list (severity * string))
  : bool :=
  existsb (fun e => severity_eqb (fst e) sev) l.

(** The error map of a validation with the libsbml checks on, with the
    lists of the three groups that the loop over the errors fills. *)
Definition libsbml_groups (fatal schema warning : list string)
  : dict (list string) :=
  [ ("validator", []); ("warnings", []); ("other", []); ("SBML errors", []);
    ("SBML_FATAL", fatal); ("SBML ERROR", []);
    ("SBML_SCHEMA_ERROR", schema); ("SBML_WARNING", warning) ].

(** A model all of whose annotations are made of plain entries. *)
Definition plain_model (m : CModel) : Prop :=
  match cm_sbml m with
  | Some meta => Forall plain_entry (meta_annotation meta)
  | None => True
  end
  /\ Forall (fun x => Forall plain_entry (met_annotation x)) (cm_metabolites m)
  /\ Forall (fun x => Forall plain_entry (gene_annotation x)) (cm_genes m)
  /\ Forall (fun x => Forall plain_entry (rxn_annotation x)) (cm_reactions m)
  /\ Forall (fun x => Forall plain_entry (grp_annotation x)) (cm_groups m).

(** The exception Python raises when [flux_udef] is read before it was
    bound. *)
Definition flux_udef_unbound : exn :=
  PyException "UnboundLocalError"
    "local variable 'flux_udef' referenced before assignment".

(** Every character of [s] is of the class [cls]. *)
Fixpoint all_chars (cls : ascii -> bool) (s : string) : bool :=
  match s with
  | EmptyString => true
  | String c s' => cls c && all_chars cls s'
  end.

(** [s] is empty or starts with a character that is not of the class. *)
Definition head_not (cls : ascii -> bool) (s : string) : Prop :=
  match s with
  | String c _ => cls c = false
  | EmptyString => True
  end.

(** A non-empty run of word characters, and one of white space. *)
Definition word (w : string) : Prop :=
  w <> "" /\ all_chars PyStr.is_word w = true.

Definition blank (sp : string) : Prop :=
  sp <> "" /\ all_chars PyStr.is_space sp = true.

(** The keys of notes the pattern reads back: one word, or two words with
    white space between them (as [GENE ASSOCIATION]). *)
Inductive note_key : string -> Prop :=
| key_word (w : string) : word w -> note_key w
| key_words (w1 sp w2 : string) :
    word w1 -> blank sp -> word w2 -> note_key (w1 ++ sp ++ w2).

(** [s] is not empty and neither starts nor ends with white space. *)
Definition no_outer_blank (s : string) : bool :=
  match s with
  | String c _ => negb (PyStr.is_space c)
  | EmptyString => false
  end
  && match PyStr.last_char s with
     | Some c => negb (PyStr.is_space c)
     | None => false
     end.

(** The values of notes the pattern reads back: word characters, pipes and
    white space, with no white space at either end. *)
Definition note_value (v : string) : Prop :=
  all_chars notes_value_class v = true /\ no_outer_blank v = true.

Definition NEWLINE : string := String (ascii_of_nat 10) "".

(** The paragraph [_sbase_notes_dict] writes for an entry, and the text it
    writes after the opening tag of the markup. *)
Definition paragraph (kv : string * string) : string :=
  "<p>" ++ fst kv ++ ": " ++ snd kv ++ "</p>".

Fixpoint notes_body (notes : dict string) : string :=
  match notes with
  | [] => "</html>"
  | kv :: rest => paragraph kv ++ NEWLINE ++ notes_body rest
  end.

(** The opening tag of the markup of notes. *)
Definition NOTES_HEADER : string :=
  "<html xmlns = " ++ String (ascii_of_nat 34) ""
    ++ "http://www.w3.org/1999/xhtml"
    ++ String (ascii_of_nat 34) "" ++ " >".

(** An entry of notes that is read back as it was written. *)
Definition plain_note (kv : string * string) : Prop :=
  note_key (fst kv) /\ note_value (snd kv).

(** A member of a group with a reference by id or by meta id, and one with
    neither. *)
Definition referenced (m : Member) : Prop :=
  m_id_ref m <> None \/ m_meta_id_ref m <> None.

Definition unreferenced (m : Member) : Prop :=
  m_id_ref m = None /\ m_meta_id_ref m = None.

(** The exception Python raises when [obj] is read before it was bound. *)
Definition obj_unbound : exn :=
  PyException "UnboundLocalError"
    "local variable 'obj' referenced before assignment".
(* ================================================================== *)
(** * Properties *)
(* ================================================================== *)

(** ** Strings *)

Lemma drop_empty (n : nat) : PyStr.drop n "" = "".
Proof. destruct n; reflexivity. Qed.

Lemma prefix_split (p s : string) :
  String.prefix p s = true -> s = (p ++ PyStr.drop (String.length p) s)%string.
Proof.
  revert s; induction p as [|a p IH]; intros s H.
  - reflexivity.
  - destruct s as [|b s]; simpl in H; [discriminate|].
    destruct (ascii_dec a b) as [->|]; [|discriminate].
    simpl. f_equal. apply IH, H.
Qed.

Lemma prefix_app (p s : string) : String.prefix p (p ++ s) = true.
Proof.
  induction p as [|a p IH]; simpl.
  - destruct s; reflexivity.
  - destruct (ascii_dec a a); [assumption|congruence].
Qed.

Lemma length_app (a b : string) :
  String.length (a ++ b) = String.length a + String.length b.
Proof. induction a; simpl; auto. Qed.

Lemma drop_app (p s : string) : PyStr.drop (String.length p) (p ++ s) = s.
Proof. induction p; simpl; auto. Qed.

Lemma length_drop (n : nat) (s : string) :
  String.length (PyStr.drop n s) <= String.length s.
Proof.
  revert s; induction n; intros s; simpl; [lia|].
  destruct s; simpl; [lia|]. specialize (IHn s). lia.
Qed.

Lemma replace_from_skip (old new s : string) (n : nat) :
  PyStr.replace_from old new s n = PyStr.replace_from old new (PyStr.drop n s) 0.
Proof.
  revert n; induction s as [|c s IH]; intros n.
  - rewrite drop_empty. reflexivity.
  - destruct n; [reflexivity|]. simpl. apply IH.
Qed.

(** An occurrence of [old] at the head is replaced, and the scan goes on
    after it. *)
Lemma replace_here (old new s : string) :
  old <> "" -> String.prefix old s = true ->
  PyStr.replace old new s
  = (new ++ PyStr.replace old new (PyStr.drop (String.length old) s))%string.
Proof.
  intros Hold H. unfold PyStr.replace.
  destruct s as [|c s].
  - destruct old; [congruence | discriminate].
  - cbn [PyStr.replace_from]. rewrite H. rewrite replace_from_skip.
    destruct old as [|a old]; [congruence|].
    simpl. rewrite Nat.sub_0_r. reflexivity.
Qed.

(** No occurrence at the head: the character is kept. *)
Lemma replace_next (old new : string) (c : ascii) (s : string) :
  String.prefix old (String c s) = false ->
  PyStr.replace old new (String c s) = String c (PyStr.replace old new s).
Proof.
  intros H. unfold PyStr.replace. cbn [PyStr.replace_from]. rewrite H.
  reflexivity.
Qed.

(** Without an occurrence of [old], [replace] changes nothing. *)
Lemma replace_absent (old new s : string) :
  PyStr.contains old s = false -> PyStr.replace old new s = s.
Proof.
  induction s as [|c s IH]; intros H.
  - reflexivity.
  - simpl in H. apply orb_false_iff in H as [H1 H2].
    rewrite replace_next by exact H1. f_equal. apply IH, H2.
Qed.

Lemma prefix_char (a b : ascii) (s : string) :
  String.prefix (String a "") (String b s) = Ascii.eqb a b.
Proof.
  simpl. destruct (ascii_dec a b) as [->|Hn].
  - rewrite Ascii.eqb_refl. destruct s; reflexivity.
  - symmetry. apply Ascii.eqb_neq, Hn.
Qed.

(** Escaping the dots of a text in which the placeholder was unescaped gives
    the text back, when it had no dot of its own. *)
Lemma escape_unescape (n : nat) :
  forall y, String.length y <= n -> PyStr.has_char "." y = false ->
            PyStr.replace "." SBML_DOT (PyStr.replace SBML_DOT "." y) = y.
Proof.
  induction n as [|n IH]; intros y Hlen Hdot.
  - destruct y; [reflexivity | simpl in Hlen; lia].
  - destruct y as [|c y]; [reflexivity|].
    destruct (String.prefix SBML_DOT (String c y)) eqn:Hp.
    + rewrite (replace_here SBML_DOT ".") by (exact Hp || discriminate).
      pose proof (prefix_split _ _ Hp) as Hsplit.
      set (rest := PyStr.drop (String.length SBML_DOT) (String c y)) in *.
      change ("." ++ PyStr.replace SBML_DOT "." rest)%string
        with (String "." (PyStr.replace SBML_DOT "." rest)).
      rewrite (replace_here "." SBML_DOT)
        by (discriminate || (rewrite prefix_char; reflexivity)).
      cbn [String.length PyStr.drop].
      rewrite IH.
      * symmetry. exact Hsplit.
      * assert (String.length (String c y)
                = String.length SBML_DOT + String.length rest) as Hl.
        { rewrite Hsplit at 1. apply length_app. }
        simpl in Hl, Hlen. simpl. lia.
      * rewrite Hsplit in Hdot. simpl in Hdot. exact Hdot.
    + rewrite replace_next by exact Hp.
      simpl in Hdot. apply orb_false_iff in Hdot as [Hc Hy].
      rewrite replace_next by (rewrite prefix_char; exact Hc).
      f_equal. apply IH; [simpl in Hlen; lia | exact Hy].
Qed.

Lemma clip_prefixed (p s : string) : _clip (p ++ s) p = s.
Proof.
  unfold _clip, PyStr.startswith. rewrite prefix_app. apply drop_app.
Qed.

Lemma clip_unprefixed (p s : string) :
  String.prefix p s = false -> _clip s p = s.
Proof. intros H. unfold _clip, PyStr.startswith. rewrite H. reflexivity. Qed.

(** ** Identifier codec *)

Lemma has_char_drop (c : ascii) (n : nat) (s : string) :
  PyStr.has_char c s = false -> PyStr.has_char c (PyStr.drop n s) = false.
Proof.
  revert s; induction n as [|n IH]; intros s H; [exact H|].
  destruct s as [|a s]; [reflexivity|].
  simpl in *. apply orb_false_iff in H as [_ H]. apply IH, H.
Qed.

Lemma gene_restore_strip (y : string) :
  PyStr.has_char "." y = false ->
  String.prefix SBML_DOT (String "_" y) = false ->
  _f_gene_rev (_f_gene ("G_" ++ y)) = ("G_" ++ y)%string.
Proof.
  intros Hdot Hp. unfold _f_gene.
  change ("G_" ++ y)%string with (String "G" (String "_" y)).
  rewrite replace_next by reflexivity.
  rewrite replace_next by exact Hp.
  change (String "G" (String "_" (PyStr.replace SBML_DOT "." y)))
    with ("G_" ++ PyStr.replace SBML_DOT "." y)%string.
  rewrite clip_prefixed. unfold _f_gene_rev.
  rewrite (escape_unescape (String.length y)); auto.
Qed.

(** C6 (as amended): for the kinds specie and reaction, and for a gene id
    that has no dot and in which no dot placeholder starts on the underscore
    of the prefix, restoring the stripped form of an id that carries the
    prefix of its kind gives the id back; and stripping an id that lacks the
    prefix leaves it unchanged, for a gene id provided it does not hold the
    dot placeholder. *)
Theorem id_codec_restore_strip (k : entity_kind) (x : string) :
  (String.prefix (kind_prefix k) x = true -> restorable k x ->
   restore_id k (strip_id k x) = x)
  /\ (String.prefix (kind_prefix k) x = false -> unescaped k x ->
      strip_id k x = x).
Proof.
  split.
  - intros Hp Hr. apply prefix_split in Hp.
    destruct k; cbn [kind_prefix restore_id strip_id restorable] in *.
    + destruct Hr as [Hdot Htok]. rewrite Hp in Htok |- *.
      rewrite gene_restore_strip; auto.
      rewrite Hp in Hdot. simpl in Hdot. exact Hdot.
    + rewrite Hp at 1. unfold _f_specie. rewrite clip_prefixed.
      unfold _f_specie_rev. symmetry. exact Hp.
    + rewrite Hp at 1. unfold _f_reaction. rewrite clip_prefixed.
      unfold _f_reaction_rev. symmetry. exact Hp.
  - intros Hp Hu.
    destruct k; cbn [kind_prefix strip_id unescaped] in *.
    + unfold _f_gene. rewrite replace_absent by exact Hu.
      apply clip_unprefixed, Hp.
    + apply clip_unprefixed, Hp.
    + apply clip_unprefixed, Hp.
Qed.

Lemma id_codec_restore_strip_witness :
  restore_id KGene (strip_id KGene "G_b0001") = "G_b0001"
  /\ strip_id KGene "b0001" = "b0001".
Proof.
  split.
  - apply (proj1 (id_codec_restore_strip KGene "G_b0001")).
    + reflexivity.
    + split; reflexivity.
  - apply (proj2 (id_codec_restore_strip KGene "b0001")).
    + reflexivity.
    + reflexivity.
Defined.

(** C6 fails as stated: a gene id with a dot carries the prefix and is not
    restored, and a gene id without the prefix that holds the placeholder is
    changed by [strip]. *)
Lemma id_codec_counterexample :
  ~ (forall (k : entity_kind) (x : string),
       (String.prefix (kind_prefix k) x = true ->
        restore_id k (strip_id k x) = x)
       /\ (String.prefix (kind_prefix k) x = false -> strip_id k x = x)).
Proof.
  intros H.
  destruct (H KGene "G_a.b") as [H1 _].
  specialize (H1 eq_refl). vm_compute in H1. discriminate H1.
Qed.

Example gene_dot_not_restored :
  restore_id KGene (strip_id KGene "G_a.b") = "G_a__SBML_DOT__b".
Proof. reflexivity. Qed.

Example gene_placeholder_on_prefix_not_restored :
  restore_id KGene (strip_id KGene "G__SBML_DOT__") = "G_G__SBML_DOT__".
Proof. reflexivity. Qed.

Example gene_strip_unescapes :
  String.prefix (kind_prefix KGene) "a__SBML_DOT__b" = false
  /\ strip_id KGene "a__SBML_DOT__b" = "a.b".
Proof. split; reflexivity. Qed.

(** ** Dictionaries *)

Lemma dict_get_absent {V : Type} (d : dict V) (k : string) :
  ~ In k (keys d) -> dict_get d k = None.
Proof.
  induction d as [|[k' v'] d IH]; intros H; [reflexivity|].
  simpl in *. destruct (String.eqb_spec k k') as [->|Hne].
  - exfalso. apply H. left. reflexivity.
  - apply IH. intros Hin. apply H. right. exact Hin.
Qed.

Lemma keys_dict_set {V : Type} (d : dict V) (k : string) (v : V) (x : string) :
  In x (keys (dict_set d k v)) <-> x = k \/ In x (keys d).
Proof.
  induction d as [|[k' v'] d IH]; simpl.
  - intuition congruence.
  - destruct (String.eqb_spec k k') as [->|Hne]; simpl.
    + intuition congruence.
    + rewrite IH. intuition congruence.
Qed.

Lemma NoDup_dict_set {V : Type} (d : dict V) (k : string) (v : V) :
  NoDup (keys d) -> NoDup (keys (dict_set d k v)).
Proof.
  induction d as [|[k' v'] d IH]; intros H; simpl.
  - constructor; [intros [] | constructor].
  - inversion H as [|? ? Hnotin Hnd]; subst.
    destruct (String.eqb_spec k k') as [->|Hne]; simpl.
    + constructor; assumption.
    + constructor.
      * rewrite keys_dict_set. intros [Heq | Hin]; [congruence | contradiction].
      * apply IH, Hnd.
Qed.

Lemma NoDup_dict_of_items {V : Type} (items : list (string * V)) :
  NoDup (keys (dict_of_items items)).
Proof.
  unfold dict_of_items.
  assert (forall d : dict V, NoDup (keys d) ->
            NoDup (keys (fold_left
                           (fun d kv => dict_set d (fst kv) (snd kv)) items d)))
    as H.
  { induction items as [|kv items IH]; intros d Hd; simpl; [exact Hd|].
    apply IH, NoDup_dict_set, Hd. }
  apply H. constructor.
Qed.


(** ** Notes *)

(** No entry of the result has an empty value. *)
Lemma parse_notes_dict_no_empty_value (notes k v : string) :
  In (k, v) (_parse_notes_dict notes) -> v <> "".
Proof.
  unfold _parse_notes_dict.
  destruct (Nat.ltb 0 (String.length notes)); [|intros []].
  intros H. apply filter_In in H as [_ H]. cbn [snd] in H.
  intros ->. discriminate H.
Qed.

(** C4 at the failing input: the markup
    [<p>CHARGE: -2</p><p>FORMULA: C6H12O6</p>] parses to the single entry
    FORMULA -> C6H12O6.  The CHARGE paragraph is not matched, the minus sign
    being outside the characters of a value, so a species of a legacy
    document that carries these notes is read without a charge and without
    the warning for the CHARGE note, although the reader converts that note
    with [int]; with the note CHARGE: 2 the charge is read.  The other half
    of the claim holds: no entry of the result of any input has an empty
    value. *)
Theorem notes_negative_charge_lost :
  _parse_notes_dict "<p>CHARGE: -2</p><p>FORMULA: C6H12O6</p>"
  = [("FORMULA", "C6H12O6")]
  /\ (exists m,
        _sbml_to_model (Samples.charge_note_document "-2") F_REPLACE
        = ([WarnNoFbc; WarnFormulaNote (Some "M_a")], inr m)
        /\ map (fun x => (met_id x, met_charge x, met_formula x))
               (cm_metabolites m)
           = [("a", None, Some "C6H12O6")])
  /\ (exists m,
        _sbml_to_model (Samples.charge_note_document "2") F_REPLACE
        = ([WarnNoFbc; WarnChargeNote (Some "M_a");
            WarnFormulaNote (Some "M_a")], inr m)
        /\ map (fun x => (met_id x, met_charge x, met_formula x))
               (cm_metabolites m)
           = [("a", Some 2%Z, Some "C6H12O6")])
  /\ (forall notes k v, In (k, v) (_parse_notes_dict notes) -> v <> "").
Proof.
  split; [reflexivity|]. split; [|split].
  - eexists. split; reflexivity.
  - eexists. split; reflexivity.
  - exact parse_notes_dict_no_empty_value.
Qed.

Example parse_notes_word_values :
  _parse_notes_dict "<p>CHARGE: 2</p><p>FORMULA: C6H12O6</p><p>EMPTY:  </p>"
  = [("CHARGE", "2"); ("FORMULA", "C6H12O6")].
Proof. reflexivity. Qed.

Example parse_notes_last_duplicate_wins :
  _parse_notes_dict "<p>A: x</p><p>B: y</p><p>A: z</p>" = [("A", "z"); ("B", "y")].
Proof. reflexivity. Qed.

(** ** Annotations *)

(** Adding a term changes nothing but the terms of the element. *)
Lemma addCVTerm_fields (b : SBase) (cv : CVTerm) :
  sb_id (addCVTerm b cv) = sb_id b
  /\ sb_name (addCVTerm b cv) = sb_name b
  /\ sb_meta_id (addCVTerm b cv) = sb_meta_id b
  /\ sb_sbo (addCVTerm b cv) = sb_sbo b
  /\ sb_notes (addCVTerm b cv) = sb_notes b.
Proof.
  unfold addCVTerm.
  destruct (sb_meta_id b) eqn:Hm; [|rewrite Hm; repeat split].
  destruct (negb (hasRequiredAttributes cv)); [rewrite Hm; repeat split|].
  destruct (sb_cvterms b) as [|t terms];
    [cbn [setCVTerms sb_id sb_name sb_meta_id sb_sbo sb_notes];
     rewrite Hm; repeat split|].
  destruct (merge_resources (t :: terms) cv _);
    [cbn [setCVTerms sb_id sb_name sb_meta_id sb_sbo sb_notes];
     rewrite Hm; repeat split|].
  destruct (filter _ (cv_resources cv));
    [rewrite Hm; repeat split|].
  cbn [setCVTerms sb_id sb_name sb_meta_id sb_sbo sb_notes].
  rewrite Hm. repeat split.
Qed.

(** The first term of an element is taken as it is. *)
Lemma addCVTerm_first (b : SBase) (cv : CVTerm) :
  sb_meta_id b <> None -> hasRequiredAttributes cv = true ->
  sb_cvterms b = [] ->
  addCVTerm b cv = setCVTerms b [cv].
Proof.
  intros Hm Hr Hcv. unfold addCVTerm.
  destruct (sb_meta_id b); [|congruence].
  rewrite Hr, Hcv. reflexivity.
Qed.

(** C7: serializing the annotation chebi -> CHEBI:17234 onto an element
    that holds no cross-reference yet attaches exactly one cross-reference
    term, with the qualifier [is] and the single resource
    https://identifiers.org/chebi/CHEBI:17234, without a warning; and when
    the element has no ontology term, parsing the result returns exactly the
    annotation chebi -> CHEBI:17234, the value a bare string. *)
Theorem chebi_annotation_roundtrip (sbase : SBase) :
  sb_cvterms sbase = [] ->
  exists sbase',
    _sbase_annotations sbase chebi_annotation = ([], inr sbase')
    /\ sb_cvterms sbase' = [chebi_term]
    /\ sb_sbo sbase' = sb_sbo sbase
    /\ (sb_sbo sbase = None ->
        _parse_annotations sbase' = ([], inr [("chebi", AStr "CHEBI:17234")])).
Proof.
  intros Hcv.
  assert (_sbase_annotations sbase chebi_annotation
          = ([], inr (setCVTerms
                        (setMetaId sbase ("meta_" ++ id_str (sb_id sbase)))
                        [chebi_term]))) as Hrun.
  { unfold _sbase_annotations, chebi_annotation.
    cbn [map fst snd standardize foldM annotate_provider String.eqb
         Ascii.eqb Bool.eqb orb annotate_item].
    change (PyStr.startswith "is" "bqm_") with false.
    change (dict_get QUALIFIER_TYPES "is") with (Some BQB_IS).
    cbn [bind ret app].
    rewrite addCVTerm_first; [reflexivity | discriminate | reflexivity |].
    exact Hcv. }
  eexists. split; [exact Hrun|]. split; [reflexivity|].
  split; [reflexivity|].
  intros Hsbo. unfold _parse_annotations.
  cbn [sb_sbo sb_cvterms setCVTerms setMetaId]. rewrite Hsbo. reflexivity.
Qed.

Lemma chebi_annotation_roundtrip_witness :
  exists sbase',
    _sbase_annotations (setId new_sbase "M_glc__D_c") chebi_annotation
    = ([], inr sbase')
    /\ sb_cvterms sbase' = [chebi_term]
    /\ _parse_annotations sbase' = ([], inr [("chebi", AStr "CHEBI:17234")]).
Proof.
  destruct (chebi_annotation_roundtrip (setId new_sbase "M_glc__D_c")
              eq_refl)
    as [sbase' [H1 [H2 [_ H4]]]].
  exists sbase'. split; [exact H1|]. split; [exact H2|].
  apply H4; reflexivity.
Defined.

(** On an element that holds a term with the qualifier [is] already, the
    resource goes to that term and no term is added. *)
Example chebi_resource_joins_term :
  option_map sb_cvterms
    (value_of
       (_sbase_annotations
          (setCVTerms (setId new_sbase "M_glc__D_c")
             [ {| cv_qualifier_type := BIOLOGICAL_QUALIFIER;
                  cv_qualifier := BQB_IS;
                  cv_resources := ["https://identifiers.org/kegg/C00031"] |} ])
          chebi_annotation))
  = Some [ {| cv_qualifier_type := BIOLOGICAL_QUALIFIER;
              cv_qualifier := BQB_IS;
              cv_resources := ["https://identifiers.org/kegg/C00031";
                               "https://identifiers.org/chebi/CHEBI:17234"] |} ].
Proof. reflexivity. Qed.

Example two_entities_become_a_list :
  _parse_annotations
    {| sb_id := Some "x"; sb_name := None; sb_meta_id := Some "meta_x";
       sb_sbo := Some "SBO:0000247";
       sb_cvterms :=
         [ {| cv_qualifier_type := BIOLOGICAL_QUALIFIER;
              cv_qualifier := BQB_IS_VERSION_OF;
              cv_resources := ["https://identifiers.org/chebi/CHEBI:17234";
                               "http://identifiers.org/chebi/CHEBI:4167";
                               "http://example.org/chebi/CHEBI:1"] |} ];
       sb_notes := "" |}
  = ([WarnUri "http://example.org/chebi/CHEBI:1"],
     inr [("sbo", AStr "SBO:0000247");
          ("chebi", AList [AItem "CHEBI:17234"; AItem "CHEBI:4167"])]).
Proof. reflexivity. Qed.

(** ** The monad of warnings and exceptions *)

Lemma bind_value {A B : Type} (m : M A) (f : A -> M B) (b : B) :
  value_of (bind m f) = Some b ->
  exists a, value_of m = Some a /\ value_of (f a) = Some b.
Proof.
  destruct m as [l [e|a]]; unfold value_of; simpl; [discriminate|].
  destruct (f a) as [l' r] eqn:Hf. simpl. intros H.
  exists a. split; [reflexivity|]. rewrite Hf. exact H.
Qed.

Lemma value_bind {A B : Type} (m : M A) (f : A -> M B) (a : A) :
  value_of m = Some a -> value_of (bind m f) = value_of (f a).
Proof.
  destruct m as [l [e|a']]; unfold value_of; simpl; [discriminate|].
  intros H. injection H as ->. destruct (f a) as [l' r]. reflexivity.
Qed.

Lemma value_ret {A : Type} (a : A) : value_of (ret a) = Some a.
Proof. reflexivity. Qed.

Ltac bind_inv H :=
  let a := fresh "a" in
  let Ha := fresh "Ha" in
  apply bind_value in H; destruct H as [a [Ha H]]; cbv beta zeta in H.

(** A property that every run of the loop body carries over holds after the
    loop. *)
Lemma foldM_invariant {A S : Type} (P : S -> Prop) (body : S -> A -> M S)
  (l : list A) :
  (forall st x st', P st -> value_of (body st x) = Some st' -> P st') ->
  forall st st', P st -> value_of (foldM body l st) = Some st' -> P st'.
Proof.
  intros Hbody. induction l as [|x l IH]; intros st st' HP H; simpl in H.
  - injection H as <-. exact HP.
  - bind_inv H. eapply IH; [|exact H]. eapply Hbody; eassumption.
Qed.

(** A loop whose body never raises does not raise. *)
Lemma foldM_total {A S : Type} (body : S -> A -> M S) (l : list A) :
  (forall st x, exists st', value_of (body st x) = Some st') ->
  forall st, exists st', value_of (foldM body l st) = Some st'.
Proof.
  intros Hbody. induction l as [|x l IH]; intros st; simpl.
  - exists st. reflexivity.
  - destruct (Hbody st x) as [st1 H1]. destruct (IH st1) as [st2 H2].
    exists st2. rewrite (value_bind _ _ _ H1). exact H2.
Qed.

Lemma mapM_Forall2 {A B : Type} (body : A -> M B) (l : list A) (ys : list B) :
  value_of (mapM body l) = Some ys ->
  Forall2 (fun x y => value_of (body x) = Some y) l ys.
Proof.
  revert ys; induction l as [|x l IH]; intros ys H; simpl in H.
  - injection H as <-. constructor.
  - bind_inv H. bind_inv H. injection H as <-.
    constructor; [assumption | apply IH; assumption].
Qed.

(** ** Elements keep their id *)

Lemma annotate_item_id (provider : string) (b b' : SBase)
  (item : string * string) :
  value_of (annotate_item provider b item) = Some b' -> sb_id b' = sb_id b.
Proof.
  unfold annotate_item. destruct item as [q e]. intros H.
  bind_inv H. injection H as <-. apply addCVTerm_fields.
Qed.

Lemma annotate_provider_id (b b' : SBase)
  (entry : string * list (string * string)) :
  value_of (annotate_provider b entry) = Some b' -> sb_id b' = sb_id b.
Proof.
  unfold annotate_provider. destruct entry as [provider data].
  destruct (String.eqb provider "SBO" || String.eqb provider "sbo"); intros H.
  - bind_inv H. destruct data as [|[q t] data]; [discriminate|].
    injection H as <-. reflexivity.
  - revert H. apply (foldM_invariant (fun x => sb_id x = sb_id b));
      [|reflexivity].
    intros st x st' Hst Hx. rewrite <- Hst. eapply annotate_item_id, Hx.
Qed.

Lemma sbase_annotations_id (b b' : SBase) (ann : annotation) :
  value_of (_sbase_annotations b ann) = Some b' -> sb_id b' = sb_id b.
Proof.
  unfold _sbase_annotations. destruct ann as [|kv ann]; intros H.
  - injection H as <-. reflexivity.
  - revert H. apply (foldM_invariant (fun x => sb_id x = sb_id b));
      [|reflexivity].
    intros st x st' Hst Hx. rewrite <- Hst. eapply annotate_provider_id, Hx.
Qed.

Lemma sbase_notes_dict_id (b : SBase) (notes : dict string) :
  sb_id (_sbase_notes_dict b notes) = sb_id b.
Proof.
  unfold _sbase_notes_dict. destruct (notes_markup notes); reflexivity.
Qed.

(** ** Parsing annotations never raises *)

Lemma parse_resource_total (st : annotation) (uri : string) :
  exists st', value_of (parse_resource st uri) = Some st'.
Proof.
  unfold parse_resource.
  destruct (PyStr.split "/" uri) as [|t0 [|t1 [|t2 [|t3 [|t4 [|t5 ts]]]]]];
    try (eexists; reflexivity).
  destruct (String.eqb t2 "identifiers.org"); [|eexists; reflexivity].
  destruct (dict_get st t3) as [[old|l]|]; eexists; reflexivity.
Qed.

Lemma parse_annotations_total (b : SBase) :
  exists a, value_of (_parse_annotations b) = Some a.
Proof.
  unfold _parse_annotations. apply foldM_total.
  intros st cvterm. apply foldM_total. apply parse_resource_total.
Qed.

(** ** The species the writer emits *)

Lemma set_mem_add (st : list string) (i j : string) :
  set_mem (set_add st i) j = set_mem st j || String.eqb j i.
Proof.
  unfold set_add, set_mem.
  destruct (existsb (String.eqb i) st) eqn:Hi.
  - destruct (String.eqb_spec j i) as [->|Hne].
    + rewrite Hi. reflexivity.
    + rewrite orb_false_r. reflexivity.
  - rewrite existsb_app. simpl. rewrite orb_false_r. reflexivity.
Qed.

Lemma write_species_spec (f_replace : FReplace) (met : Metabolite) (s : Species) :
  value_of (write_species f_replace met) = Some s ->
  sb_id (s_base s) = Some (apply_f (F_SPECIE_REV f_replace) (met_id met))
  /\ s_constant s = true
  /\ s_boundary_condition s = true.
Proof.
  unfold write_species. intros H. bind_inv H. injection H as <-.
  cbn [s_base s_constant s_boundary_condition].
  rewrite sbase_notes_dict_id. apply sbase_annotations_id in Ha.
  rewrite Ha. repeat split; reflexivity.
Qed.

(** Reading a species that has an id does not raise; its id joins the
    boundary ids when its boundary-condition flag is set. *)
Lemma read_species_ok (f_replace : FReplace) (bids : list string)
  (mets : list Metabolite) (s : Species) (i : string) :
  sb_id (s_base s) = Some i ->
  exists met,
    value_of (read_species f_replace (bids, mets) s)
    = Some (if s_boundary_condition s then set_add bids i else bids,
            mets ++ [met]).
Proof.
  intros Hid. unfold read_species, getId_str. rewrite Hid.
  cbn [_check_required].
  rewrite (value_bind _ _ i) by reflexivity.
  destruct (parse_annotations_total (s_base s)) as [a Ha].
  rewrite (value_bind _ _ a) by exact Ha.
  destruct (s_fbc s) as [fs|].
  - eexists. reflexivity.
  - destruct (s_charge s) as [c|];
      destruct (dict_get (_parse_notes_dict (sb_notes (s_base s))) "CHARGE");
      destruct (dict_get (_parse_notes_dict (sb_notes (s_base s))) "FORMULA");
      eexists; reflexivity.
Qed.

Lemma read_species_loop (f_replace : FReplace) (l : list Species) :
  Forall (fun s => sb_id (s_base s) <> None) l ->
  forall bids mets,
  exists bids' mets',
    value_of (foldM (read_species f_replace) l (bids, mets))
    = Some (bids', mets')
    /\ (forall j, set_mem bids j = true -> set_mem bids' j = true)
    /\ (forall s, In s l -> s_boundary_condition s = true ->
                  set_mem bids' (getId_str (s_base s)) = true).
Proof.
  induction 1 as [|s l Hs Hl IH]; intros bids mets.
  - exists bids, mets. simpl. repeat split; auto.
  - destruct (sb_id (s_base s)) as [i|] eqn:Hid; [|congruence].
    destruct (read_species_ok f_replace bids mets s i Hid) as [met Hmet].
    destruct (IH (if s_boundary_condition s then set_add bids i else bids)
                 (mets ++ [met])) as [bids' [mets' [Hrun [Hmono Hin]]]].
    exists bids', mets'. split; [|split].
    + simpl. rewrite (value_bind _ _ _ Hmet). exact Hrun.
    + intros j Hj. apply Hmono.
      destruct (s_boundary_condition s); [|exact Hj].
      rewrite set_mem_add, Hj. reflexivity.
    + intros s' [<-|Hs'] Hb.
      * apply Hmono. rewrite Hb. unfold getId_str. rewrite Hid.
        rewrite set_mem_add, String.eqb_refl. apply orb_true_r.
      * apply Hin; assumption.
Qed.

(** C10: in the document the writer produces for a model, the species
    elements are, in order, those of the metabolites of the model, each with
    the (rewritten) id of its metabolite, [constant] true and
    [boundaryCondition] true, so that no species has [boundaryCondition]
    false; and the species loop of the reader, run on that document under any
    identifier configuration, does not raise and collects the id of every
    written species into the boundary-species set. *)
Theorem written_species_boundary
  (parse_infix : string -> option FbcAssociation) (config : Configuration)
  (cobra_model : CModel) (f_replace : FReplace) (units : bool)
  (doc : SBMLDocument) :
  value_of (_model_to_sbml parse_infix config cobra_model f_replace units)
  = Some doc ->
  exists model,
    doc_model doc = Some model
    /\ Forall2
         (fun met s =>
            sb_id (s_base s)
            = Some (apply_f (F_SPECIE_REV f_replace) (met_id met))
            /\ s_constant s = true
            /\ s_boundary_condition s = true)
         (cm_metabolites cobra_model) (sm_species model)
    /\ forall f_replace',
       exists boundary_ids metabolites,
         value_of (read_all_species f_replace' model)
         = Some (boundary_ids, metabolites)
         /\ forall s, In s (sm_species model) ->
                      set_mem boundary_ids (getId_str (s_base s)) = true.
Proof.
  unfold _model_to_sbml. intros H.
  bind_inv H. bind_inv H. bind_inv H. bind_inv H. bind_inv H.
  destruct a3 as [[parameters flux_objectives] reactions].
  bind_inv H. injection H as <-.
  eexists. split; [reflexivity|]. cbn [sm_species].
  assert (Forall2
            (fun met s =>
               sb_id (s_base s)
               = Some (apply_f (F_SPECIE_REV f_replace) (met_id met))
               /\ s_constant s = true
               /\ s_boundary_condition s = true)
            (cm_metabolites cobra_model) a0) as Hspecies.
  { apply mapM_Forall2 in Ha0.
    induction Ha0 as [|met s mets ss Hw _ IH]; constructor; [|exact IH].
    apply write_species_spec, Hw. }
  split; [exact Hspecies|].
  intros f_replace'. unfold read_all_species. cbn [sm_species].
  assert (Forall (fun s => sb_id (s_base s) <> None
                           /\ s_boundary_condition s = true) a0) as Hall.
  { clear -Hspecies.
    induction Hspecies as [|met s mets ss [Hid [_ Hb]] _ IH]; constructor;
      [|exact IH].
    split; [congruence | exact Hb]. }
  destruct (read_species_loop f_replace' a0) with (bids := @nil string)
    (mets := @nil Metabolite) as [bids [mets [Hrun [_ Hin]]]].
  { eapply Forall_impl; [|exact Hall]. intros s [Hs _]. exact Hs. }
  exists bids, mets. split; [exact Hrun|].
  intros s Hs. apply Hin; [exact Hs|].
  rewrite Forall_forall in Hall. apply (Hall s Hs).
Qed.

Lemma written_species_boundary_witness :
  exists doc model boundary_ids metabolites,
    value_of (_model_to_sbml Samples.no_infix default_config
                Samples.two_reactions F_REPLACE true) = Some doc
    /\ doc_model doc = Some model
    /\ Forall (fun s => s_constant s = true /\ s_boundary_condition s = true)
              (sm_species model)
    /\ value_of (read_all_species F_REPLACE model)
       = Some (boundary_ids, metabolites)
    /\ forall s, In s (sm_species model) ->
                 set_mem boundary_ids (getId_str (s_base s)) = true.
Proof.
  destruct (value_of (_model_to_sbml Samples.no_infix default_config
                        Samples.two_reactions F_REPLACE true))
    as [doc|] eqn:Hdoc; [|vm_compute in Hdoc; discriminate].
  destruct (written_species_boundary _ _ _ _ _ doc Hdoc)
    as [model [Hmodel [Hspecies Hread]]].
  destruct (Hread F_REPLACE) as [bids [mets [Hrun Hin]]].
  exists doc, model, bids, mets.
  repeat split; try assumption.
  clear -Hspecies.
  induction Hspecies as [|met s mets ss [_ Hcb] _ IH]; constructor; assumption.
Defined.

(** ** Bound parameters *)

Lemma create_bound_new (config : Configuration) (reaction : CReaction)
  (bt : bound_type) (f_replace : FReplace) (units : bool)
  (flux_udef : option string) :
  Forall is_flux_bound_parameter
         (snd (_create_bound config reaction bt f_replace units flux_udef)).
Proof.
  unfold _create_bound.
  destruct (Z.eqb _ (LOWER_BOUND config)); [constructor|].
  destruct (Z.eqb _ 0); [constructor|].
  destruct (Z.eqb _ (UPPER_BOUND config)); [constructor|].
  constructor; [split; reflexivity | constructor].
Qed.

Lemma write_reaction_parameters
  (parse_infix : string -> option FbcAssociation) (config : Configuration)
  (f_replace : FReplace) (units : bool) (flux_udef : option string)
  (cobra_model : CModel) (shared : list SBMLParameter)
  (st st' : list SBMLParameter * list FluxObjective * list Reaction)
  (reaction : CReaction) :
  (exists custom, fst (fst st) = shared ++ custom
                  /\ Forall is_flux_bound_parameter custom) ->
  value_of (write_reaction parse_infix config f_replace units flux_udef
              cobra_model st reaction) = Some st' ->
  exists custom, fst (fst st') = shared ++ custom
                 /\ Forall is_flux_bound_parameter custom.
Proof.
  intros [custom [Hst Hcustom]] H.
  destruct st as [[parameters flux_objectives] reactions].
  unfold write_reaction in H. bind_inv H. bind_inv H.
  pose proof (create_bound_new config reaction lower_bound_attr f_replace
                units flux_udef) as Hlb.
  pose proof (create_bound_new config reaction upper_bound_attr f_replace
                units flux_udef) as Hub.
  destruct (_create_bound config reaction lower_bound_attr f_replace units
              flux_udef) as [lb_id lb_new].
  destruct (_create_bound config reaction upper_bound_attr f_replace units
              flux_udef) as [ub_id ub_new].
  injection H as <-. simpl in *. subst parameters.
  exists (custom ++ lb_new ++ ub_new). split.
  - rewrite <- app_assoc. reflexivity.
  - repeat (apply Forall_app; split); assumption.
Qed.

(** C2 (as amended): the writer creates three shared bound parameters first,
    with the ids cobra_default_lb, cobra_default_ub and cobra_0_bound, each a
    constant tagged as default flux bound; the third has the value zero, and
    for a model without reactions the first two have the configured default
    lower and upper bounds; every other parameter of the document is a
    constant tagged as flux bound.  Bound resolution compares the value of
    the bound, whatever its kind, with the configured default lower bound,
    then with zero, then with the configured default upper bound, and returns
    the shared id of the first that is equal without creating a parameter;
    otherwise it creates one constant parameter with the id
    <reaction-id>_<bound_kind>, that value and the flux bound term, and
    returns its id. *)
Theorem bound_parameters
  (parse_infix : string -> option FbcAssociation) (config : Configuration)
  (cobra_model : CModel) (f_replace : FReplace) (units : bool)
  (flux_udef : option string) (reaction : CReaction) (bt : bound_type) :
  map (fun p => (sb_id (p_base p), sb_sbo (p_base p), p_constant p))
      (shared_parameters config cobra_model)
  = [ (Some LOWER_BOUND_ID, Some SBO_DEFAULT_FLUX_BOUND, true);
      (Some UPPER_BOUND_ID, Some SBO_DEFAULT_FLUX_BOUND, true);
      (Some ZERO_BOUND_ID, Some SBO_DEFAULT_FLUX_BOUND, true) ]
  /\ map p_value (skipn 2 (shared_parameters config cobra_model)) = [Some 0%Z]
  /\ (cm_reactions cobra_model = [] ->
      map p_value (shared_parameters config cobra_model)
      = [Some (LOWER_BOUND config); Some (UPPER_BOUND config); Some 0%Z])
  /\ (forall doc,
        value_of (_model_to_sbml parse_infix config cobra_model f_replace units)
        = Some doc ->
        exists model custom,
          doc_model doc = Some model
          /\ sm_parameters model = shared_parameters config cobra_model ++ custom
          /\ Forall is_flux_bound_parameter custom)
  /\ (getattr_bound reaction bt = LOWER_BOUND config ->
      _create_bound config reaction bt f_replace units flux_udef
      = (LOWER_BOUND_ID, []))
  /\ (getattr_bound reaction bt <> LOWER_BOUND config ->
      getattr_bound reaction bt = 0%Z ->
      _create_bound config reaction bt f_replace units flux_udef
      = (ZERO_BOUND_ID, []))
  /\ (getattr_bound reaction bt <> LOWER_BOUND config ->
      getattr_bound reaction bt <> 0%Z ->
      getattr_bound reaction bt = UPPER_BOUND config ->
      _create_bound config reaction bt f_replace units flux_udef
      = (UPPER_BOUND_ID, []))
  /\ (getattr_bound reaction bt <> LOWER_BOUND config ->
      getattr_bound reaction bt <> 0%Z ->
      getattr_bound reaction bt <> UPPER_BOUND config ->
      exists p,
        _create_bound config reaction bt f_replace units flux_udef
        = (bound_parameter_id f_replace reaction bt, [p])
        /\ sb_id (p_base p) = Some (bound_parameter_id f_replace reaction bt)
        /\ p_value p = Some (getattr_bound reaction bt)
        /\ is_flux_bound_parameter p).
Proof.
  split; [|split; [|split; [|split]]].
  - unfold shared_parameters.
    destruct (cm_reactions cobra_model); reflexivity.
  - unfold shared_parameters.
    destruct (cm_reactions cobra_model); reflexivity.
  - intros Hnone. unfold shared_parameters. rewrite Hnone. reflexivity.
  - intros doc H. unfold _model_to_sbml in H.
    bind_inv H. bind_inv H. bind_inv H. bind_inv H. bind_inv H.
    destruct a3 as [[parameters flux_objectives] reactions].
    bind_inv H. injection H as <-.
    assert (exists custom,
               fst (fst (parameters, flux_objectives, reactions))
               = shared_parameters config cobra_model ++ custom
               /\ Forall is_flux_bound_parameter custom) as [custom [Hp Hc]].
    { revert Ha3.
      apply (foldM_invariant
               (fun st => exists custom,
                    fst (fst st) = shared_parameters config cobra_model ++ custom
                    /\ Forall is_flux_bound_parameter custom)).
      - intros st x st' Hst Hx.
        eapply write_reaction_parameters; eassumption.
      - exists []. split; [symmetry; apply app_nil_r | constructor]. }
    eexists. exists custom. split; [reflexivity|]. split; [exact Hp | exact Hc].
  - unfold _create_bound.
    destruct (Z.eqb_spec (getattr_bound reaction bt) (LOWER_BOUND config)) as [Hl|Hl];
      [repeat split; intros; try reflexivity; contradiction|].
    destruct (Z.eqb_spec (getattr_bound reaction bt) 0) as [Hz|Hz];
      [repeat split; intros; try reflexivity; contradiction|].
    destruct (Z.eqb_spec (getattr_bound reaction bt) (UPPER_BOUND config)) as [Hu|Hu];
      [repeat split; intros; try reflexivity; contradiction|].
    repeat split; intros; try contradiction.
    eexists. split; [reflexivity|]. repeat split; reflexivity.
Qed.

Lemma bound_parameters_witness :
  map p_value (shared_parameters default_config Samples.no_reactions)
  = [Some (-1000)%Z; Some 1000%Z; Some 0%Z]
  /\ (exists doc model custom,
        value_of (_model_to_sbml Samples.no_infix default_config
                    Samples.two_reactions F_REPLACE true) = Some doc
        /\ doc_model doc = Some model
        /\ sm_parameters model
           = shared_parameters default_config Samples.two_reactions ++ custom
        /\ Forall is_flux_bound_parameter custom)
  /\ _create_bound default_config Samples.rxn_1 lower_bound_attr F_REPLACE true
       (Some UNITS_FLUX_ID) = (LOWER_BOUND_ID, [])
  /\ _create_bound default_config Samples.rxn_1 upper_bound_attr F_REPLACE true
       (Some UNITS_FLUX_ID) = (UPPER_BOUND_ID, [])
  /\ exists p,
       _create_bound default_config Samples.rxn_custom lower_bound_attr
         F_REPLACE true (Some UNITS_FLUX_ID) = ("R_r4_lower_bound", [p])
       /\ p_value p = Some (-5)%Z.
Proof.
  split; [|split; [|split; [|split]]].
  - apply (bound_parameters Samples.no_infix default_config
             Samples.no_reactions F_REPLACE true None Samples.rxn_1
             lower_bound_attr).
    reflexivity.
  - destruct (value_of (_model_to_sbml Samples.no_infix default_config
                          Samples.two_reactions F_REPLACE true))
      as [doc|] eqn:Hdoc; [|vm_compute in Hdoc; discriminate].
    destruct (bound_parameters Samples.no_infix default_config
                Samples.two_reactions F_REPLACE true None Samples.rxn_1
                lower_bound_attr) as [_ [_ [_ [Hw _]]]].
    destruct (Hw doc Hdoc) as [model [custom [H1 [H2 H3]]]].
    exists doc, model, custom. repeat split; assumption.
  - apply (bound_parameters Samples.no_infix default_config
             Samples.two_reactions F_REPLACE true (Some UNITS_FLUX_ID)
             Samples.rxn_1 lower_bound_attr).
    reflexivity.
  - apply (bound_parameters Samples.no_infix default_config
             Samples.two_reactions F_REPLACE true (Some UNITS_FLUX_ID)
             Samples.rxn_1 upper_bound_attr); vm_compute; congruence.
  - destruct (bound_parameters Samples.no_infix default_config
                Samples.two_reactions F_REPLACE true (Some UNITS_FLUX_ID)
                Samples.rxn_custom lower_bound_attr)
      as [_ [_ [_ [_ [_ [_ [_ Hnew]]]]]]].
    destruct Hnew as [p [H1 [_ [H3 _]]]]; try (vm_compute; congruence).
    exists p. split; [exact H1 | exact H3].
Defined.

(** C2 fails as stated: the upper bound of a reaction that equals the
    configured default lower bound is neither the corresponding default nor
    zero, and yet no parameter is created for it: it resolves to the shared
    lower-bound id. *)
Lemma bound_parameters_counterexample :
  ~ (forall (config : Configuration) (reaction : CReaction) (bt : bound_type)
            (f_replace : FReplace) (units : bool) (flux_udef : option string),
       (getattr_bound reaction bt = default_of config bt ->
        _create_bound config reaction bt f_replace units flux_udef
        = (default_id bt, []))
       /\ (getattr_bound reaction bt <> default_of config bt ->
           getattr_bound reaction bt = 0%Z ->
           _create_bound config reaction bt f_replace units flux_udef
           = (ZERO_BOUND_ID, []))
       /\ (getattr_bound reaction bt <> default_of config bt ->
           getattr_bound reaction bt <> 0%Z ->
           fst (_create_bound config reaction bt f_replace units flux_udef)
           = bound_parameter_id f_replace reaction bt)).
Proof.
  intros H.
  destruct (H default_config Samples.rxn_low upper_bound_attr F_REPLACE true
              (Some UNITS_FLUX_ID)) as [_ [_ H3]].
  assert (LOWER_BOUND_ID = "R_r3_upper_bound") as Habs.
  { apply H3; vm_compute; congruence. }
  discriminate Habs.
Qed.

Example shared_lower_bound_is_model_minimum :
  map (fun p => (sb_id (p_base p), p_value p))
      (shared_parameters default_config Samples.two_reactions)
  = [ (Some "cobra_default_lb", Some (-2000)%Z);
      (Some "cobra_default_ub", Some 1000%Z);
      (Some "cobra_0_bound", Some 0%Z) ].
Proof. reflexivity. Qed.

(** ** Validation *)

(** C3 (as amended): on a document that holds a model, with the libsbml
    consistency check off, validation does not raise: when the conversion to
    a cobra model raises, it returns no model and an error map that holds the
    message of the failure, under [SBML errors] for a [CobraSBMLError] and
    under [other] for any other exception; when the conversion succeeds it
    returns the model.  On a document that holds no model, and on an input of
    an unsupported type, validation raises a [CobraSBMLError]. *)
Theorem validate_outcome
  (check : CModel -> list string) (libsbml_errors : list (severity * string))
  (warning_list : list string) (doc : SBMLDocument) (check_model : bool) :
  (doc_model doc <> None ->
   exists out errors,
     snd (validate_sbml_model check libsbml_errors warning_list
            (InDocument doc) false check_model) = inr (out, errors)
     /\ match snd (_sbml_to_model doc F_NONE) with
        | inl (CobraSBMLError msg) =>
            out = None /\ dict_get errors "SBML errors" = Some [msg]
        | inl (PyException cls msg) =>
            out = None /\ dict_get errors "other" = Some [msg]
        | inr model => out = Some model
        end)
  /\ (doc_model doc = None ->
      raised (validate_sbml_model check libsbml_errors warning_list
                (InDocument doc) false check_model)
      = Some (CobraSBMLError "No SBML model detected in file."))
  /\ raised (validate_sbml_model check libsbml_errors warning_list
               InUnsupported false check_model)
     = Some (CobraSBMLError "Input format for 'filename' is not supported.").
Proof.
  split; [|split].
  - intros Hmodel.
    destruct (doc_model doc) as [model|] eqn:Hm; [|congruence].
    cbv beta iota zeta delta [validate_sbml_model _get_doc_from_filename bind ret].
    rewrite Hm.
    destruct (_sbml_to_model doc F_NONE) as [l [[msg|cls msg]|m]].
    + eexists. eexists. split; [reflexivity|]. split; reflexivity.
    + eexists. eexists. split; [reflexivity|]. split; reflexivity.
    + eexists. eexists. split; [reflexivity|]. reflexivity.
  - intros Hnone.
    cbv beta iota zeta delta
        [validate_sbml_model _get_doc_from_filename bind ret raised].
    rewrite Hnone. reflexivity.
  - reflexivity.
Qed.

Lemma validate_outcome_witness :
  exists errors,
    snd (validate_sbml_model Samples.no_findings [] []
           (InDocument Samples.no_bounds_document) false true)
    = inr (None, errors)
    /\ dict_get errors "SBML errors" = Some ["No flux bounds on reaction 'R_x'"].
Proof.
  destruct (validate_outcome Samples.no_findings [] []
              Samples.no_bounds_document true) as [H _].
  destruct H as [out [errors [Hrun Hout]]]; [discriminate|].
  vm_compute in Hout. destruct Hout as [-> Herr].
  exists errors. split; [exact Hrun | exact Herr].
Defined.

(** C3 fails as stated: on a malformed input for which libsbml gives a
    document without a model, validation raises. *)
Lemma validate_counterexample :
  raised (validate_sbml_model Samples.no_findings [] []
            (InDocument Samples.no_model_document) false true)
  = Some (CobraSBMLError "No SBML model detected in file.")
  /\ value_of (validate_sbml_model Samples.no_findings [] []
                 (InDocument Samples.no_model_document) false true) = None.
Proof. split; reflexivity. Qed.

Example validate_libsbml_error_key :
  raised (validate_sbml_model Samples.no_findings
            [(LIBSBML_SEV_ERROR, "E0")] []
            (InDocument Samples.no_bounds_document) true true)
  = Some (PyException "KeyError" "SBML_ERROR").
Proof. reflexivity. Qed.

(** ** The reader on legacy documents *)

(** C5 at the failing input: the document has no FBC plugin and its reaction
    carries the note GENE_ASSOCIATION: (g1 and g2); the note is not parsed,
    the model read has no gene and the gene rule of the reaction is empty.
    Without the parentheses the same note gives the genes g1 and g2 and the
    rule. *)
Theorem legacy_gpr_note_lost :
  exists m,
    _sbml_to_model Samples.gpr_note_document F_REPLACE
    = ([WarnNoFbc; WarnKineticLawBounds (Some "R_r1")], inr m)
    /\ cm_genes m = []
    /\ map (fun r => (rxn_id r, rxn_notes r, gene_reaction_rule r))
           (cm_reactions m) = [("r1", [], "")]
    /\ exists m',
         value_of (_sbml_to_model Samples.bare_gpr_note_document F_REPLACE)
         = Some m'
         /\ map gene_id (cm_genes m') = ["g1"; "g2"]
         /\ map gene_reaction_rule (cm_reactions m') = ["g1 and g2"].
Proof.
  eexists. split; [reflexivity|]. split; [reflexivity|]. split; [reflexivity|].
  eexists. split; [reflexivity|]. split; reflexivity.
Qed.

(** C8 at the failing input: the species M_a has its boundary-condition
    flag set and is a reactant of the reaction R_r; under the default
    identifier configuration the reader returns a model in which the
    reaction keeps the reference, and logs no warning about it. *)
Theorem boundary_reference_kept :
  exists m,
    _sbml_to_model Samples.boundary_document F_REPLACE
    = ([WarnNoFbc; WarnKineticLawBounds (Some "R_r")], inr m)
    /\ map (fun r => (rxn_id r, _metabolites r)) (cm_reactions m)
       = [("r", [("a", (-1)%Z); ("b", 1%Z)])].
Proof.
  eexists. split; reflexivity.
Qed.

(** With no identifier rewriting the reference is found among the boundary
    ids, and the reader raises while it formats the warning. *)
Example boundary_reference_raises_without_rewriting :
  _sbml_to_model Samples.boundary_document F_NONE
  = ([WarnNoFbc; WarnKineticLawBounds (Some "R_r")],
     inl REACTION_HAS_NO_GETID).
Proof. reflexivity. Qed.

(** C9 at the failing input: in a legacy document the kinetic law of R_a
    holds the objective coefficient 1 and that of R_b, the last reaction,
    holds 0; the reader gives both reactions the coefficient 0. *)
Theorem klaw_objective_of_last_reaction :
  exists m,
    value_of (_sbml_to_model Samples.klaw_objective_document F_REPLACE) = Some m
    /\ map (fun r => (rxn_id r, objective_coefficient m r)) (cm_reactions m)
       = [("a", 0%Z); ("b", 0%Z)]
    /\ cm_objective_coefficients m = [("a", 0%Z); ("b", 0%Z)].
Proof.
  eexists. split; [reflexivity|]. split; reflexivity.
Qed.

(** ** Round trip *)

(** C1 at the failing input: a canonical model with two reactions, the
    first with the configured default lower bound -1000 and the second with
    the lower bound -2000, written and read back under the default identifier
    configuration; the first reaction comes back with the lower bound -2000,
    everything else is reproduced. *)
Theorem roundtrip_lower_bound_changed :
  exists doc m,
    _model_to_sbml Samples.no_infix default_config Samples.two_reactions
      F_REPLACE true = ([], inr doc)
    /\ _sbml_to_model doc F_REPLACE = ([], inr m)
    /\ map (fun r => (rxn_id r, lower_bound r, upper_bound r))
           (cm_reactions Samples.two_reactions)
       = [("r1", (-1000)%Z, 1000%Z); ("r2", (-2000)%Z, 1000%Z)]
    /\ map (fun r => (rxn_id r, lower_bound r, upper_bound r)) (cm_reactions m)
       = [("r1", (-2000)%Z, 1000%Z); ("r2", (-2000)%Z, 1000%Z)]
    /\ cm_compartments m = cm_compartments Samples.two_reactions
    /\ cm_metabolites m = cm_metabolites Samples.two_reactions
    /\ cm_genes m = cm_genes Samples.two_reactions
    /\ map _metabolites (cm_reactions m)
       = map _metabolites (cm_reactions Samples.two_reactions)
    /\ cm_objective_coefficients m
       = cm_objective_coefficients Samples.two_reactions
    /\ cm_groups m = cm_groups Samples.two_reactions.
Proof.
  eexists. eexists. split; [reflexivity|]. split; [reflexivity|].
  repeat split; reflexivity.
Qed.

(** Written and read back with no identifier rewriting, every species is
    a boundary species under its own id, and the first reference to one
    makes the reader raise. *)
Example roundtrip_without_rewriting_raises :
  exists doc,
    value_of (_model_to_sbml Samples.no_infix default_config
                Samples.two_reactions F_NONE true) = Some doc
    /\ raised (_sbml_to_model doc F_NONE) = Some REACTION_HAS_NO_GETID.
Proof.
  eexists. split; reflexivity.
Qed.

(* ================================================================== *)
(** * Further properties *)
(* ================================================================== *)

(** ** Identifier codec, the other way round *)

Lemma prefix_cons (a : ascii) (p : string) (b : ascii) (s : string) :
  String.prefix (String a p) (String b s)
  = if Ascii.eqb a b then String.prefix p s else false.
Proof.
  change (String.prefix (String a p) (String b s))
    with (if ascii_dec a b then String.prefix p s else false).
  destruct (ascii_dec a b) as [->|Hn].
  - rewrite Ascii.eqb_refl. reflexivity.
  - apply Ascii.eqb_neq in Hn. rewrite Hn. reflexivity.
Qed.

Lemma prefix_placeholder_other (c : ascii) (s : string) :
  Ascii.eqb "_" c = false -> String.prefix SBML_DOT (String c s) = false.
Proof.
  intros Hc. unfold SBML_DOT. rewrite prefix_cons, Hc. reflexivity.
Qed.

(** Unescaping the placeholders of a text whose dots were escaped gives the
    text back, when it has no underscore. *)
Lemma unescape_escape (x : string) :
  PyStr.has_char "_" x = false ->
  PyStr.replace SBML_DOT "." (PyStr.replace "." SBML_DOT x) = x.
Proof.
  induction x as [|c x IH]; intros H; [reflexivity|].
  cbn [PyStr.has_char] in H. apply orb_false_iff in H as [Hc Hx].
  destruct (Ascii.eqb "." c) eqn:Hdot.
  - apply Ascii.eqb_eq in Hdot. subst c.
    rewrite (replace_here "." SBML_DOT)
      by (discriminate || (rewrite prefix_char; reflexivity)).
    cbn [String.length PyStr.drop].
    rewrite (replace_here SBML_DOT ".")
      by (discriminate || apply prefix_app).
    rewrite drop_app, IH by exact Hx. reflexivity.
  - rewrite replace_next by (rewrite prefix_char; exact Hdot).
    rewrite replace_next by (apply prefix_placeholder_other; exact Hc).
    rewrite IH by exact Hx. reflexivity.
Qed.

(** The escaped form of a text without underscore does not start with the
    placeholder less its first underscore. *)
Lemma escaped_head (x : string) :
  PyStr.has_char "_" x = false ->
  String.prefix SBML_DOT (String "_" (PyStr.replace "." SBML_DOT x)) = false.
Proof.
  intros H. destruct x as [|c x]; [reflexivity|].
  cbn [PyStr.has_char] in H. apply orb_false_iff in H as [Hc Hx].
  destruct (Ascii.eqb "." c) eqn:Hdot.
  - apply Ascii.eqb_eq in Hdot. subst c.
    rewrite (replace_here "." SBML_DOT)
      by (discriminate || (rewrite prefix_char; reflexivity)).
    reflexivity.
  - rewrite replace_next by (rewrite prefix_char; exact Hdot).
    unfold SBML_DOT. rewrite prefix_cons, Ascii.eqb_refl.
    rewrite prefix_cons, Hc. reflexivity.
Qed.

(** The gene transforms cancel on a text without underscore. *)
Lemma gene_strip_restore (x : string) :
  PyStr.has_char "_" x = false -> _f_gene (_f_gene_rev x) = x.
Proof.
  intros H. unfold _f_gene_rev, _f_gene.
  change ("G_" ++ PyStr.replace "." SBML_DOT x)%string
    with (String "G" (String "_" (PyStr.replace "." SBML_DOT x))).
  rewrite replace_next by reflexivity.
  rewrite replace_next by (apply escaped_head; exact H).
  rewrite unescape_escape by exact H.
  apply (clip_prefixed "G_").
Qed.

(** X1: stripping the restored form of an id gives the id back, for every
    specie and reaction id and for every gene id without underscore (dots
    are escaped on the way out and unescaped on the way in). *)
Theorem strip_restore_id (k : entity_kind) (x : string) :
  reversible_id k x -> strip_id k (restore_id k x) = x.
Proof.
  destruct k; cbn [reversible_id strip_id restore_id]; intros H.
  - apply gene_strip_restore, H.
  - apply (clip_prefixed "M_").
  - apply (clip_prefixed "R_").
Qed.

Lemma strip_restore_id_witness :
  strip_id KGene (restore_id KGene "b0001.2") = "b0001.2".
Proof. apply (strip_restore_id KGene "b0001.2"). reflexivity. Defined.

Example restore_escapes_dots : restore_id KGene "b0001.2" = "G_b0001__SBML_DOT__2".
Proof. reflexivity. Qed.

Example strip_restore_underscore_lost :
  strip_id KGene (restore_id KGene "_SBML_DOT__") = "G.".
Proof. reflexivity. Qed.

(** ** Annotations of bare entity ids *)

Lemma bind_ret_nil {A B : Type} (m : M A) (f : A -> M B) (a : A) (b : B) :
  m = ([], inr a) -> f a = ([], inr b) -> bind m f = ([], inr b).
Proof. intros -> Hf. unfold bind. rewrite Hf. reflexivity. Qed.

Lemma split_acc_no_separator (sep : ascii) (s rest cur : string) :
  PyStr.has_char sep s = false ->
  PyStr.split_acc sep (s ++ rest) cur = PyStr.split_acc sep rest (cur ++ s).
Proof.
  revert cur; induction s as [|c s IH]; intros cur H.
  - simpl. f_equal. induction cur; simpl; congruence.
  - cbn [PyStr.has_char] in H. apply orb_false_iff in H as [Hc Hs].
    cbn [append PyStr.split_acc].
    rewrite Ascii.eqb_sym, Hc. rewrite IH by exact Hs.
    f_equal. clear. induction cur; simpl; congruence.
Qed.

(** The five tokens of an identifiers.org resource. *)
Lemma split_resource (provider entity : string) :
  PyStr.has_char "/" provider = false ->
  PyStr.has_char "/" entity = false ->
  PyStr.split "/"
    (URL_IDENTIFIERS_PREFIX ++ "/" ++ provider ++ "/" ++ entity)
  = ["https:"; ""; "identifiers.org"; provider; entity].
Proof.
  intros Hp He. unfold PyStr.split, URL_IDENTIFIERS_PREFIX.
  cbn [append PyStr.split_acc Ascii.eqb Bool.eqb].
  do 3 f_equal.
  rewrite split_acc_no_separator by exact Hp.
  cbn [append PyStr.split_acc]. rewrite Ascii.eqb_refl.
  f_equal.
  replace entity with (entity ++ "")%string at 1
    by (clear; induction entity; simpl; congruence).
  rewrite split_acc_no_separator by exact He. reflexivity.
Qed.

Lemma dict_set_fresh {V : Type} (d : dict V) (k : string) (v : V) :
  ~ In k (keys d) -> dict_set d k v = d ++ [(k, v)].
Proof.
  induction d as [|[k' v'] d IH]; intros H; [reflexivity|].
  simpl in *. destruct (String.eqb_spec k k') as [->|Hne].
  - exfalso. apply H. left. reflexivity.
  - f_equal. apply IH. intros Hin. apply H. right. exact Hin.
Qed.

(** The provider of a plain entry can be read off its resource. *)
Lemma resource_of_provider (kv kv' : string * annot_value) :
  plain_entry kv -> plain_entry kv' ->
  resource_of kv = resource_of kv' -> fst kv = fst kv'.
Proof.
  destruct kv as [k [e|l]], kv' as [k' [e'|l']]; unfold plain_entry;
    cbn [fst snd]; try contradiction.
  intros [Hk [He _]] [Hk' [He' _]] H. unfold resource_of in H.
  cbn [fst snd] in H.
  pose proof (split_resource k e Hk He) as S.
  rewrite H, (split_resource k' e' Hk' He') in S.
  injection S as S _. symmetry. exact S.
Qed.

Lemma resources_NoDup (ann : annotation) :
  Forall plain_entry ann -> NoDup (keys ann) -> NoDup (map resource_of ann).
Proof.
  induction 1 as [|kv ann Hkv Hall IH]; intros Hnd; [constructor|].
  cbn [keys map] in *. inversion Hnd as [|? ? Hnotin Hnd']; subst.
  constructor; [|apply IH, Hnd'].
  intros Hin. apply in_map_iff in Hin as [kv' [Heq Hin]].
  apply Hnotin. apply in_map_iff. exists kv'. split; [|exact Hin].
  rewrite Forall_forall in Hall.
  apply resource_of_provider; auto.
Qed.

(** A resource the term does not hold yet joins the term with the
    qualifier [is]. *)
Lemma addCVTerm_joins (b : SBase) (rs : list string) (r : string) :
  sb_meta_id b <> None -> sb_cvterms b = [is_term rs] -> ~ In r rs ->
  addCVTerm b (is_term [r]) = setCVTerms b [is_term (rs ++ [r])].
Proof.
  intros Hm Hcv Hr. unfold addCVTerm.
  destruct (sb_meta_id b); [|congruence].
  rewrite Hcv.
  cbn [hasRequiredAttributes is_term cv_qualifier cv_resources
       unknown_qualifier negb andb cv_qualifier_type filter
       resource_qualifier fold_left qualifier_type_eqb].
  assert (existsb (String.eqb r) rs = false) as ->.
  { destruct (existsb (String.eqb r) rs) eqn:E; [|reflexivity].
    apply existsb_exists in E as [x [Hx E]].
    apply String.eqb_eq in E. subst x. contradiction. }
  reflexivity.
Qed.

(** Serializing plain entries onto an element whose only term holds
    resources with the qualifier [is] adds their resources to that term, in
    order, and logs nothing. *)
Lemma annotate_plain (ann : annotation) :
  Forall plain_entry ann ->
  forall b rs,
    sb_meta_id b <> None -> sb_cvterms b = [is_term rs] ->
    NoDup (rs ++ map resource_of ann) ->
    foldM annotate_provider
          (map (fun kv => (fst kv, standardize (snd kv))) ann) b
    = ([], inr (setCVTerms b [is_term (rs ++ map resource_of ann)])).
Proof.
  induction 1 as [|[k v] ann Hkv _ IH]; intros b rs Hm Hcv Hnd.
  - cbn [map foldM]. rewrite app_nil_r. rewrite <- Hcv.
    destruct b; reflexivity.
  - unfold plain_entry in Hkv. cbn [fst snd] in Hkv.
    destruct v as [e|l]; [|contradiction].
    destruct Hkv as [_ [_ [H1 H2]]].
    cbn [map fst snd standardize foldM].
    eapply bind_ret_nil.
    + unfold annotate_provider. rewrite H1, H2.
      cbn [orb foldM annotate_item].
      change (PyStr.startswith "is" "bqm_") with false.
      change (dict_get QUALIFIER_TYPES "is") with (Some BQB_IS).
      cbn [bind ret app].
      change {| cv_qualifier_type := BIOLOGICAL_QUALIFIER;
                cv_qualifier := BQB_IS;
                cv_resources :=
                  [(URL_IDENTIFIERS_PREFIX ++ "/" ++ k ++ "/" ++ e)%string] |}
        with (is_term [resource_of (k, AStr e)]).
      rewrite (addCVTerm_joins b rs) by
        (try assumption; intros Hin; apply NoDup_remove_2 in Hnd;
         apply Hnd, in_or_app; left; exact Hin).
      reflexivity.
    + rewrite (IH _ (rs ++ [resource_of (k, AStr e)])).
      * cbn [setCVTerms]. rewrite <- app_assoc. reflexivity.
      * exact Hm.
      * reflexivity.
      * rewrite <- app_assoc. exact Hnd.
Qed.

(** The same from an element without a term: the first entry makes the
    term. *)
Lemma annotate_plain_fresh (ann : annotation) (b : SBase) :
  Forall plain_entry ann -> NoDup (keys ann) -> ann <> [] ->
  sb_meta_id b <> None -> sb_cvterms b = [] ->
  foldM annotate_provider
        (map (fun kv => (fst kv, standardize (snd kv))) ann) b
  = ([], inr (setCVTerms b [is_term (map resource_of ann)])).
Proof.
  intros Hplain Hnd Hne Hm Hcv.
  destruct ann as [|[k v] ann]; [congruence|].
  pose proof (resources_NoDup _ Hplain Hnd) as Hres.
  inversion Hplain as [|? ? Hkv Hrest]; subst.
  unfold plain_entry in Hkv. cbn [fst snd] in Hkv.
  destruct v as [e|l]; [|contradiction].
  destruct Hkv as [_ [_ [H1 H2]]].
  cbn [map fst snd standardize foldM].
  eapply bind_ret_nil.
  - unfold annotate_provider. rewrite H1, H2.
    cbn [orb foldM annotate_item].
    change (PyStr.startswith "is" "bqm_") with false.
    change (dict_get QUALIFIER_TYPES "is") with (Some BQB_IS).
    cbn [bind ret app].
    rewrite addCVTerm_first; [reflexivity | exact Hm | reflexivity | exact Hcv].
  - change {| cv_qualifier_type := BIOLOGICAL_QUALIFIER;
              cv_qualifier := BQB_IS;
              cv_resources :=
                [(URL_IDENTIFIERS_PREFIX ++ "/" ++ k ++ "/" ++ e)%string] |}
      with (is_term [resource_of (k, AStr e)]).
    rewrite (annotate_plain ann Hrest _ [resource_of (k, AStr e)]).
    + reflexivity.
    + exact Hm.
    + reflexivity.
    + exact Hres.
Qed.

(** Parsing the resources of plain entries with fresh providers appends the
    entries, in order, and logs nothing. *)
Lemma parse_plain (ann : annotation) :
  Forall plain_entry ann ->
  forall st,
    NoDup (keys st ++ keys ann) ->
    foldM parse_resource (map resource_of ann) st = ([], inr (st ++ ann)).
Proof.
  induction 1 as [|[k v] ann Hkv _ IH]; intros st Hnd.
  - simpl. rewrite app_nil_r. reflexivity.
  - unfold plain_entry in Hkv. cbn [fst snd] in Hkv.
    destruct v as [e|l]; [|contradiction].
    destruct Hkv as [Hk [He _]].
    assert (~ In k (keys st)) as Hfresh.
    { intros Hin. apply NoDup_remove_2 in Hnd. apply Hnd.
      apply in_or_app. left. exact Hin. }
    cbn [map foldM]. unfold resource_of at 1. cbn [fst snd].
    eapply bind_ret_nil.
    + unfold parse_resource. rewrite split_resource by assumption.
      rewrite String.eqb_refl.
      rewrite dict_get_absent by exact Hfresh. reflexivity.
    + rewrite dict_set_fresh by exact Hfresh.
      rewrite IH.
      * rewrite <- app_assoc. reflexivity.
      * unfold keys in *. rewrite map_app. cbn [map fst].
        rewrite <- app_assoc. exact Hnd.
Qed.

(** X2: an annotation whose entries are a provider and one bare entity id
    (no slash in either, provider other than the ontology-term keys, no
    provider twice) is read back exactly, in order and without a warning,
    from an element that had no ontology term and no cross-reference before
    the annotation was set on it. *)
Theorem plain_annotation_roundtrip (sbase : SBase) (ann : annotation) :
  sb_sbo sbase = None -> sb_cvterms sbase = [] ->
  NoDup (keys ann) -> Forall plain_entry ann ->
  exists sbase',
    _sbase_annotations sbase ann = ([], inr sbase')
    /\ _parse_annotations sbase' = ([], inr ann).
Proof.
  intros Hsbo Hcv Hnd Hplain.
  destruct ann as [|kv ann].
  - exists sbase. split; [reflexivity|].
    unfold _parse_annotations. rewrite Hsbo, Hcv. reflexivity.
  - unfold _sbase_annotations.
    rewrite (annotate_plain_fresh _ _ Hplain Hnd);
      [|discriminate | discriminate | exact Hcv].
    eexists. split; [reflexivity|].
    unfold _parse_annotations.
    cbn [sb_sbo sb_cvterms setCVTerms setMetaId]. rewrite Hsbo.
    cbn [foldM is_term cv_resources].
    eapply bind_ret_nil; [|reflexivity].
    apply (parse_plain _ Hplain []). exact Hnd.
Qed.

Lemma plain_annotation_roundtrip_witness :
  exists sbase',
    _sbase_annotations (setId new_sbase "M_atp_c")
      [("chebi", AStr "CHEBI:15422"); ("kegg.compound", AStr "C00002")]
    = ([], inr sbase')
    /\ _parse_annotations sbase'
       = ([], inr [("chebi", AStr "CHEBI:15422");
                   ("kegg.compound", AStr "C00002")]).
Proof.
  apply (plain_annotation_roundtrip (setId new_sbase "M_atp_c")).
  - reflexivity.
  - reflexivity.
  - repeat constructor; simpl; intuition discriminate.
  - repeat constructor.
Defined.

(** The qualifier of an entry is not read back, and a list of one entity
    comes back as a bare string. *)
Example qualifier_not_read_back :
  exists sbase',
    _sbase_annotations (setId new_sbase "M_glc__D_c")
      [("chebi", AList [AQual "isVersionOf" "CHEBI:17234"])]
    = ([], inr sbase')
    /\ _parse_annotations sbase' = ([], inr [("chebi", AStr "CHEBI:17234")]).
Proof. eexists. split; reflexivity. Qed.

(** ** Stoichiometry through species references *)








Lemma get_by_id_In {A : Type} (key : A -> string) (l : list A) (i : string)
  (x : A) :
  get_by_id key l i = Some x -> In x l /\ key x = i.
Proof.
  induction l as [|a l IH]; [discriminate|].
  simpl. destruct (String.eqb_spec (key a) i) as [He|Hne].
  - intros H. injection H as <-. split; [left; reflexivity | exact He].
  - intros H. apply IH in H as [Hin Hk]. split; [right; exact Hin | exact Hk].
Qed.







(** The same element read with no identifier rewriting, the boundary ids
    being the written ids: the reader raises. *)
Example written_stoichiometry_raises_without_rewriting :
  read_stoichiometry F_NONE ["a_c"; "b_c"] [Samples.met_a; Samples.met_b]
    {| r_base := setId new_sbase "r1"; r_fast := false;
       r_reversible := true;
       r_reactants := [Samples.sref "a_c" 1];
       r_products := [Samples.sref "b_c" 2];
       r_fbc := None; r_kinetic_law := None |}
  = ([], inl REACTION_HAS_NO_GETID).
Proof. reflexivity. Qed.

(** ** What the writer puts in the document *)

Lemma annotate_item_name (provider : string) (b b' : SBase)
  (item : string * string) :
  value_of (annotate_item provider b item) = Some b' -> sb_name b' = sb_name b.
Proof.
  unfold annotate_item. destruct item as [q e]. intros H.
  bind_inv H. injection H as <-. apply addCVTerm_fields.
Qed.

Lemma annotate_provider_name (b b' : SBase)
  (entry : string * list (string * string)) :
  value_of (annotate_provider b entry) = Some b' -> sb_name b' = sb_name b.
Proof.
  unfold annotate_provider. destruct entry as [provider data].
  destruct (String.eqb provider "SBO" || String.eqb provider "sbo"); intros H.
  - bind_inv H. destruct data as [|[q t] data]; [discriminate|].
    injection H as <-. reflexivity.
  - revert H. apply (foldM_invariant (fun x => sb_name x = sb_name b));
      [|reflexivity].
    intros st x st' Hst Hx. rewrite <- Hst. eapply annotate_item_name, Hx.
Qed.

Lemma sbase_annotations_name (b b' : SBase) (ann : annotation) :
  value_of (_sbase_annotations b ann) = Some b' -> sb_name b' = sb_name b.
Proof.
  unfold _sbase_annotations. destruct ann as [|kv ann]; intros H.
  - injection H as <-. reflexivity.
  - revert H. apply (foldM_invariant (fun x => sb_name x = sb_name b));
      [|reflexivity].
    intros st x st' Hst Hx. rewrite <- Hst. eapply annotate_provider_name, Hx.
Qed.

Lemma sbase_notes_dict_name (b : SBase) (notes : dict string) :
  sb_name (_sbase_notes_dict b notes) = sb_name b.
Proof.
  unfold _sbase_notes_dict. destruct (notes_markup notes); reflexivity.
Qed.

Lemma write_species_as (f_replace : FReplace) (met : Metabolite) (s : Species) :
  value_of (write_species f_replace met) = Some s ->
  species_written_as f_replace met s.
Proof.
  unfold write_species. intros H. bind_inv H. injection H as <-.
  unfold species_written_as. cbn [s_base s_compartment s_fbc s_charge].
  rewrite sbase_notes_dict_id, sbase_notes_dict_name.
  rewrite (sbase_annotations_id _ _ _ Ha), (sbase_annotations_name _ _ _ Ha).
  repeat split; reflexivity.
Qed.

Lemma write_gene_as (f_replace : FReplace) (gene : Gene) (gp : GeneProduct) :
  value_of (write_gene f_replace gene) = Some gp ->
  gene_written_as f_replace gene gp.
Proof.
  unfold write_gene. intros H. bind_inv H. injection H as <-.
  unfold gene_written_as. cbn [gp_base gp_label].
  rewrite sbase_notes_dict_id, sbase_notes_dict_name.
  rewrite (sbase_annotations_id _ _ _ Ha), (sbase_annotations_name _ _ _ Ha).
  repeat split; reflexivity.
Qed.

Lemma write_reaction_step
  (parse_infix : string -> option FbcAssociation) (config : Configuration)
  (f_replace : FReplace) (units : bool) (flux_udef : option string)
  (cobra_model : CModel)
  (parameters : list SBMLParameter) (flux_objectives : list FluxObjective)
  (reactions : list Reaction) (reaction : CReaction)
  (st' : list SBMLParameter * list FluxObjective * list Reaction) :
  value_of (write_reaction parse_infix config f_replace units flux_udef
              cobra_model (parameters, flux_objectives, reactions) reaction)
  = Some st' ->
  exists w,
    written_as parse_infix config f_replace units flux_udef reaction w
    /\ st' = (parameters
              ++ new_parameters config f_replace units flux_udef reaction,
              flux_objectives
              ++ new_flux_objectives f_replace cobra_model reaction,
              reactions ++ [w]).
Proof.
  unfold write_reaction. intros H. bind_inv H. bind_inv H.
  unfold written_as, new_parameters, new_flux_objectives.
  destruct (_create_bound config reaction lower_bound_attr f_replace units
              flux_udef) as [lb_id lb_new].
  destruct (_create_bound config reaction upper_bound_attr f_replace units
              flux_udef) as [ub_id ub_new].
  injection H as <-. eexists. split; cycle 1.
  - cbn [fst snd].
    destruct (negb (Z.eqb (objective_coefficient cobra_model reaction) 0));
      rewrite ?app_nil_r; reflexivity.
  - cbn [r_base r_reactants r_products r_kinetic_law r_reversible r_fbc fst snd].
    rewrite sbase_notes_dict_id, sbase_notes_dict_name.
    rewrite (sbase_annotations_id _ _ _ Ha), (sbase_annotations_name _ _ _ Ha).
    repeat split; reflexivity.
Qed.

(** The loop over the reactions adds, reaction by reaction, the parameters
    of its bounds, its flux objective and its element. *)
Lemma write_reactions_spec
  (parse_infix : string -> option FbcAssociation) (config : Configuration)
  (f_replace : FReplace) (units : bool) (flux_udef : option string)
  (cobra_model : CModel) (l : list CReaction) :
  forall parameters flux_objectives reactions p f rs,
    value_of (foldM (write_reaction parse_infix config f_replace units
                       flux_udef cobra_model)
                    l (parameters, flux_objectives, reactions))
    = Some (p, f, rs) ->
    p = parameters
        ++ flat_map (new_parameters config f_replace units flux_udef) l
    /\ f = flux_objectives
           ++ flat_map (new_flux_objectives f_replace cobra_model) l
    /\ exists ws,
         rs = reactions ++ ws
         /\ Forall2 (written_as parse_infix config f_replace units flux_udef)
                    l ws.
Proof.
  induction l as [|r l IH]; intros parameters flux_objectives reactions p f rs H.
  - simpl in H. injection H as <- <- <-.
    rewrite !app_nil_r. repeat split. exists []. rewrite app_nil_r.
    split; [reflexivity | constructor].
  - cbn [foldM] in H. bind_inv H.
    apply write_reaction_step in Ha as [w [Hw ->]].
    apply IH in H as [-> [-> [ws [-> Hws]]]].
    cbn [flat_map]. rewrite <- !app_assoc. repeat split.
    exists (w :: ws). split; [reflexivity|]. constructor; assumption.
Qed.

(** What a document the writer returns is made of. *)
Lemma model_to_sbml_inversion
  (parse_infix : string -> option FbcAssociation) (config : Configuration)
  (cobra_model : CModel) (f_replace : FReplace) (units : bool)
  (doc : SBMLDocument) :
  value_of (_model_to_sbml parse_infix config cobra_model f_replace units)
  = Some doc ->
  exists model gene_products objective_type,
    doc_model doc = Some model
    /\ doc_plugins doc
       = ("fbc", 2) :: match cm_groups cobra_model with
                       | [] => []
                       | _ => [("groups", 1)]
                       end
    /\ sm_level model = 3 /\ sm_version model = 1
    /\ sb_id (sm_base model) = cm_id cobra_model
    /\ sm_parameters model
       = shared_parameters config cobra_model
         ++ flat_map (new_parameters config f_replace units
                        (if units then Some UNITS_FLUX_ID else None))
                     (cm_reactions cobra_model)
    /\ sm_compartments model
       = map write_compartment (cm_compartments cobra_model)
    /\ Forall2 (species_written_as f_replace)
               (cm_metabolites cobra_model) (sm_species model)
    /\ Forall2 (written_as parse_infix config f_replace units
                  (if units then Some UNITS_FLUX_ID else None))
               (cm_reactions cobra_model) (sm_reactions model)
    /\ sm_fbc model
       = Some {| fm_strict := Some true;
                 fm_gene_products := gene_products;
                 fm_objectives :=
                   Some [ {| o_id := "obj";
                             o_type := objective_type;
                             o_flux_objectives :=
                               flat_map (new_flux_objectives f_replace
                                           cobra_model)
                                        (cm_reactions cobra_model) |} ];
                 fm_active_objective := "obj" |}
    /\ Forall2 (gene_written_as f_replace) (cm_genes cobra_model) gene_products
    /\ dict_get SHORT_LONG_DIRECTION (cm_objective_direction cobra_model)
       = Some objective_type
    /\ (cm_groups cobra_model = [] -> sm_groups model = None)
    /\ (cm_groups cobra_model <> [] ->
        exists gs, sm_groups model = Some gs
                   /\ length gs = length (cm_groups cobra_model)).
Proof.
  unfold _model_to_sbml. intros H.
  bind_inv H. bind_inv H. bind_inv H. bind_inv H. bind_inv H.
  destruct a3 as [[parameters flux_objectives] reactions].
  bind_inv H. injection H as <-.
  apply write_reactions_spec in Ha3 as [-> [-> [ws [-> Hws]]]].
  assert (dict_get SHORT_LONG_DIRECTION (cm_objective_direction cobra_model)
          = Some a2) as Hdir.
  { destruct (dict_get SHORT_LONG_DIRECTION
                (cm_objective_direction cobra_model));
      [injection Ha2 as ->; reflexivity | discriminate]. }
  assert (match a3 with
          | Some _ => [("groups", 1)]
          | None => []
          end
          = match cm_groups cobra_model with
            | [] => []
            | _ => [("groups", 1)]
            end
          /\ (cm_groups cobra_model = [] -> a3 = None)
          /\ (cm_groups cobra_model <> [] ->
              exists gs, a3 = Some gs
                         /\ length gs = length (cm_groups cobra_model)))
    as [Hplug [Hnone Hsome]].
  { destruct (cm_groups cobra_model) as [|g gs] eqn:Hg.
    - injection Ha4 as <-. split; [reflexivity|]. split; congruence.
    - bind_inv Ha4. injection Ha4 as <-.
      split; [reflexivity|]. split; [discriminate|].
      intros _. eexists. split; [reflexivity|].
      apply mapM_Forall2 in Ha3. apply Forall2_length in Ha3.
      symmetry. exact Ha3. }
  eexists. exists a1, a2.
  cbn [doc_model doc_plugins sm_level sm_version sm_base sm_parameters
       sm_compartments sm_species sm_reactions sm_fbc sm_groups app].
  split; [reflexivity|]. split; [f_equal; exact Hplug|].
  split; [reflexivity|]. split; [reflexivity|].
  split; [destruct (cm_id cobra_model); destruct (cm_name cobra_model);
          reflexivity|].
  split; [reflexivity|]. split; [reflexivity|].
  split.
  { apply mapM_Forall2 in Ha0.
    induction Ha0; constructor; [apply write_species_as|]; assumption. }
  split; [exact Hws|].
  split; [reflexivity|].
  split.
  { apply mapM_Forall2 in Ha1.
    induction Ha1; constructor; [apply write_gene_as|]; assumption. }
  split; [exact Hdir|]. split; assumption.
Qed.

(** ** The parameters of the bounds *)





Lemma create_bound_cases (config : Configuration) (r : CReaction)
  (bt : bound_type) (f_replace : FReplace) (units : bool)
  (flux_udef : option string) :
  (shared_value config (getattr_bound r bt)
   /\ snd (_create_bound config r bt f_replace units flux_udef) = []
   /\ In (fst (_create_bound config r bt f_replace units flux_udef)) shared_ids)
  \/ (~ shared_value config (getattr_bound r bt)
      /\ _create_bound config r bt f_replace units flux_udef
         = (bound_parameter_id f_replace r bt,
            [_create_parameter (bound_parameter_id f_replace r bt)
               (getattr_bound r bt) (Some SBO_FLUX_BOUND) true units
               flux_udef])).
Proof.
  unfold _create_bound, shared_value, shared_ids.
  destruct (Z.eqb_spec (getattr_bound r bt) (LOWER_BOUND config)) as [Hl|Hl].
  { left. split; [tauto|]. split; [reflexivity | left; reflexivity]. }
  destruct (Z.eqb_spec (getattr_bound r bt) 0) as [Hz|Hz].
  { left. split; [tauto|].
    split; [reflexivity | right; right; left; reflexivity]. }
  destruct (Z.eqb_spec (getattr_bound r bt) (UPPER_BOUND config)) as [Hu|Hu].
  { left. split; [tauto|]. split; [reflexivity | right; left; reflexivity]. }
  right. split; [tauto | reflexivity].
Qed.









Lemma bind_ret_l {A B : Type} (a : A) (f : A -> M B) : bind (ret a) f = f a.
Proof. unfold bind, ret. destruct (f a). reflexivity. Qed.

Lemma get_by_id_None {A : Type} (key : A -> string) (l : list A) (i : string) :
  get_by_id key l i = None -> ~ In i (map key l).
Proof.
  induction l as [|a l IH]; [intros _ []|].
  simpl. destruct (String.eqb_spec (key a) i) as [He|Hne]; [discriminate|].
  intros H [Ha|Hin]; [contradiction | exact (IH H Hin)].
Qed.



(** X5: when every bound of every reaction is the configured default lower
    bound, zero or the configured default upper bound, the document the
    writer returns holds exactly the three shared parameters, however many
    reactions there are, and every reaction refers to shared ids. *)
Theorem shared_bounds_three_parameters
  (parse_infix : string -> option FbcAssociation) (config : Configuration)
  (cobra_model : CModel) (f_replace : FReplace) (units : bool)
  (doc : SBMLDocument) :
  Forall (fun r => shared_value config (lower_bound r)
                   /\ shared_value config (upper_bound r))
         (cm_reactions cobra_model) ->
  value_of (_model_to_sbml parse_infix config cobra_model f_replace units)
  = Some doc ->
  exists model,
    doc_model doc = Some model
    /\ sm_parameters model = shared_parameters config cobra_model
    /\ length (sm_reactions model) = length (cm_reactions cobra_model)
    /\ Forall (fun w =>
                 exists lb ub,
                   option_map fr_lower_flux_bound (r_fbc w) = Some (Some lb)
                   /\ option_map fr_upper_flux_bound (r_fbc w) = Some (Some ub)
                   /\ In lb shared_ids /\ In ub shared_ids)
              (sm_reactions model).
Proof.
  intros Hall H.
  apply model_to_sbml_inversion in H
    as [model [gps [ot [Hm [_ [_ [_ [_ [Hp [_ [_ [Hr _]]]]]]]]]]]].
  exists model. split; [exact Hm|].
  split; [|split].
  - rewrite Hp.
    replace (flat_map _ (cm_reactions cobra_model)) with (@nil SBMLParameter);
      [apply app_nil_r|].
    symmetry. clear -Hall.
    induction Hall as [|r l [Hl Hu] _ IH]; [reflexivity|].
    cbn [flat_map]. rewrite IH, app_nil_r. unfold new_parameters.
    destruct (create_bound_cases config r lower_bound_attr f_replace units
                (if units then Some UNITS_FLUX_ID else None))
      as [[_ [-> _]]|[Hn _]]; [|contradiction].
    destruct (create_bound_cases config r upper_bound_attr f_replace units
                (if units then Some UNITS_FLUX_ID else None))
      as [[_ [-> _]]|[Hn _]]; [reflexivity | contradiction].
  - symmetry. eapply Forall2_length, Hr.
  - clear -Hall Hr. revert Hall.
    induction Hr as [|r w l ws Hw _ IH]; intros Hall; constructor.
    + inversion Hall as [|? ? [Hl Hu] _]; subst.
      destruct Hw as [_ [_ [_ [_ [_ [_ ->]]]]]].
      eexists. eexists. cbn [option_map fr_lower_flux_bound fr_upper_flux_bound].
      split; [reflexivity|]. split; [reflexivity|].
      destruct (create_bound_cases config r lower_bound_attr f_replace units
                  (if units then Some UNITS_FLUX_ID else None))
        as [[_ [_ Hin]]|[Hn _]]; [|contradiction].
      destruct (create_bound_cases config r upper_bound_attr f_replace units
                  (if units then Some UNITS_FLUX_ID else None))
        as [[_ [_ Hin']]|[Hn _]]; [|contradiction].
      split; assumption.
    + apply IH. inversion Hall; assumption.
Qed.

Lemma shared_bounds_three_parameters_witness :
  exists doc model,
    value_of (_model_to_sbml Samples.no_infix default_config
                MoreSamples.default_bounds_model F_REPLACE true) = Some doc
    /\ doc_model doc = Some model
    /\ length (sm_parameters model) = 3
    /\ length (sm_reactions model) = 3.
Proof.
  destruct (value_of (_model_to_sbml Samples.no_infix default_config
                        MoreSamples.default_bounds_model F_REPLACE true))
    as [doc|] eqn:Hdoc; [|vm_compute in Hdoc; discriminate].
  destruct (shared_bounds_three_parameters Samples.no_infix default_config
              MoreSamples.default_bounds_model F_REPLACE true doc)
    as [model [Hm [Hp [Hl _]]]].
  - repeat constructor; vm_compute; tauto.
  - exact Hdoc.
  - exists doc, model. split; [reflexivity|]. split; [exact Hm|].
    split; [rewrite Hp; reflexivity | exact Hl].
Defined.





(** ** What the reader makes of a document *)

Lemma sbml_to_model_inversion (doc : SBMLDocument) (f_replace : FReplace)
  (m : CModel) :
  value_of (_sbml_to_model doc f_replace) = Some m ->
  exists model boundary_ids,
    doc_model doc = Some model
    /\ value_of (read_all_species f_replace model)
       = Some (boundary_ids, cm_metabolites m)
    /\ value_of (match sm_fbc model with
                 | Some model_fbc =>
                     foldM (read_gene_product f_replace)
                           (fm_gene_products model_fbc) []
                 | None =>
                     ret (fold_left (read_genes_from_notes f_replace)
                                    (sm_reactions model) [])
                 end) = Some (cm_genes m)
    /\ value_of (foldM (read_reaction f_replace model boundary_ids
                          (cm_metabolites m))
                       (sm_reactions model) []) = Some (cm_reactions m)
    /\ value_of (read_objective f_replace model (cm_reactions m))
       = Some (cm_objective_direction m, cm_objective_coefficients m)
    /\ value_of (read_groups f_replace model
                   {| col_metabolites := cm_metabolites m;
                      col_reactions := cm_reactions m;
                      col_genes := cm_genes m |}
                   (obj_after_objective model)) = Some (cm_groups m)
    /\ cm_compartments m
       = dict_of_items (map (fun c => (c_id c, c_name c))
                            (sm_compartments model))
    /\ cm_id m = sb_id (sm_base model)
    /\ cm_name m = Some (getName (sm_base model))
    /\ cm_notes m = _parse_notes_dict (sb_notes (sm_base model)).
Proof.
  unfold _sbml_to_model. intros H.
  destruct (doc_model doc) as [model|]; [|discriminate].
  bind_inv H. bind_inv H. bind_inv H. bind_inv H. bind_inv H.
  destruct a3 as [boundary_ids metabolites].
  bind_inv H. bind_inv H. bind_inv H. bind_inv H.
  injection H as <-.
  exists model, boundary_ids.
  cbn [cm_metabolites cm_genes cm_reactions cm_objective_direction
       cm_objective_coefficients cm_groups cm_compartments cm_id cm_name
       cm_notes].
  repeat split; try assumption; try reflexivity.
  destruct a5 as [d c]. exact Ha6.
Qed.

Lemma read_species_spec (f_replace : FReplace) (bids : list string)
  (mets : list Metabolite) (s : Species)
  (st' : list string * list Metabolite) :
  value_of (read_species f_replace (bids, mets) s) = Some st' ->
  exists met,
    st' = (if s_boundary_condition s
           then set_add bids (getId_str (s_base s)) else bids,
           mets ++ [met])
    /\ species_read_as f_replace s met.
Proof.
  unfold read_species, species_read_as, getId_str.
  destruct (sb_id (s_base s)) as [i|] eqn:Hid; [|discriminate].
  cbn [_check_required option_map].
  rewrite (value_bind _ _ i) by reflexivity.
  destruct (parse_annotations_total (s_base s)) as [a Ha].
  rewrite (value_bind _ _ a) by exact Ha.
  destruct (s_fbc s) as [fs|].
  - intros H. injection H as <-. eexists. split; [reflexivity|].
    repeat split; reflexivity.
  - destruct (s_charge s) as [c|];
      destruct (dict_get (_parse_notes_dict (sb_notes (s_base s))) "CHARGE");
      destruct (dict_get (_parse_notes_dict (sb_notes (s_base s))) "FORMULA");
      intros H; injection H as <-; (eexists; split; [reflexivity|]);
      repeat split; reflexivity.
Qed.

(** The species loop: one metabolite per species, in order, and the set of
    boundary ids is exactly the set of the document ids of the species whose
    flag is set. *)
Lemma read_species_loop_spec (f_replace : FReplace) (l : list Species) :
  forall bids mets bids' mets',
    value_of (foldM (read_species f_replace) l (bids, mets))
    = Some (bids', mets') ->
    (forall i, set_mem bids' i = true <->
               set_mem bids i = true
               \/ exists s, In s l /\ s_boundary_condition s = true
                            /\ getId_str (s_base s) = i)
    /\ exists ms, mets' = mets ++ ms
                  /\ Forall2 (species_read_as f_replace) l ms.
Proof.
  induction l as [|s l IH]; intros bids mets bids' mets' H.
  - simpl in H. injection H as <- <-. split.
    + intros i. split; [auto|]. intros [Hi|[s [[] _]]]. exact Hi.
    + exists []. rewrite app_nil_r. split; [reflexivity | constructor].
  - cbn [foldM] in H. bind_inv H.
    apply read_species_spec in Ha as [met [-> Hmet]].
    apply IH in H as [Hb [ms [-> Hms]]]. split.
    + intros i. rewrite Hb. split.
      * intros [Hi|[s' [Hin [Hbc Hi]]]].
        -- destruct (s_boundary_condition s) eqn:Hs; [|left; exact Hi].
           rewrite set_mem_add in Hi. apply orb_true_iff in Hi as [Hi|Hi];
             [left; exact Hi|].
           apply String.eqb_eq in Hi. right. exists s.
           split; [left; reflexivity|]. split; [exact Hs | congruence].
        -- right. exists s'. split; [right; exact Hin|]. split; assumption.
      * intros [Hi|[s' [[<-|Hin] [Hbc Hi]]]].
        -- left. destruct (s_boundary_condition s); [|exact Hi].
           rewrite set_mem_add, Hi. reflexivity.
        -- left. rewrite Hbc, set_mem_add, Hi, String.eqb_refl.
           apply orb_true_r.
        -- right. exists s'. split; [exact Hin|]. split; assumption.
    + exists (met :: ms). rewrite <- app_assoc. split; [reflexivity|].
      constructor; assumption.
Qed.

(** X7: in a model the reader returns, the metabolites are those of the
    species of the document, one per species and in order, each with the
    rewritten id, the name and the compartment (the empty string when the
    species has none) and the notes of its species.  When the species has
    an FBC plugin, the charge and the formula are those of the plugin, zero
    and the empty string when the plugin does not set them.  Otherwise the
    charge is the charge attribute, else what [int] makes of the CHARGE
    note (none when the note is no numeral; the digits may be grouped by
    single underscores), and the formula is the FORMULA note. *)
Theorem read_species_correspond (doc : SBMLDocument) (f_replace : FReplace)
  (m : CModel) :
  value_of (_sbml_to_model doc f_replace) = Some m ->
  exists model,
    doc_model doc = Some model
    /\ Forall2 (species_read_as f_replace)
               (sm_species model) (cm_metabolites m).
Proof.
  intros H.
  apply sbml_to_model_inversion in H as [model [bids [Hm [Hs _]]]].
  exists model. split; [exact Hm|].
  apply read_species_loop_spec in Hs as [_ [ms [-> Hms]]]. exact Hms.
Qed.

Lemma read_species_correspond_witness :
  exists m,
    value_of (_sbml_to_model MoreSamples.legacy_species_document F_REPLACE)
    = Some m
    /\ map (fun x => (met_id x, met_charge x, met_formula x))
           (cm_metabolites m)
       = [("a", Some 2%Z, Some "C6H12O6"); ("b", Some 1%Z, None);
          ("c", None, None)].
Proof.
  destruct (value_of (_sbml_to_model MoreSamples.legacy_species_document
                        F_REPLACE)) as [m|] eqn:Hm;
    [|vm_compute in Hm; discriminate].
  destruct (read_species_correspond _ _ _ Hm) as [model [Hdoc Hall]].
  exists m. split; [reflexivity|].
  injection Hdoc as <-.
  inversion Hall as [|s1 m1 l1 ms1 H1 Hr1 E1 E2]; subst.
  inversion Hr1 as [|s2 m2 l2 ms2 H2 Hr2 E3 E4]; subst.
  inversion Hr2 as [|s3 m3 l3 ms3 H3 Hr3 E5 E6]; subst.
  inversion Hr3; subst.
  destruct H1 as [I1 [_ [_ [_ [C1 F1]]]]].
  destruct H2 as [I2 [_ [_ [_ [C2 F2]]]]].
  destruct H3 as [I3 [_ [_ [_ [C3 F3]]]]].
  cbn [map]. rewrite C1, F1, C2, F2, C3, F3.
  injection I1 as <-. injection I2 as <-. injection I3 as <-.
  reflexivity.
Defined.

(** A CHARGE note whose digits are grouped by an underscore is a numeral
    for [int]. *)
Example grouped_charge_note_read :
  py_int "1_000" = Some 1000%Z
  /\ py_int "1__000" = None
  /\ py_int "_1" = None
  /\ py_int "1_" = None
  /\ exists m,
       value_of (_sbml_to_model (Samples.charge_note_document "1_000")
                   F_REPLACE) = Some m
       /\ map (fun x => (met_id x, met_charge x)) (cm_metabolites m)
          = [("a", Some 1000%Z)].
Proof.
  repeat split; try reflexivity.
  eexists. split; vm_compute; reflexivity.
Qed.

Lemma check_required_value {A : Type} (b : SBase) (v : option A)
  (attribute : string) (a : A) :
  value_of (_check_required b v attribute) = Some a -> v = Some a.
Proof.
  destruct v as [x|]; [intros H; injection H as <-; reflexivity|].
  unfold _check_required.
  destruct (sb_id b); [discriminate|]. destruct (sb_name b); discriminate.
Qed.

Lemma get_by_id_first {A : Type} (key : A -> string) (l : list A)
  (i : string) (x : A) :
  get_by_id key l i = Some x ->
  exists before after,
    l = before ++ x :: after
    /\ Forall (fun q => key q <> i) before
    /\ key x = i.
Proof.
  induction l as [|a l IH]; [discriminate|].
  simpl. destruct (String.eqb_spec (key a) i) as [He|Hne].
  - intros H. injection H as <-. exists [], l.
    split; [reflexivity|]. split; [constructor | exact He].
  - intros H. apply IH in H as [before [after [-> [Hb Hx]]]].
    exists (a :: before), after. split; [reflexivity|].
    split; [constructor; assumption | exact Hx].
Qed.

Lemma dict_get_first {V : Type} (l : dict V) (k : string) (v : V) :
  dict_get l k = Some v -> first_entry l k v.
Proof.
  induction l as [|[k' v'] l IH]; [discriminate|].
  simpl. destruct (String.eqb_spec k k') as [He|Hne].
  - intros H. injection H as <-. subst k'. exists [], l.
    split; [reflexivity | constructor].
  - intros H. apply IH in H as [before [after [-> Hb]]].
    exists ((k', v') :: before), after. split; [reflexivity|].
    constructor; [|exact Hb]. simpl. congruence.
Qed.

(** A flux bound the reader resolves is the value of the first parameter
    with that id, and the parameter is a constant. *)
Lemma fbc_bound_value (model : SModel) (rid : option string) (pid : string)
  (v : Z) :
  value_of (fbc_bound model rid pid) = Some v ->
  constant_parameter model pid v.
Proof.
  unfold fbc_bound, getParameter, constant_parameter, parameter_id.
  destruct (get_by_id _ (sm_parameters model) pid) as [p|] eqn:Hp;
    [|discriminate].
  apply get_by_id_first in Hp as [before [after [Hl [Hb Hid]]]].
  destruct (p_constant p) eqn:Hc; [|discriminate].
  destruct (p_value p) as [x|] eqn:Hv; [|discriminate].
  intros H. injection H as <-.
  exists before, p, after. repeat split; assumption.
Qed.

Lemma read_bounds_document (model : SModel) (r : Reaction) (lb ub : Z) :
  value_of (read_bounds model r) = Some (lb, ub) ->
  document_bounds model r lb ub.
Proof.
  unfold read_bounds, document_bounds.
  destruct (r_fbc r) as [plugin|].
  - intros H. bind_inv H. apply check_required_value in Ha.
    bind_inv H. apply check_required_value in Ha0.
    bind_inv H. bind_inv H. injection H as <- <-.
    exists a, a0. split; [exact Ha|]. split; [exact Ha0|].
    split; eapply fbc_bound_value; eassumption.
  - destruct (r_kinetic_law r) as [klaw|]; [|discriminate].
    destruct (dict_get (kl_parameters klaw) "LOWER_BOUND") as [l|] eqn:Hl;
      [|discriminate].
    destruct (dict_get (kl_parameters klaw) "UPPER_BOUND") as [u|] eqn:Hu;
      [|discriminate].
    intros H. injection H as <- <-.
    exists klaw. split; [reflexivity|].
    split; apply dict_get_first; assumption.
Qed.

(** Every species reference the loop reads leaves its rewritten id among
    the keys of the stoichiometry. *)
Lemma read_sref_keys (f_replace : FReplace) (sign : Z)
  (l : list SpeciesReference) :
  forall st st',
    value_of (foldM (read_sref f_replace sign) l st) = Some st' ->
    forall k,
      In k (keys st)
      \/ (exists sref, In sref l
                       /\ apply_f (F_SPECIE f_replace) (sr_species sref) = k) ->
      In k (keys st').
Proof.
  induction l as [|x l IH]; intros st st' H k Hk.
  - simpl in H. injection H as <-.
    destruct Hk as [Hk|[sref [[] _]]]. exact Hk.
  - cbn [foldM] in H. bind_inv H. apply (IH _ _ H).
    unfold read_sref in Ha. bind_inv Ha. injection Ha as <-.
    destruct Hk as [Hk|[sref [[<-|Hin] Hs]]].
    + left. apply keys_dict_set. right. exact Hk.
    + left. apply keys_dict_set. left. symmetry. exact Hs.
    + right. exists sref. split; assumption.
Qed.

(** The loop over the entries of the stoichiometry returns only when every
    key is the id of a metabolite and none is a boundary id. *)
Lemma resolve_stoichiometry_needs (bids : list string)
  (mets : list Metabolite) (l : dict Z) :
  forall obj obj',
    value_of (foldM (resolve_stoichiometry bids mets) l obj) = Some obj' ->
    resolved_keys bids mets l.
Proof.
  induction l as [|[k c] l IH]; intros obj obj' H x Hx; [destruct Hx|].
  cbn [foldM] in H. bind_inv H.
  destruct Hx as [<-|Hx]; [|exact (IH _ _ H x Hx)].
  unfold resolve_stoichiometry in Ha. cbn [fst] in *.
  destruct (set_mem bids k) eqn:Hb; [discriminate|].
  destruct (get_by_id met_id mets k) as [met|] eqn:Hget; [|discriminate].
  split; [reflexivity|]. exists met. reflexivity.
Qed.

Lemma resolve_stoichiometry_keys (bids : list string) (mets : list Metabolite)
  (obj obj' : dict Z) (entry : string * Z) :
  resolved_keys bids mets obj ->
  value_of (resolve_stoichiometry bids mets obj entry) = Some obj' ->
  resolved_keys bids mets obj'.
Proof.
  unfold resolve_stoichiometry. destruct entry as [k c].
  intros Hobj.
  destruct (set_mem bids k) eqn:Hb; [discriminate|].
  destruct (get_by_id met_id mets k) as [met|] eqn:Hget; [|discriminate].
  intros H. injection H as <-.
  apply get_by_id_In in Hget as Hk. destruct Hk as [_ Hk].
  intros x Hx. apply keys_dict_set in Hx as [->|Hx]; [|apply Hobj, Hx].
  rewrite Hk. split; [exact Hb|]. exists met. exact Hget.
Qed.

Lemma read_stoichiometry_spec (f_replace : FReplace) (bids : list string)
  (mets : list Metabolite) (r : Reaction) (obj : dict Z) :
  value_of (read_stoichiometry f_replace bids mets r) = Some obj ->
  resolved_keys bids mets obj
  /\ resolved_ids bids mets (referred_ids f_replace r).
Proof.
  unfold read_stoichiometry. intros H. bind_inv H. bind_inv H. split.
  - revert H. apply (foldM_invariant (resolved_keys bids mets)).
    + intros st x st' Hst Hx. eapply resolve_stoichiometry_keys; eassumption.
    + intros k [].
  - intros k Hk. apply (resolve_stoichiometry_needs _ _ _ _ _ H).
    unfold referred_ids in Hk. apply in_map_iff in Hk as [sref [Hs Hin]].
    apply in_app_or in Hin as [Hin|Hin].
    + apply (read_sref_keys _ _ _ _ _ Ha0). left.
      apply (read_sref_keys _ _ _ _ _ Ha). right.
      exists sref. split; assumption.
    + apply (read_sref_keys _ _ _ _ _ Ha0). right.
      exists sref. split; assumption.
Qed.

Lemma read_reaction_spec (f_replace : FReplace) (model : SModel)
  (bids : list string) (mets : list Metabolite) (rs rs' : list CReaction)
  (r : Reaction) :
  value_of (read_reaction f_replace model bids mets rs r) = Some rs' ->
  exists cr,
    rs' = rs ++ [cr]
    /\ reaction_read_as f_replace model r cr
    /\ resolved_keys bids mets (_metabolites cr)
    /\ resolved_ids bids mets (referred_ids f_replace r).
Proof.
  unfold read_reaction. intros H.
  bind_inv H. apply check_required_value in Ha.
  bind_inv H. bind_inv H. bind_inv H. bind_inv H.
  injection H as <-. eexists. split; [reflexivity|].
  apply read_stoichiometry_spec in Ha2 as [Hkeys Hrefs]. split.
  - unfold reaction_read_as.
    cbn [rxn_id rxn_name rxn_notes lower_bound upper_bound].
    rewrite Ha. cbn [option_map].
    destruct a1 as [lb ub]. cbn [fst snd].
    repeat split; try reflexivity.
    apply read_bounds_document. exact Ha1.
  - cbn [_metabolites]. split; [exact Hkeys | exact Hrefs].
Qed.

Lemma read_reactions_spec (f_replace : FReplace) (model : SModel)
  (bids : list string) (mets : list Metabolite) (l : list Reaction) :
  forall rs rs',
    value_of (foldM (read_reaction f_replace model bids mets) l rs) = Some rs' ->
    exists crs,
      rs' = rs ++ crs
      /\ Forall2 (fun r cr =>
                    reaction_read_as f_replace model r cr
                    /\ resolved_keys bids mets (_metabolites cr)
                    /\ resolved_ids bids mets (referred_ids f_replace r))
              l crs.
Proof.
  induction l as [|r l IH]; intros rs rs' H.
  - simpl in H. injection H as <-. exists []. rewrite app_nil_r.
    split; [reflexivity | constructor].
  - cbn [foldM] in H. bind_inv H.
    apply read_reaction_spec in Ha as [cr [-> Hcr]].
    apply IH in H as [crs [-> Hcrs]].
    exists (cr :: crs). rewrite <- app_assoc. split; [reflexivity|].
    constructor; [exact Hcr | exact Hcrs].
Qed.

(** X8: in a model the reader returns, the reactions are those of the
    document, one per reaction and in order, each with the rewritten id, the
    name (the empty string when the element has none) and the notes of its
    element, and with the bounds the document gives it: for a reaction with
    an FBC plugin the lower bound is the value of the first parameter of the
    model whose id the plugin names as lower flux bound and the upper bound
    that of the one it names as upper flux bound, both constant parameters;
    for a reaction without the plugin they are the values of the first
    parameters LOWER_BOUND and UPPER_BOUND of its kinetic law.  The reader
    returns no model when a reaction has neither. *)
Theorem read_reactions_correspond (doc : SBMLDocument) (f_replace : FReplace)
  (m : CModel) :
  value_of (_sbml_to_model doc f_replace) = Some m ->
  exists model,
    doc_model doc = Some model
    /\ Forall2 (reaction_read_as f_replace model)
               (sm_reactions model) (cm_reactions m).
Proof.
  intros H.
  apply sbml_to_model_inversion in H as [model [bids [Hm [_ [_ [Hr _]]]]]].
  exists model. split; [exact Hm|].
  apply read_reactions_spec in Hr as [crs [-> Hcrs]]. cbn [app].
  eapply Forall2_impl; [|exact Hcrs]. intros r cr [H _]. exact H.
Qed.

Lemma read_reactions_correspond_witness :
  exists m model,
    value_of (_sbml_to_model Samples.klaw_objective_document F_REPLACE) = Some m
    /\ doc_model Samples.klaw_objective_document = Some model
    /\ Forall2 (reaction_read_as F_REPLACE model)
               (sm_reactions model) (cm_reactions m).
Proof.
  destruct (value_of (_sbml_to_model Samples.klaw_objective_document
                        F_REPLACE)) as [m|] eqn:Hm;
    [|vm_compute in Hm; discriminate].
  destruct (read_reactions_correspond _ _ _ Hm) as [model [Hdoc Hall]].
  exists m, model. split; [reflexivity|]. split; assumption.
Defined.

(** X9: the reader returns a model only when every species reference of
    every reaction resolves: the rewritten id of the species is the id of a
    metabolite of the model, found by its id, and is not the document id of
    a species whose boundary-condition flag is set.  A reference that fails
    either test makes the reader raise, so no model is returned.  In the
    model returned every metabolite a reaction refers to in its
    stoichiometry is a metabolite of the model in the same way. *)
Theorem read_stoichiometry_resolves (doc : SBMLDocument)
  (f_replace : FReplace) (m : CModel) :
  value_of (_sbml_to_model doc f_replace) = Some m ->
  exists model,
    doc_model doc = Some model
    /\ (forall r k,
          In r (sm_reactions model) -> In k (referred_ids f_replace r) ->
          (exists met, get_by_id met_id (cm_metabolites m) k = Some met)
          /\ ~ boundary_species_id model k)
    /\ (forall cr k,
          In cr (cm_reactions m) -> In k (keys (_metabolites cr)) ->
          (exists met, get_by_id met_id (cm_metabolites m) k = Some met)
          /\ ~ boundary_species_id model k).
Proof.
  intros H.
  apply sbml_to_model_inversion in H as [model [bids [Hm [Hs [_ [Hr _]]]]]].
  exists model. split; [exact Hm|].
  apply read_species_loop_spec in Hs as [Hb _].
  apply read_reactions_spec in Hr as [crs [-> Hcrs]]. cbn [app] in *.
  assert (forall k, set_mem bids k = false -> ~ boundary_species_id model k)
    as Hnot.
  { intros k Hk Hbs. unfold boundary_species_id in Hbs.
    assert (set_mem bids k = true) as Hin by (apply Hb; right; exact Hbs).
    congruence. }
  split.
  - intros r k Hin Hk.
    assert (resolved_ids bids (cm_metabolites m) (referred_ids f_replace r))
      as Hres.
    { clear -Hcrs Hin. induction Hcrs as [|r' c l cs [_ [_ Hc]] _ IH];
        [destruct Hin|].
      destruct Hin as [<-|Hin]; [exact Hc | exact (IH Hin)]. }
    destruct (Hres k Hk) as [Hnb Hmet].
    split; [exact Hmet | exact (Hnot k Hnb)].
  - intros cr k Hcr Hk.
    assert (resolved_keys bids (cm_metabolites m) (_metabolites cr)) as Hres.
    { clear -Hcrs Hcr. induction Hcrs as [|r c l cs [_ [Hc _]] _ IH];
        [destruct Hcr|].
      destruct Hcr as [<-|Hcr]; [exact Hc | exact (IH Hcr)]. }
    destruct (Hres k Hk) as [Hnb Hmet].
    split; [exact Hmet | exact (Hnot k Hnb)].
Qed.

Lemma read_stoichiometry_resolves_witness :
  exists m,
    value_of (_sbml_to_model Samples.boundary_document F_REPLACE) = Some m
    /\ forall cr k,
         In cr (cm_reactions m) -> In k (keys (_metabolites cr)) ->
         exists met, get_by_id met_id (cm_metabolites m) k = Some met.
Proof.
  destruct (value_of (_sbml_to_model Samples.boundary_document F_REPLACE))
    as [m|] eqn:Hm; [|vm_compute in Hm; discriminate].
  destruct (read_stoichiometry_resolves _ _ _ Hm) as [model [_ [_ Hall]]].
  exists m. split; [reflexivity|].
  intros cr k Hcr Hk. apply (Hall cr k Hcr Hk).
Defined.

(** ** The objective *)

Lemma read_flux_objective_keys (f_replace : FReplace)
  (reactions : list CReaction) (coefficients coefficients' : dict Z)
  (flux_obj : FluxObjective) :
  resolved_coefficients reactions coefficients ->
  value_of (read_flux_objective f_replace reactions coefficients flux_obj)
  = Some coefficients' ->
  resolved_coefficients reactions coefficients'.
Proof.
  unfold read_flux_objective. intros Hc.
  destruct (get_by_id rxn_id reactions
              (apply_f (F_REACTION f_replace) (fo_reaction flux_obj)))
    as [cr|] eqn:Hget; [|discriminate].
  intros H. injection H as <-.
  apply get_by_id_In in Hget as Hk. destruct Hk as [_ Hk].
  intros x Hx. apply keys_dict_set in Hx as [->|Hx]; [|apply Hc, Hx].
  rewrite Hk. exists cr. exact Hget.
Qed.

Lemma read_klaw_objective_keys (f_replace : FReplace) (r : Reaction)
  (reactions : list CReaction) (coefficients coefficients' : dict Z)
  (reaction : Reaction) :
  resolved_coefficients reactions coefficients ->
  value_of (read_klaw_objective f_replace r reactions coefficients reaction)
  = Some coefficients' ->
  resolved_coefficients reactions coefficients'.
Proof.
  unfold read_klaw_objective. intros Hc.
  destruct (r_kinetic_law reaction);
    [|intros H; injection H as <-; exact Hc].
  destruct (r_kinetic_law r) as [klaw|]; [|discriminate].
  destruct (dict_get (kl_parameters klaw) "OBJECTIVE_COEFFICIENT") as [p_oc|];
    [|intros H; injection H as <-; exact Hc].
  destruct (get_by_id rxn_id reactions
              (apply_f (F_REACTION f_replace) (getId_str (r_base reaction))))
    as [cr|] eqn:Hget; [|discriminate].
  intros H. injection H as <-.
  apply get_by_id_In in Hget as Hk. destruct Hk as [_ Hk].
  intros x Hx. apply keys_dict_set in Hx as [->|Hx]; [|apply Hc, Hx].
  rewrite Hk. exists cr. exact Hget.
Qed.

Lemma long_short_direction (t d : string) :
  dict_get LONG_SHORT_DIRECTION t = Some d -> d = "max" \/ d = "min".
Proof.
  unfold LONG_SHORT_DIRECTION. cbn [dict_get].
  destruct (String.eqb t "maximize");
    [intros H; injection H as <-; left; reflexivity|].
  destruct (String.eqb t "minimize");
    [intros H; injection H as <-; right; reflexivity | discriminate].
Qed.

Lemma read_objective_spec (f_replace : FReplace) (model : SModel)
  (reactions : list CReaction) (d : string) (c : dict Z) :
  value_of (read_objective f_replace model reactions) = Some (d, c) ->
  (d = "max" \/ d = "min") /\ resolved_coefficients reactions c.
Proof.
  unfold read_objective.
  destruct (sm_fbc model) as [model_fbc|].
  - unfold read_fbc_objective.
    destruct (fm_objectives model_fbc) as [[|o os]|];
      try (intros H; injection H as <- <-;
           split; [left; reflexivity | intros k []]).
    destruct (Nat.eqb (String.length (fm_active_objective model_fbc)) 0);
      [intros H; injection H as <- <-;
       split; [left; reflexivity | intros k []]|].
    destruct (get_by_id o_id (o :: os) (fm_active_objective model_fbc))
      as [obj|]; [|discriminate].
    destruct (dict_get LONG_SHORT_DIRECTION (o_type obj)) as [dir|] eqn:Hdir;
      [|discriminate].
    intros H. bind_inv H. injection H as <- <-.
    split; [eapply long_short_direction, Hdir|].
    revert Ha. apply (foldM_invariant (resolved_coefficients reactions)).
    + intros st x st' Hst Hx. eapply read_flux_objective_keys; eassumption.
    + intros k [].
  - destruct (rev (sm_reactions model)) as [|r rest];
      [intros H; injection H as <- <-;
       split; [left; reflexivity | intros k []]|].
    intros H. bind_inv H. injection H as <- <-.
    split; [left; reflexivity|].
    revert Ha. apply (foldM_invariant (resolved_coefficients reactions)).
    + intros st x st' Hst Hx. eapply read_klaw_objective_keys; eassumption.
    + intros k [].
Qed.

(** X10: in a model the reader returns, the direction of the objective is
    max or min, and every reaction that has an objective coefficient is a
    reaction of the model, found by its id. *)
Theorem read_objective_resolves (doc : SBMLDocument) (f_replace : FReplace)
  (m : CModel) :
  value_of (_sbml_to_model doc f_replace) = Some m ->
  (cm_objective_direction m = "max" \/ cm_objective_direction m = "min")
  /\ forall k, In k (keys (cm_objective_coefficients m)) ->
               exists cr, get_by_id rxn_id (cm_reactions m) k = Some cr.
Proof.
  intros H.
  apply sbml_to_model_inversion in H
    as [model [bids [_ [_ [_ [_ [Ho _]]]]]]].
  apply read_objective_spec in Ho. exact Ho.
Qed.

Lemma read_objective_resolves_witness :
  exists m,
    value_of (_sbml_to_model Samples.klaw_objective_document F_REPLACE) = Some m
    /\ (cm_objective_direction m = "max" \/ cm_objective_direction m = "min")
    /\ forall k, In k (keys (cm_objective_coefficients m)) ->
                 exists cr, get_by_id rxn_id (cm_reactions m) k = Some cr.
Proof.
  destruct (value_of (_sbml_to_model Samples.klaw_objective_document
                        F_REPLACE)) as [m|] eqn:Hm;
    [|vm_compute in Hm; discriminate].
  exists m. split; [reflexivity|].
  apply (read_objective_resolves _ _ _ Hm).
Defined.

(** ** Groups *)

Lemma read_member_members (f_replace : FReplace) (model : SModel)
  (cols : Collections) (gid : option string)
  (st st' : option (option element) * list member) (mem : Member) :
  Forall (member_of cols) (snd st) ->
  value_of (read_member f_replace model cols gid st mem) = Some st' ->
  Forall (member_of cols) (snd st').
Proof.
  unfold read_member. destruct st as [obj members]. cbn [snd]. intros Hst.
  destruct (match m_id_ref mem, m_meta_id_ref mem with
            | Some i, _ => Some (find_element sb_id model i)
            | None, Some i => Some (find_element sb_meta_id model i)
            | None, None => obj
            end) as [[[i|i|i|]|]|]; try discriminate.
  - destruct (get_by_id met_id (col_metabolites cols)
                (apply_f (F_SPECIE f_replace) i)) as [x|] eqn:Hget;
      [|discriminate].
    intros H. injection H as <-. cbn [snd].
    apply Forall_app. split; [exact Hst|].
    constructor; [|constructor]. apply get_by_id_In in Hget as [Hin _].
    exact Hin.
  - destruct (get_by_id rxn_id (col_reactions cols)
                (apply_f (F_REACTION f_replace) i)) as [x|] eqn:Hget;
      [|discriminate].
    intros H. injection H as <-. cbn [snd].
    apply Forall_app. split; [exact Hst|].
    constructor; [|constructor]. apply get_by_id_In in Hget as [Hin _].
    exact Hin.
  - destruct (get_by_id gene_id (col_genes cols)
                (apply_f (F_GENE f_replace) i)) as [x|] eqn:Hget;
      [|discriminate].
    intros H. injection H as <-. cbn [snd].
    apply Forall_app. split; [exact Hst|].
    constructor; [|constructor]. apply get_by_id_In in Hget as [Hin _].
    exact Hin.
  - intros H. injection H as <-. exact Hst.
Qed.

Lemma read_group_members (f_replace : FReplace) (model : SModel)
  (cols : Collections) (st st' : option (option element) * list CGroup)
  (g : Group) :
  Forall (fun cg => Forall (member_of cols) (grp_members cg)) (snd st) ->
  value_of (read_group f_replace model cols st g) = Some st' ->
  Forall (fun cg => Forall (member_of cols) (grp_members cg)) (snd st').
Proof.
  unfold read_group. destruct st as [obj groups]. cbn [snd]. intros Hst H.
  bind_inv H. bind_inv H. injection H as <-. cbn [snd].
  apply Forall_app. split; [exact Hst|].
  constructor; [|constructor]. cbn [grp_members].
  revert Ha0.
  apply (foldM_invariant (fun s => Forall (member_of cols) (snd s))).
  - intros s x s' Hs Hx. eapply read_member_members; eassumption.
  - constructor.
Qed.

Lemma In_dict_set {V : Type} (d : dict V) (k : string) (v : V)
  (kv : string * V) :
  In kv (dict_set d k v) -> kv = (k, v) \/ In kv d.
Proof.
  induction d as [|[k' v'] d IH]; simpl.
  - intros [<-|[]]. left. reflexivity.
  - destruct (String.eqb_spec k k') as [->|Hne]; simpl.
    + intros [<-|H]; [left; reflexivity | right; right; exact H].
    + intros [<-|H]; [right; left; reflexivity|].
      destruct (IH H) as [->|Hin]; [left; reflexivity | right; right; exact Hin].
Qed.

Lemma dict_get_In {V : Type} (d : dict V) (k : string) (v : V) :
  dict_get d k = Some v -> In (k, v) d.
Proof.
  induction d as [|[k' v'] d IH]; [discriminate|].
  simpl. destruct (String.eqb_spec k k') as [->|Hne].
  - intros H. injection H as <-. left. reflexivity.
  - intros H. right. apply IH, H.
Qed.

Lemma dict_get_set {V : Type} (d : dict V) (k k' : string) (v : V) :
  dict_get (dict_set d k v) k'
  = if String.eqb k' k then Some v else dict_get d k'.
Proof.
  induction d as [|[k0 v0] d IH]; simpl.
  - reflexivity.
  - destruct (String.eqb_spec k k0) as [->|Hne]; simpl.
    + destruct (String.eqb_spec k' k0); reflexivity.
    + destruct (String.eqb_spec k' k0) as [->|Hne'].
      * destruct (String.eqb_spec k0 k); [congruence | reflexivity].
      * exact IH.
Qed.

(** The groups made of the SUBSYSTEM notes: each holds reactions of the
    list, all with the note of the group; each reaction with a note is in the
    group of its note; no two groups have the same id. *)
Lemma subsystem_groups_spec (reactions : list CReaction) :
  NoDup (keys (subsystem_groups reactions))
  /\ (forall g l x, In (g, l) (subsystem_groups reactions) -> In x l ->
                    In x reactions
                    /\ dict_get (rxn_notes x) "SUBSYSTEM" = Some g)
  /\ (forall x g, In x reactions ->
                  dict_get (rxn_notes x) "SUBSYSTEM" = Some g ->
                  exists l, dict_get (subsystem_groups reactions) g = Some l
                            /\ In x l).
Proof.
  unfold subsystem_groups.
  set (step := fun (groups_dict : dict (list CReaction)) reaction =>
                 match dict_get (rxn_notes reaction) "SUBSYSTEM" with
                 | Some g_name =>
                     match dict_get groups_dict g_name with
                     | Some l => dict_set groups_dict g_name (l ++ [reaction])
                     | None => dict_set groups_dict g_name [reaction]
                     end
                 | None => groups_dict
                 end).
  assert (forall l d0 (seen : list CReaction),
            NoDup (keys d0) ->
            (forall g l x, In (g, l) d0 -> In x l ->
                           In x seen
                           /\ dict_get (rxn_notes x) "SUBSYSTEM" = Some g) ->
            (forall x g, In x seen ->
                         dict_get (rxn_notes x) "SUBSYSTEM" = Some g ->
                         exists l, dict_get d0 g = Some l /\ In x l) ->
            NoDup (keys (fold_left step l d0))
            /\ (forall g l' x, In (g, l') (fold_left step l d0) -> In x l' ->
                               In x (seen ++ l)
                               /\ dict_get (rxn_notes x) "SUBSYSTEM" = Some g)
            /\ (forall x g, In x (seen ++ l) ->
                            dict_get (rxn_notes x) "SUBSYSTEM" = Some g ->
                            exists l', dict_get (fold_left step l d0) g = Some l'
                                       /\ In x l')) as Hgen.
  { induction l as [|r l IH]; intros d0 seen Hnd Hsound Hcomplete.
    - simpl. rewrite app_nil_r. auto.
    - cbn [fold_left].
      replace (seen ++ r :: l) with ((seen ++ [r]) ++ l)
        by (rewrite <- app_assoc; reflexivity).
      apply IH.
      + unfold step. destruct (dict_get (rxn_notes r) "SUBSYSTEM");
          [|exact Hnd].
        destruct (dict_get d0 s); apply NoDup_dict_set, Hnd.
      + intros g l' x Hin Hx. unfold step in Hin.
        destruct (dict_get (rxn_notes r) "SUBSYSTEM") as [gr|] eqn:Hr.
        * destruct (dict_get d0 gr) as [old|] eqn:Hold;
            apply In_dict_set in Hin as [Heq|Hin].
          -- injection Heq as -> ->.
             apply in_app_or in Hx as [Hx|[<-|[]]].
             ++ apply dict_get_In in Hold.
                destruct (Hsound _ _ _ Hold Hx) as [H1 H2].
                split; [apply in_or_app; left; exact H1 | exact H2].
             ++ split; [apply in_or_app; right; left; reflexivity | exact Hr].
          -- destruct (Hsound _ _ _ Hin Hx) as [H1 H2].
             split; [apply in_or_app; left; exact H1 | exact H2].
          -- injection Heq as -> ->. destruct Hx as [<-|[]].
             split; [apply in_or_app; right; left; reflexivity | exact Hr].
          -- destruct (Hsound _ _ _ Hin Hx) as [H1 H2].
             split; [apply in_or_app; left; exact H1 | exact H2].
        * destruct (Hsound _ _ _ Hin Hx) as [H1 H2].
          split; [apply in_or_app; left; exact H1 | exact H2].
      + intros x g Hx Hg. unfold step.
        apply in_app_or in Hx as [Hx|[<-|[]]].
        * destruct (Hcomplete _ _ Hx Hg) as [l' [Hl' Hin]].
          destruct (dict_get (rxn_notes r) "SUBSYSTEM") as [gr|] eqn:Hr;
            [|exists l'; split; assumption].
          destruct (dict_get d0 gr) as [old|] eqn:Hold;
            rewrite dict_get_set; destruct (String.eqb_spec g gr) as [->|Hne].
          -- rewrite Hl' in Hold. injection Hold as <-.
             eexists. split; [reflexivity|]. apply in_or_app. left. exact Hin.
          -- exists l'. split; assumption.
          -- congruence.
          -- exists l'. split; assumption.
        * rewrite Hg.
          destruct (dict_get d0 g) as [old|] eqn:Hold;
            rewrite dict_get_set, String.eqb_refl;
            eexists; (split; [reflexivity|]).
          -- apply in_or_app. right. left. reflexivity.
          -- left. reflexivity. }
  destruct (Hgen reactions [] []) as [H1 [H2 H3]].
  - constructor.
  - intros g l x [].
  - intros x g [].
  - split; [exact H1|]. split; [exact H2 | exact H3].
Qed.

Lemma read_groups_members (f_replace : FReplace) (model : SModel)
  (cols : Collections) (obj0 : option (option element)) (groups : list CGroup) :
  value_of (read_groups f_replace model cols obj0) = Some groups ->
  Forall (fun cg => Forall (member_of cols) (grp_members cg)) groups.
Proof.
  unfold read_groups. destruct (sm_groups model) as [model_groups|].
  - intros H. bind_inv H. injection H as <-. revert Ha.
    apply (foldM_invariant
             (fun s => Forall (fun cg => Forall (member_of cols)
                                                (grp_members cg)) (snd s))).
    + intros s x s' Hs Hx. eapply read_group_members; eassumption.
    + constructor.
  - intros H. injection H as <-.
    destruct (subsystem_groups_spec (col_reactions cols)) as [_ [Hsound _]].
    apply Forall_forall. intros cg Hcg.
    apply in_map_iff in Hcg as [[g l] [<- Hin]]. cbn [grp_members snd].
    apply Forall_forall. intros x Hx.
    apply in_map_iff in Hx as [y [<- Hy]]. cbn [member_of].
    apply (Hsound g l y Hin Hy).
Qed.

(** X11: in a model the reader returns, every member of every group is a
    metabolite, a reaction or a gene of the model itself, whether the groups
    come from the groups plugin or from the SUBSYSTEM notes. *)
Theorem read_group_members_resolve (doc : SBMLDocument) (f_replace : FReplace)
  (m : CModel) :
  value_of (_sbml_to_model doc f_replace) = Some m ->
  Forall (fun cg => Forall (member_of (collections m)) (grp_members cg))
         (cm_groups m).
Proof.
  intros H.
  apply sbml_to_model_inversion in H
    as [model [bids [_ [_ [_ [_ [_ [Hg _]]]]]]]].
  apply read_groups_members in Hg. exact Hg.
Qed.

Lemma read_group_members_resolve_witness :
  exists m,
    value_of (_sbml_to_model MoreSamples.subsystem_document F_REPLACE) = Some m
    /\ Forall (fun cg => Forall (member_of (collections m)) (grp_members cg))
              (cm_groups m).
Proof.
  destruct (value_of (_sbml_to_model MoreSamples.subsystem_document F_REPLACE))
    as [m|] eqn:Hm; [|vm_compute in Hm; discriminate].
  exists m. split; [reflexivity|].
  apply (read_group_members_resolve _ _ _ Hm).
Defined.

(** X12: when the document has no groups plugin, the groups of the model
    the reader returns are those of the SUBSYSTEM notes of its reactions: no
    two groups have the same id; a group has its id as name, the kind
    collection, and as members only reactions of the model whose SUBSYSTEM
    note is the id of the group; and every reaction of the model with a
    SUBSYSTEM note is a member of the group of that note. *)
Theorem subsystem_groups_of_model (doc : SBMLDocument) (f_replace : FReplace)
  (m : CModel) (model : SModel) :
  doc_model doc = Some model -> sm_groups model = None ->
  value_of (_sbml_to_model doc f_replace) = Some m ->
  NoDup (map grp_id (cm_groups m))
  /\ (forall cg, In cg (cm_groups m) ->
        grp_name cg = Some (grp_id cg)
        /\ grp_kind cg = Some "collection"
        /\ forall x, In x (grp_members cg) ->
             exists r, x = MemReaction r /\ In r (cm_reactions m)
                       /\ dict_get (rxn_notes r) "SUBSYSTEM"
                          = Some (grp_id cg))
  /\ (forall r g, In r (cm_reactions m) ->
        dict_get (rxn_notes r) "SUBSYSTEM" = Some g ->
        exists cg, In cg (cm_groups m) /\ grp_id cg = g
                   /\ In (MemReaction r) (grp_members cg)).
Proof.
  intros Hdoc Hnone H.
  apply sbml_to_model_inversion in H
    as [model' [bids [Hm [_ [_ [_ [_ [Hg _]]]]]]]].
  rewrite Hdoc in Hm. injection Hm as <-.
  unfold read_groups in Hg. rewrite Hnone in Hg. injection Hg as Hg.
  cbn [col_reactions] in Hg.
  destruct (subsystem_groups_spec (cm_reactions m))
    as [Hnd [Hsound Hcomplete]].
  rewrite <- Hg. split; [|split].
  - rewrite map_map. cbn [grp_id]. exact Hnd.
  - intros cg Hcg. apply in_map_iff in Hcg as [[g l] [<- Hin]].
    cbn [grp_name grp_id grp_kind grp_members fst snd].
    split; [reflexivity|]. split; [reflexivity|].
    intros x Hx. apply in_map_iff in Hx as [y [<- Hy]].
    exists y. split; [reflexivity|]. apply (Hsound g l y Hin Hy).
  - intros r g Hr Hnote.
    destruct (Hcomplete r g Hr Hnote) as [l [Hl Hin]].
    eexists. split.
    + apply in_map_iff. exists (g, l). split; [reflexivity|].
      apply dict_get_In, Hl.
    + cbn [grp_id grp_members fst snd]. split; [reflexivity|].
      apply in_map, Hin.
Qed.

Lemma subsystem_groups_of_model_witness :
  exists m,
    value_of (_sbml_to_model MoreSamples.subsystem_document F_REPLACE) = Some m
    /\ map (fun cg => (grp_id cg, map member_id (grp_members cg)))
           (cm_groups m)
       = [("Glycolysis", ["r1"; "r3"]); ("Transport", ["r2"])]
    /\ NoDup (map grp_id (cm_groups m)).
Proof.
  destruct (value_of (_sbml_to_model MoreSamples.subsystem_document F_REPLACE))
    as [m|] eqn:Hm; [|vm_compute in Hm; discriminate].
  destruct (subsystem_groups_of_model MoreSamples.subsystem_document F_REPLACE
              m (MoreSamples.model_of MoreSamples.subsystem_document))
    as [Hnd _]; [reflexivity | reflexivity | exact Hm |].
  exists m. split; [reflexivity|]. split; [|exact Hnd].
  vm_compute in Hm. injection Hm as <-. reflexivity.
Defined.

(** ** Genes *)

Lemma read_gene_product_spec (f_replace : FReplace) (genes genes' : list Gene)
  (gp : GeneProduct) :
  value_of (read_gene_product f_replace genes gp) = Some genes' ->
  exists gene, genes' = genes ++ [gene] /\ gene_read_as f_replace gp gene.
Proof.
  unfold read_gene_product. intros H. bind_inv H. injection H as <-.
  eexists. split; [reflexivity|]. unfold gene_read_as.
  cbn [gene_id gene_name gene_notes]. unfold getName.
  destruct (sb_name (gp_base gp)); repeat split; reflexivity.
Qed.

Lemma read_gene_products_spec (f_replace : FReplace) (l : list GeneProduct) :
  forall genes genes',
    value_of (foldM (read_gene_product f_replace) l genes) = Some genes' ->
    exists gs, genes' = genes ++ gs /\ Forall2 (gene_read_as f_replace) l gs.
Proof.
  induction l as [|gp l IH]; intros genes genes' H.
  - simpl in H. injection H as <-. exists []. rewrite app_nil_r.
    split; [reflexivity | constructor].
  - cbn [foldM] in H. bind_inv H.
    apply read_gene_product_spec in Ha as [g [-> Hg]].
    apply IH in H as [gs [-> Hgs]].
    exists (g :: gs). rewrite <- app_assoc. split; [reflexivity|].
    constructor; assumption.
Qed.

(** X13: when the document has an FBC plugin, the genes of the model the
    reader returns are those of its gene products, one per gene product and
    in order, each with the rewritten id and the notes of its gene product;
    the name of a gene is the name of the gene product, and the empty
    string when the gene product has no name: the name the library returns
    is never [None], so the id is never taken in its place. *)
Theorem read_gene_products_correspond (doc : SBMLDocument)
  (f_replace : FReplace) (m : CModel) (model : SModel)
  (model_fbc : FbcModelPlugin) :
  doc_model doc = Some model -> sm_fbc model = Some model_fbc ->
  value_of (_sbml_to_model doc f_replace) = Some m ->
  Forall2 (gene_read_as f_replace) (fm_gene_products model_fbc) (cm_genes m).
Proof.
  intros Hdoc Hfbc H.
  apply sbml_to_model_inversion in H as [model' [bids [Hm [_ [Hg _]]]]].
  rewrite Hdoc in Hm. injection Hm as <-. rewrite Hfbc in Hg.
  apply read_gene_products_spec in Hg as [gs [-> Hgs]]. exact Hgs.
Qed.

(** The genes after the tokens [ts] have been looked at. *)
Lemma genes_from_tokens (f_replace : FReplace) (ts : list string) :
  forall genes,
    let genes' :=
      fold_left
        (fun genes gid =>
           let gid := apply_f (F_GENE f_replace) gid in
           match get_by_id gene_id genes gid with
           | Some _ => genes
           | None => genes ++ [ {| gene_id := gid; gene_name := Some gid;
                                   gene_annotation := []; gene_notes := [] |} ]
           end) ts genes in
    (NoDup (map gene_id genes) -> NoDup (map gene_id genes'))
    /\ (Forall (fun g => gene_name g = Some (gene_id g)) genes ->
        Forall (fun g => gene_name g = Some (gene_id g)) genes')
    /\ (forall i, In i (map gene_id genes') <->
                  In i (map gene_id genes)
                  \/ exists t, In t ts /\ i = apply_f (F_GENE f_replace) t).
Proof.
  induction ts as [|t ts IH]; intros genes; cbn zeta.
  - simpl. split; [auto|]. split; [auto|].
    intros i. split; [auto|]. intros [H|[t [[] _]]]. exact H.
  - cbn [fold_left].
    destruct (get_by_id gene_id genes (apply_f (F_GENE f_replace) t))
      as [g|] eqn:Hget.
    + destruct (IH genes) as [H1 [H2 H3]]. split; [exact H1|].
      split; [exact H2|]. intros i. rewrite H3. split.
      * intros [H|[t' [Ht' Hi]]]; [left; exact H|].
        right. exists t'. split; [right; exact Ht' | exact Hi].
      * intros [H|[t' [[<-|Ht'] Hi]]]; [left; exact H | |].
        -- left. apply get_by_id_In in Hget as [Hin Hk].
           rewrite Hi, <- Hk. apply in_map, Hin.
        -- right. exists t'. split; assumption.
    + destruct (IH (genes ++ [ {| gene_id := apply_f (F_GENE f_replace) t;
                                  gene_name := Some (apply_f (F_GENE f_replace) t);
                                  gene_annotation := []; gene_notes := [] |} ]))
        as [H1 [H2 H3]].
      split; [|split].
      * intros Hnd. apply H1. rewrite map_app. cbn [map gene_id].
        apply NoDup_app; [exact Hnd | repeat constructor; intros [] |].
        intros i Hi [<-|[]]. eapply get_by_id_None; eassumption.
      * intros Hall. apply H2. apply Forall_app. split; [exact Hall|].
        constructor; [reflexivity | constructor].
      * intros i. rewrite H3, map_app, in_app_iff. cbn [map gene_id In].
        split.
        -- intros [[H|[<-|[]]]|[t' [Ht' Hi]]].
           ++ left. exact H.
           ++ right. exists t. split; [left; reflexivity | reflexivity].
           ++ right. exists t'. split; [right; exact Ht' | exact Hi].
        -- intros [H|[t' [[<-|Ht'] Hi]]].
           ++ left. left. exact H.
           ++ left. right. left. symmetry. exact Hi.
           ++ right. exists t'. split; assumption.
Qed.

Lemma genes_from_notes_spec (f_replace : FReplace) (l : list Reaction) :
  forall genes,
    let genes' := fold_left (read_genes_from_notes f_replace) l genes in
    (NoDup (map gene_id genes) -> NoDup (map gene_id genes'))
    /\ (Forall (fun g => gene_name g = Some (gene_id g)) genes ->
        Forall (fun g => gene_name g = Some (gene_id g)) genes')
    /\ (forall i, In i (map gene_id genes') <->
                  In i (map gene_id genes)
                  \/ exists r t, In r l /\ In t (notes_gene_tokens r)
                                 /\ i = apply_f (F_GENE f_replace) t).
Proof.
  induction l as [|r l IH]; intros genes; cbn zeta.
  - simpl. split; [auto|]. split; [auto|].
    intros i. split; [auto|]. intros [H|[r [t [[] _]]]]. exact H.
  - cbn [fold_left].
    destruct (IH (read_genes_from_notes f_replace genes r)) as [H1 [H2 H3]].
    assert (let g1 := read_genes_from_notes f_replace genes r in
            (NoDup (map gene_id genes) -> NoDup (map gene_id g1))
            /\ (Forall (fun g => gene_name g = Some (gene_id g)) genes ->
                Forall (fun g => gene_name g = Some (gene_id g)) g1)
            /\ (forall i, In i (map gene_id g1) <->
                          In i (map gene_id genes)
                          \/ exists t, In t (notes_gene_tokens r)
                                       /\ i = apply_f (F_GENE f_replace) t))
      as [S1 [S2 S3]].
    { unfold read_genes_from_notes, notes_gene_tokens. cbn zeta.
      destruct (Nat.ltb 0 (String.length
                  (notes_gpr (_parse_notes_dict (sb_notes (r_base r)))))).
      - apply genes_from_tokens.
      - split; [auto|]. split; [auto|]. intros i. split; [auto|].
        intros [H|[t [[] _]]]. exact H. }
    split; [auto|]. split; [auto|].
    intros i. rewrite H3, S3. split.
    + intros [[H|[t [Ht Hi]]]|[r' [t [Hr' [Ht Hi]]]]].
      * left. exact H.
      * right. exists r, t. split; [left; reflexivity|]. split; assumption.
      * right. exists r', t. split; [right; exact Hr'|]. split; assumption.
    + intros [H|[r' [t [[<-|Hr'] [Ht Hi]]]]].
      * left. left. exact H.
      * left. right. exists t. split; assumption.
      * right. exists r', t. split; [exact Hr'|]. split; assumption.
Qed.

(** X14: when the document has no FBC plugin, the genes of the model the
    reader returns have distinct ids, each has its id as name, and the ids
    are exactly the rewritten tokens of the gene-association notes of the
    reactions. *)
Theorem legacy_genes_from_notes (doc : SBMLDocument) (f_replace : FReplace)
  (m : CModel) (model : SModel) :
  doc_model doc = Some model -> sm_fbc model = None ->
  value_of (_sbml_to_model doc f_replace) = Some m ->
  NoDup (map gene_id (cm_genes m))
  /\ Forall (fun g => gene_name g = Some (gene_id g)) (cm_genes m)
  /\ forall i, In i (map gene_id (cm_genes m)) <->
               exists r t, In r (sm_reactions model)
                           /\ In t (notes_gene_tokens r)
                           /\ i = apply_f (F_GENE f_replace) t.
Proof.
  intros Hdoc Hfbc H.
  apply sbml_to_model_inversion in H as [model' [bids [Hm [_ [Hg _]]]]].
  rewrite Hdoc in Hm. injection Hm as <-. rewrite Hfbc in Hg.
  injection Hg as Hg. rewrite <- Hg.
  destruct (genes_from_notes_spec f_replace (sm_reactions model) [])
    as [H1 [H2 H3]].
  split; [apply H1; constructor|]. split; [apply H2; constructor|].
  intros i. rewrite H3. cbn [map In]. tauto.
Qed.

Lemma legacy_genes_from_notes_witness :
  exists m,
    value_of (_sbml_to_model Samples.bare_gpr_note_document F_REPLACE) = Some m
    /\ NoDup (map gene_id (cm_genes m))
    /\ Forall (fun g => gene_name g = Some (gene_id g)) (cm_genes m).
Proof.
  destruct (value_of (_sbml_to_model Samples.bare_gpr_note_document F_REPLACE))
    as [m|] eqn:Hm; [|vm_compute in Hm; discriminate].
  destruct (legacy_genes_from_notes Samples.bare_gpr_note_document F_REPLACE m
              (MoreSamples.model_of Samples.bare_gpr_note_document))
    as [H1 [H2 _]]; [reflexivity | reflexivity | exact Hm |].
  exists m. split; [reflexivity|]. split; assumption.
Defined.

Lemma read_gene_products_correspond_witness :
  exists m,
    value_of (_sbml_to_model MoreSamples.gene_product_document F_REPLACE)
    = Some m
    /\ map (fun g => (gene_id g, gene_name g)) (cm_genes m)
       = [("b0001", Some "thrL"); ("b0002", Some "")].
Proof.
  destruct (value_of (_sbml_to_model MoreSamples.gene_product_document
                        F_REPLACE)) as [m|] eqn:Hm;
    [|vm_compute in Hm; discriminate].
  pose proof (read_gene_products_correspond
                MoreSamples.gene_product_document F_REPLACE m _ _
                eq_refl eq_refl Hm) as Hall.
  exists m. split; [reflexivity|].
  inversion Hall as [|g1 c1 l1 cs1 H1 Hr1 E1 E2]; subst.
  inversion Hr1 as [|g2 c2 l2 cs2 H2 Hr2 E3 E4]; subst.
  inversion Hr2; subst.
  destruct H1 as [I1 [N1 _]]. destruct H2 as [I2 [N2 _]].
  cbn [map]. rewrite I1, N1, I2, N2. reflexivity.
Defined.

(** ** Species and genes, written and read back *)





(** A metabolite without charge and formula comes back with the charge zero
    and the empty formula. *)
Example unset_charge_read_back_as_zero :
  exists s met',
    value_of (write_species F_REPLACE
                {| met_id := "x_c"; met_name := "X"; met_notes := [];
                   met_annotation := []; met_compartment := "c";
                   met_charge := None; met_formula := None |}) = Some s
    /\ value_of (read_species F_REPLACE ([], []) s)
       = Some (["M_x_c"], [met'])
    /\ met_charge met' = Some 0%Z
    /\ met_formula met' = Some "".
Proof.
  eexists. eexists. split; [vm_compute; reflexivity|].
  split; [vm_compute; reflexivity|]. split; reflexivity.
Qed.

(** ** The objective, written and read back *)






(** ** Gene associations *)

Lemma all_some_defined {A : Type} (l : list (option A)) :
  (exists xs, all_some l = Some xs) <-> Forall (fun o => o <> None) l.
Proof.
  induction l as [|[x|] l IH]; simpl.
  - split; [constructor | exists []; reflexivity].
  - split.
    + intros [xs H]. constructor; [discriminate|]. apply IH.
      destruct (all_some l) as [ys|]; [exists ys; reflexivity | discriminate].
    + intros H. inversion H as [|? ? _ Hl]; subst.
      apply IH in Hl as [ys ->]. eexists. reflexivity.
  - split; [intros [xs H]; discriminate|].
    intros H. inversion H as [|? ? Hn _]; subst. congruence.
Qed.

(** Rendering is defined exactly on the trees of known nodes. *)
Lemma process_association_defined (f_replace : FReplace) :
  forall ass,
    (exists s, process_association f_replace ass = Some s) <-> known ass = true.
Proof.
  fix IH 1. intros ass.
  assert (forall cs : list FbcAssociation,
            (exists xs, all_some (map (process_association f_replace) cs)
                        = Some xs)
            <-> forallb known cs = true) as Hcs.
  { induction cs as [|c cs IHcs].
    - simpl. split; [reflexivity | exists []; reflexivity].
    - cbn [map all_some forallb]. rewrite andb_true_iff, <- IHcs, <- (IH c).
      destruct (process_association f_replace c) as [s|].
      + destruct (all_some (map (process_association f_replace) cs)) as [xs|].
        * split; [intros _; split; eexists; reflexivity|].
          intros _. eexists. reflexivity.
        * split; [intros [xs H]; discriminate|].
          intros [_ [xs H]]. discriminate.
      + split; [intros [xs H]; discriminate|].
        intros [[s H] _]. discriminate. }
  destruct ass as [cs|cs|gid|]; cbn [process_association known].
  - rewrite <- Hcs.
    destruct (all_some (map (process_association f_replace) cs)) as [xs|];
      cbn [option_map].
    + split; intros _; eexists; reflexivity.
    + split; intros [x H]; discriminate.
  - rewrite <- Hcs.
    destruct (all_some (map (process_association f_replace) cs)) as [xs|];
      cbn [option_map].
    + split; intros _; eexists; reflexivity.
    + split; intros [x H]; discriminate.
  - split; [reflexivity | intros _; eexists; reflexivity].
  - split; [intros [s H]; discriminate | discriminate].
Qed.

Lemma rstrip_app_space (x : string) :
  PyStr.rstrip (x ++ " ") = PyStr.rstrip x.
Proof.
  induction x as [|c x IH]; [reflexivity|].
  cbn [append PyStr.rstrip]. rewrite IH. reflexivity.
Qed.

Lemma strip_padded (b : string) :
  PyStr.strip (String " " (b ++ " ")) = PyStr.strip b.
Proof.
  unfold PyStr.strip.
  change (PyStr.lstrip (String " " (b ++ " "))) with (PyStr.lstrip (b ++ " ")).
  induction b as [|c b IH]; [reflexivity|].
  cbn [append PyStr.lstrip].
  destruct (PyStr.is_space c); [exact IH|].
  change (String c (b ++ " ")) with (String c b ++ " ")%string.
  apply rstrip_app_space.
Qed.

Lemma last_char_app (x : string) (c : ascii) :
  PyStr.last_char (x ++ String c "") = Some c.
Proof.
  induction x as [|a x IH]; [reflexivity|].
  cbn [append PyStr.last_char]. rewrite IH.
  destruct (x ++ String c "")%string eqn:E; [|reflexivity].
  destruct x; discriminate E.
Qed.

Lemma substring_prefix (x y : string) :
  String.substring 0 (String.length x) (x ++ y) = x.
Proof.
  induction x as [|a x IH]; simpl.
  - destruct y; reflexivity.
  - rewrite IH. reflexivity.
Qed.

Lemma strip_outer_wrapped (m : string) :
  strip_outer_parentheses ("(" ++ m ++ ")") = PyStr.strip m.
Proof.
  unfold strip_outer_parentheses.
  change ("(" ++ m ++ ")")%string with (String "(" (m ++ ")")).
  assert (PyStr.startswith (String "(" (m ++ ")")) "(" = true) as ->.
  { unfold PyStr.startswith. rewrite prefix_cons.
    destruct (m ++ ")")%string; reflexivity. }
  change (String "(" (m ++ ")")) with (String "(" m ++ ")")%string at 1.
  rewrite last_char_app. cbn [andb Ascii.eqb].
  replace (Ascii.eqb ")" ")") with true by reflexivity.
  unfold PyStr.inner. cbn [String.length String.substring].
  rewrite length_app. cbn [String.length].
  replace (S (String.length m + 1) - 2) with (String.length m) by lia.
  rewrite substring_prefix. reflexivity.
Qed.

(** The reader removes the outer pair of parentheses of a rendered or/and
    node and the blanks inside it. *)
Lemma strip_outer_rendered (b : string) :
  strip_outer_parentheses (PyStr.join " " ["("; b; ")"]) = PyStr.strip b.
Proof.
  replace (PyStr.join " " ["("; b; ")"])
    with ("(" ++ String " " (b ++ " ") ++ ")")%string.
  - rewrite strip_outer_wrapped. apply strip_padded.
  - cbn [PyStr.join append]. do 2 f_equal.
    induction b as [|c b IH]; [reflexivity|].
    cbn [append]. rewrite IH. reflexivity.
Qed.

(** X18. A reaction that the reader reads and whose FBC plugin holds a gene
    association gets as gene-reaction rule the association rendered without
    the outer parentheses of its root: the rendered children of an or/and
    root joined by the operator, inner nodes keeping their parentheses; and
    every node of the association is of a known kind. *)
Theorem read_reaction_rule (f_replace : FReplace) (model : SModel)
  (bids : list string) (mets : list Metabolite) (rs rs' : list CReaction)
  (r : Reaction) (r_fbc0 : FbcReactionPlugin) (gpa : GeneProductAssociation)
  (ass : FbcAssociation) :
  value_of (read_reaction f_replace model bids mets rs r) = Some rs' ->
  r_fbc r = Some r_fbc0 ->
  fr_gpa r_fbc0 = Some gpa ->
  gpa_association gpa = Some ass ->
  known ass = true
  /\ exists cr,
       rs' = rs ++ [cr]
       /\ rule_of f_replace ass = Some (gene_reaction_rule cr).
Proof.
  unfold read_reaction. intros H Hfbc Hgpa Hass.
  bind_inv H. bind_inv H. bind_inv H. bind_inv H. bind_inv H.
  injection H as <-.
  unfold read_gpr in Ha3. rewrite Hfbc, Hgpa, Hass in Ha3.
  destruct (process_association f_replace ass) as [gpr|] eqn:Hp;
    [|discriminate Ha3].
  injection Ha3 as <-. split.
  - apply (process_association_defined f_replace). exists gpr. exact Hp.
  - eexists. split; [reflexivity|]. cbn [gene_reaction_rule].
    destruct ass as [cs|cs|gid|]; cbn [process_association rule_of] in *;
      unfold rendered_children.
    + destruct (all_some (map (process_association f_replace) cs)) as [l|];
        [|discriminate Hp].
      cbn [option_map] in Hp |- *. injection Hp as <-.
      rewrite <- strip_outer_rendered. reflexivity.
    + destruct (all_some (map (process_association f_replace) cs)) as [l|];
        [|discriminate Hp].
      cbn [option_map] in Hp |- *. injection Hp as <-.
      rewrite <- strip_outer_rendered. reflexivity.
    + injection Hp as <-. reflexivity.
    + discriminate Hp.
Qed.

Lemma read_reaction_rule_witness :
  exists cr,
    value_of (read_reaction F_REPLACE MoreSamples.association_model [] [] []
                MoreSamples.association_reaction) = Some [cr]
    /\ gene_reaction_rule cr = "( b0001 and b0002 ) or b0003".
Proof.
  destruct (read_reaction_rule F_REPLACE MoreSamples.association_model [] []
              [] _ MoreSamples.association_reaction _ _ _
              eq_refl eq_refl eq_refl eq_refl) as [_ [cr [Hrs Hrule]]].
  exists cr. split.
  - vm_compute. vm_compute in Hrs. injection Hrs as <-. reflexivity.
  - vm_compute in Hrs. injection Hrs as <-. reflexivity.
Defined.

(** ** Validation with the libsbml checks *)

Lemma record_libsbml_errors_ok (l : list (severity * string)) :
  forall fatal schema warning,
    has_severity LIBSBML_SEV_ERROR l = false ->
    foldM record_libsbml_error l (libsbml_groups fatal schema warning)
    = ([], inr (libsbml_groups
                  (fatal ++ messages_of LIBSBML_SEV_FATAL l)
                  (schema ++ messages_of LIBSBML_SEV_SCHEMA_ERROR l)
                  (warning ++ messages_of LIBSBML_SEV_WARNING l))).
Proof.
  induction l as [|[sev msg] l IH]; intros fatal schema warning H.
  - unfold messages_of. simpl. rewrite !app_nil_r. reflexivity.
  - unfold has_severity in H. cbn [existsb fst] in H.
    apply orb_false_iff in H as [Hsev H].
    cbn [foldM].
    destruct sev; try discriminate Hsev.
    + change (record_libsbml_error (libsbml_groups fatal schema warning)
                (LIBSBML_SEV_INFO, msg))
        with (ret (libsbml_groups fatal schema warning)).
      rewrite bind_ret_l. rewrite (IH _ _ _ H). reflexivity.
    + change (record_libsbml_error (libsbml_groups fatal schema warning)
                (LIBSBML_SEV_WARNING, msg))
        with (ret (libsbml_groups fatal schema (warning ++ [msg]))).
      rewrite bind_ret_l. rewrite (IH _ _ _ H).
      unfold messages_of. cbn [filter fst snd severity_eqb map].
      rewrite <- app_assoc. reflexivity.
    + change (record_libsbml_error (libsbml_groups fatal schema warning)
                (LIBSBML_SEV_FATAL, msg))
        with (ret (libsbml_groups (fatal ++ [msg]) schema warning)).
      rewrite bind_ret_l. rewrite (IH _ _ _ H).
      unfold messages_of. cbn [filter fst snd severity_eqb map].
      rewrite <- app_assoc. reflexivity.
    + change (record_libsbml_error (libsbml_groups fatal schema warning)
                (LIBSBML_SEV_SCHEMA_ERROR, msg))
        with (ret (libsbml_groups fatal (schema ++ [msg]) warning)).
      rewrite bind_ret_l. rewrite (IH _ _ _ H).
      unfold messages_of. cbn [filter fst snd severity_eqb map].
      rewrite <- app_assoc. reflexivity.
Qed.

Lemma record_libsbml_errors_raise (l : list (severity * string)) :
  forall fatal schema warning,
    has_severity LIBSBML_SEV_ERROR l = true ->
    snd (foldM record_libsbml_error l (libsbml_groups fatal schema warning))
    = inl (PyException "KeyError" "SBML_ERROR").
Proof.
  induction l as [|[sev msg] l IH]; intros fatal schema warning H.
  - discriminate H.
  - unfold has_severity in H. cbn [existsb fst] in H.
    cbn [foldM].
    destruct sev; cbn [severity_eqb orb] in H.
    + change (record_libsbml_error (libsbml_groups fatal schema warning)
                (LIBSBML_SEV_INFO, msg))
        with (ret (libsbml_groups fatal schema warning)).
      rewrite bind_ret_l. apply IH. exact H.
    + change (record_libsbml_error (libsbml_groups fatal schema warning)
                (LIBSBML_SEV_WARNING, msg))
        with (ret (libsbml_groups fatal schema (warning ++ [msg]))).
      rewrite bind_ret_l. apply IH. exact H.
    + reflexivity.
    + change (record_libsbml_error (libsbml_groups fatal schema warning)
                (LIBSBML_SEV_FATAL, msg))
        with (ret (libsbml_groups (fatal ++ [msg]) schema warning)).
      rewrite bind_ret_l. apply IH. exact H.
    + change (record_libsbml_error (libsbml_groups fatal schema warning)
                (LIBSBML_SEV_SCHEMA_ERROR, msg))
        with (ret (libsbml_groups fatal (schema ++ [msg]) warning)).
      rewrite bind_ret_l. apply IH. exact H.
Qed.

(** X19. Validation with the libsbml checks on, of a document that holds a
    model: when libsbml reports an error of severity ERROR, validation
    raises a [KeyError] for the group [SBML_ERROR], which the error map does
    not have (its key is [SBML ERROR], with a blank); otherwise validation
    does not raise, and the error map it returns holds the texts of the
    fatal errors, of the schema errors and of the warnings of libsbml, each
    group in the order of the document, and nothing under [SBML ERROR]. *)
Theorem validate_libsbml_findings
  (check : CModel -> list string) (libsbml_errors : list (severity * string))
  (warning_list : list string) (doc : SBMLDocument) (check_model : bool) :
  doc_model doc <> None ->
  (has_severity LIBSBML_SEV_ERROR libsbml_errors = true ->
   raised (validate_sbml_model check libsbml_errors warning_list
             (InDocument doc) true check_model)
   = Some (PyException "KeyError" "SBML_ERROR"))
  /\ (has_severity LIBSBML_SEV_ERROR libsbml_errors = false ->
      exists out errors,
        snd (validate_sbml_model check libsbml_errors warning_list
               (InDocument doc) true check_model) = inr (out, errors)
        /\ dict_get errors "SBML_FATAL"
           = Some (messages_of LIBSBML_SEV_FATAL libsbml_errors)
        /\ dict_get errors "SBML_SCHEMA_ERROR"
           = Some (messages_of LIBSBML_SEV_SCHEMA_ERROR libsbml_errors)
        /\ dict_get errors "SBML_WARNING"
           = Some (messages_of LIBSBML_SEV_WARNING libsbml_errors)
        /\ dict_get errors "SBML ERROR" = Some []).
Proof.
  intros Hmodel.
  destruct (doc_model doc) as [model|] eqn:Hm; [|congruence].
  split; intros Hsev.
  - cbv beta iota zeta delta
        [validate_sbml_model _get_doc_from_filename raised].
    rewrite bind_ret_l. rewrite Hm.
    change ([("validator", []); ("warnings", []); ("other", []);
             ("SBML errors", [])] ++
            [("SBML_FATAL", []); ("SBML ERROR", []);
             ("SBML_SCHEMA_ERROR", []); ("SBML_WARNING", [])])
      with (libsbml_groups [] [] []).
    pose proof (record_libsbml_errors_raise libsbml_errors [] [] [] Hsev) as Hr.
    destruct (foldM record_libsbml_error libsbml_errors
                (libsbml_groups [] [] [])) as [log r].
    cbn [snd] in Hr. subst r. reflexivity.
  - cbv beta iota zeta delta
        [validate_sbml_model _get_doc_from_filename].
    rewrite bind_ret_l. rewrite Hm.
    change ([("validator", []); ("warnings", []); ("other", []);
             ("SBML errors", [])] ++
            [("SBML_FATAL", []); ("SBML ERROR", []);
             ("SBML_SCHEMA_ERROR", []); ("SBML_WARNING", [])])
      with (libsbml_groups [] [] []).
    rewrite (record_libsbml_errors_ok libsbml_errors [] [] [] Hsev).
    cbn [app]. unfold bind.
    destruct (_sbml_to_model doc F_NONE) as [l [[msg|cls msg]|m]].
    + eexists. eexists. split; [reflexivity|]. repeat split; reflexivity.
    + eexists. eexists. split; [reflexivity|]. repeat split; reflexivity.
    + destruct check_model.
      * eexists. eexists. split; [reflexivity|]. repeat split; reflexivity.
      * eexists. eexists. split; [reflexivity|]. repeat split; reflexivity.
Qed.

Lemma validate_libsbml_findings_witness :
  raised (validate_sbml_model Samples.no_findings
            [(LIBSBML_SEV_WARNING, "w1"); (LIBSBML_SEV_ERROR, "e1")] []
            (InDocument Samples.no_bounds_document) true true)
  = Some (PyException "KeyError" "SBML_ERROR")
  /\ exists out errors,
       snd (validate_sbml_model Samples.no_findings
              [(LIBSBML_SEV_WARNING, "w1"); (LIBSBML_SEV_FATAL, "f1");
               (LIBSBML_SEV_WARNING, "w2")] []
              (InDocument Samples.no_bounds_document) true true)
       = inr (out, errors)
       /\ dict_get errors "SBML_WARNING" = Some ["w1"; "w2"].
Proof.
  split.
  - apply (validate_libsbml_findings Samples.no_findings
             [(LIBSBML_SEV_WARNING, "w1"); (LIBSBML_SEV_ERROR, "e1")] []
             Samples.no_bounds_document true); [discriminate | reflexivity].
  - destruct (validate_libsbml_findings Samples.no_findings
                [(LIBSBML_SEV_WARNING, "w1"); (LIBSBML_SEV_FATAL, "f1");
                 (LIBSBML_SEV_WARNING, "w2")] []
                Samples.no_bounds_document true) as [_ H]; [discriminate|].
    destruct (H eq_refl) as [out [errors [Hrun [_ [_ [Hw _]]]]]].
    exists out, errors. split; [exact Hrun | exact Hw].
Defined.

(** ** The writer returns, or not *)

(** Serializing plain entries never raises and logs nothing. *)
Lemma annotate_silent (ann : annotation) :
  Forall plain_entry ann ->
  forall b, exists b',
    foldM annotate_provider
          (map (fun kv => (fst kv, standardize (snd kv))) ann) b
    = ([], inr b').
Proof.
  induction 1 as [|[k v] ann Hkv _ IH]; intros b.
  - exists b. reflexivity.
  - unfold plain_entry in Hkv. cbn [fst snd] in Hkv.
    destruct v as [e|l]; [|contradiction].
    destruct Hkv as [_ [_ [H1 H2]]].
    cbn [map fst snd standardize foldM].
    assert (exists b1, annotate_provider b (k, [("is", e)]) = ([], inr b1))
      as [b1 Hb1].
    { unfold annotate_provider. rewrite H1, H2.
      cbn [orb foldM annotate_item].
      change (PyStr.startswith "is" "bqm_") with false.
      change (dict_get QUALIFIER_TYPES "is") with (Some BQB_IS).
      cbn [bind ret app]. eexists. reflexivity. }
    destruct (IH b1) as [b' Hb']. exists b'.
    eapply bind_ret_nil; eassumption.
Qed.

Lemma sbase_annotations_plain (b : SBase) (ann : annotation) :
  Forall plain_entry ann ->
  exists b', _sbase_annotations b ann = ([], inr b').
Proof.
  intros H. destruct ann as [|kv ann].
  - exists b. reflexivity.
  - unfold _sbase_annotations. apply (annotate_silent _ H).
Qed.

Lemma mapM_silent {A B : Type} (body : A -> M B) (l : list A) :
  Forall (fun x => exists y, body x = ([], inr y)) l ->
  exists ys, mapM body l = ([], inr ys).
Proof.
  induction 1 as [|x l [y Hy] _ [ys IH]].
  - exists []. reflexivity.
  - exists (y :: ys). cbn [mapM]. rewrite Hy, IH. reflexivity.
Qed.

Lemma write_species_silent (f_replace : FReplace) (met : Metabolite) :
  Forall plain_entry (met_annotation met) ->
  exists s, write_species f_replace met = ([], inr s).
Proof.
  intros H. unfold write_species.
  destruct (sbase_annotations_plain
              (setName (setId new_sbase
                          (apply_f (F_SPECIE_REV f_replace) (met_id met)))
                       (met_name met)) _ H) as [b' Hb].
  rewrite Hb. eexists. reflexivity.
Qed.

Lemma write_gene_silent (f_replace : FReplace) (gene : Gene) :
  Forall plain_entry (gene_annotation gene) ->
  exists gp, write_gene f_replace gene = ([], inr gp).
Proof.
  intros H. unfold write_gene.
  match goal with
  | |- context [_sbase_annotations ?b _] =>
      destruct (sbase_annotations_plain b _ H) as [b' Hb]
  end.
  rewrite Hb. eexists. reflexivity.
Qed.

Lemma value_bind_none {A B : Type} (m : M A) (f : A -> M B) :
  (forall a, value_of (f a) = None) -> value_of (bind m f) = None.
Proof.
  intros H. destruct m as [l [e|a]]; [reflexivity|].
  unfold bind. specialize (H a). destruct (f a) as [l' r]. exact H.
Qed.

Lemma write_reaction_unbound (parse_infix : string -> option FbcAssociation)
  (config : Configuration) (f_replace : FReplace) (cobra_model : CModel)
  (reaction : CReaction)
  (st : list SBMLParameter * list FluxObjective * list Reaction) :
  value_of (write_reaction parse_infix config f_replace false None
              cobra_model st reaction) = None
  /\ (Forall plain_entry (rxn_annotation reaction) ->
      write_reaction parse_infix config f_replace false None
        cobra_model st reaction = ([], inl flux_udef_unbound)).
Proof.
  destruct st as [[parameters flux_objectives] reactions].
  unfold write_reaction. split.
  - apply value_bind_none. intros b. reflexivity.
  - intros H.
    match goal with
    | |- context [_sbase_annotations ?b _] =>
        destruct (sbase_annotations_plain b _ H) as [b' Hb]
    end.
    rewrite Hb. reflexivity.
Qed.

(** X21. With the flux units off, the writer returns no document for any
    model that has a reaction: the unit definition of the fluxes is bound
    only when the units are on, and it is read for the bounds of the first
    reaction.  For a model whose objective direction is [max] or [min] and
    whose annotations are made of plain entries, the exception is the
    [UnboundLocalError] for [flux_udef], and nothing is logged. *)
Theorem write_without_units_fails
  (parse_infix : string -> option FbcAssociation) (config : Configuration)
  (cobra_model : CModel) (f_replace : FReplace) :
  cm_reactions cobra_model <> [] ->
  value_of (_model_to_sbml parse_infix config cobra_model f_replace false)
  = None
  /\ (plain_model cobra_model ->
      In (cm_objective_direction cobra_model) ["max"; "min"] ->
      _model_to_sbml parse_infix config cobra_model f_replace false
      = ([], inl flux_udef_unbound)).
Proof.
  intros Hr. destruct (cm_reactions cobra_model) as [|r rest] eqn:Hrs;
    [congruence|]. clear Hr.
  split.
  - unfold _model_to_sbml.
    apply value_bind_none. intros doc_b.
    apply value_bind_none. intros species.
    apply value_bind_none. intros gene_products.
    apply value_bind_none. intros objective_type.
    rewrite Hrs. cbn [foldM].
    destruct (write_reaction_unbound parse_infix config f_replace cobra_model
                r (shared_parameters config cobra_model, [], [])) as [Hn _].
    destruct (write_reaction parse_infix config f_replace false None
                cobra_model (shared_parameters config cobra_model, [], []) r)
      as [l [e|a]]; [reflexivity | discriminate Hn].
  - intros [Hmeta [Hmets [Hgenes [Hrxns _]]]] Hdir.
    unfold _model_to_sbml.
    assert (exists b,
              match cm_sbml cobra_model with
              | Some meta =>
                  b <- _sbase_annotations
                         (setSBOTerm new_sbase SBO_FBA_FRAMEWORK)
                         (meta_annotation meta) ;;
                  ret (_sbase_notes_dict b (meta_notes meta))
              | None => ret (setSBOTerm new_sbase SBO_FBA_FRAMEWORK)
              end = ([], inr b)) as [doc_b ->].
    { destruct (cm_sbml cobra_model) as [meta|].
      - destruct (sbase_annotations_plain
                    (setSBOTerm new_sbase SBO_FBA_FRAMEWORK) _ Hmeta)
          as [b' ->].
        eexists. reflexivity.
      - eexists. reflexivity. }
    destruct (mapM_silent (write_species f_replace)
                (cm_metabolites cobra_model)) as [species ->].
    { eapply Forall_impl; [|exact Hmets]. intros met.
      apply write_species_silent. }
    destruct (mapM_silent (write_gene f_replace) (cm_genes cobra_model))
      as [gene_products ->].
    { eapply Forall_impl; [|exact Hgenes]. intros gene.
      apply write_gene_silent. }
    assert (exists t,
              dict_get SHORT_LONG_DIRECTION
                (cm_objective_direction cobra_model) = Some t) as [t ->].
    { destruct Hdir as [<-|[<-|[]]]; eexists; reflexivity. }
    rewrite Hrs in *. cbn [foldM].
    inversion Hrxns as [|? ? Hplain _]; subst.
    destruct (write_reaction_unbound parse_infix config f_replace cobra_model
                r (shared_parameters config cobra_model, [], []))
      as [_ Hraise].
    rewrite (Hraise Hplain). reflexivity.
Qed.

Lemma write_without_units_fails_witness :
  _model_to_sbml Samples.no_infix default_config
    MoreSamples.custom_bounds_model F_REPLACE false
  = ([], inl flux_udef_unbound).
Proof.
  apply write_without_units_fails.
  - discriminate.
  - unfold plain_model. simpl. repeat constructor.
  - simpl. left. reflexivity.
Defined.

(** ** Notes written and read back *)

Lemma append_assoc (a b c : string) : ((a ++ b) ++ c = a ++ (b ++ c))%string.
Proof. induction a as [|x a IH]; [reflexivity|]. cbn [append]. rewrite IH. reflexivity. Qed.

Lemma word_not_space (c : ascii) :
  PyStr.is_word c = true -> PyStr.is_space c = false.
Proof.
  destruct c as [[] [] [] [] [] [] [] []]; intros H; vm_compute in H |- *;
    congruence.
Qed.

Lemma space_not_word (c : ascii) :
  PyStr.is_space c = true -> PyStr.is_word c = false.
Proof.
  intros H. destruct (PyStr.is_word c) eqn:Hw; [|reflexivity].
  apply word_not_space in Hw. congruence.
Qed.

Lemma star_greedy {R : Type} (cls : ascii -> bool)
  (K : string -> nat -> option R) (u rest : string) (r : R) :
  forall pos,
    all_chars cls u = true -> head_not cls rest ->
    K rest (pos + String.length u) = Some r ->
    Regex.star R cls K (u ++ rest) pos = Some r.
Proof.
  induction u as [|c u IH]; intros pos Hu Hrest HK.
  - cbn [append String.length] in *. rewrite Nat.add_0_r in HK.
    destruct rest as [|c rest]; cbn [Regex.star]; [exact HK|].
    cbn [head_not] in Hrest. rewrite Hrest. exact HK.
  - cbn [all_chars] in Hu. apply andb_true_iff in Hu as [Hc Hu].
    cbn [append Regex.star]. rewrite Hc.
    rewrite (IH (S pos) Hu Hrest); [reflexivity|].
    cbn [String.length] in HK. rewrite <- HK. f_equal. lia.
Qed.

Lemma star_none {R : Type} (cls : ascii -> bool)
  (K : string -> nat -> option R) (rest : string) (pos : nat) (r : R) :
  head_not cls rest -> K rest pos = Some r ->
  Regex.star R cls K rest pos = Some r.
Proof.
  intros Hrest HK. apply (star_greedy cls K "" rest r pos); [reflexivity|exact Hrest|].
  cbn [String.length]. rewrite Nat.add_0_r. exact HK.
Qed.

Lemma match_lit (c : ascii) (p : list Regex.item) (caps : list nat)
  (s : string) (pos : nat) :
  Regex.match_items (Regex.Lit c :: p) caps (String c s) pos
  = Regex.match_items p caps s (S pos).
Proof. cbn [Regex.match_items]. rewrite Ascii.eqb_refl. reflexivity. Qed.

Lemma match_star (cls : ascii -> bool) (p : list Regex.item)
  (caps : list nat) (s : string) (pos : nat) :
  Regex.match_items (Regex.Star cls :: p) caps s pos
  = Regex.star _ cls (Regex.match_items p caps) s pos.
Proof. reflexivity. Qed.

Lemma match_plus (cls : ascii -> bool) (p : list Regex.item)
  (caps : list nat) (c : ascii) (s : string) (pos : nat) :
  cls c = true ->
  Regex.match_items (Regex.Plus cls :: p) caps (String c s) pos
  = Regex.star _ cls (Regex.match_items p caps) s (S pos).
Proof. intros H. cbn [Regex.match_items]. rewrite H. reflexivity. Qed.

Lemma match_open (p : list Regex.item) (caps : list nat) (s : string)
  (pos : nat) :
  Regex.match_items (Regex.GOpen :: p) caps s pos
  = Regex.match_items p (pos :: caps) s pos.
Proof. reflexivity. Qed.

Lemma match_close (p : list Regex.item) (caps : list nat) (s : string)
  (pos : nat) :
  Regex.match_items (Regex.GClose :: p) caps s pos
  = Regex.match_items p (pos :: caps) s pos.
Proof. reflexivity. Qed.

(** The pattern matches a written paragraph from its first character to
    the opening angle of its closing tag, and the two groups are the key
    and the value. *)
Lemma match_paragraph (c : ascii) (w1 sp w2 : string) (vc : ascii)
  (v' rest : string) (pos : nat) :
  PyStr.is_word c = true -> all_chars PyStr.is_word w1 = true ->
  all_chars PyStr.is_space sp = true -> all_chars PyStr.is_word w2 = true ->
  (sp = "" -> w2 = "") ->
  notes_value_class vc = true -> PyStr.is_space vc = false ->
  all_chars notes_value_class v' = true ->
  let lk := S (String.length w1 + String.length sp + String.length w2) in
  let lv := S (String.length v') in
  Regex.match_items NOTES_PATTERN []
    (String "<" (String "p" (String ">" (String c
       (w1 ++ sp ++ w2 ++ String ":" (String " " (String vc
          (v' ++ String "<" rest))))))))
    pos
  = Some (pos + 3 + lk + 2 + lv + 1,
          [pos + 3 + lk + 2 + lv; pos + 3 + lk + 2; pos + 3 + lk; pos + 3]).
Proof.
  intros Hc Hw1 Hsp Hw2 Hmid Hvc Hvs Hv' lk lv.
  unfold NOTES_PATTERN.
  rewrite !match_lit, match_star.
  apply star_none; [cbn [head_not]; apply word_not_space, Hc|].
  rewrite match_open, (match_plus _ _ _ _ _ _ Hc).
  apply star_greedy; [exact Hw1| |].
  { destruct sp as [|a sp].
    - rewrite (Hmid eq_refl). reflexivity.
    - cbn [all_chars] in Hsp. apply andb_true_iff in Hsp as [Ha _].
      cbn [append head_not]. apply space_not_word, Ha. }
  rewrite match_star.
  apply star_greedy; [exact Hsp| |].
  { destruct w2 as [|a w2]; [reflexivity|].
    cbn [all_chars] in Hw2. apply andb_true_iff in Hw2 as [Ha _].
    cbn [append head_not]. apply word_not_space, Ha. }
  rewrite match_star.
  apply star_greedy; [exact Hw2|reflexivity|].
  rewrite match_close, match_star.
  apply star_none; [reflexivity|].
  rewrite match_lit, match_star.
  apply (star_greedy _ _ " "); [reflexivity|exact Hvs|].
  rewrite match_open, (match_plus _ _ _ _ _ _ Hvc).
  apply star_greedy; [exact Hv'|reflexivity|].
  rewrite match_close, match_lit.
  cbn [Regex.match_items String.length]. subst lk lv.
  f_equal. f_equal; [lia|]. repeat (f_equal; try lia).
Qed.

Lemma findall_skip (p : list Regex.item) (whole u s : string) :
  forall pos,
    Regex.findall_from p whole (u ++ s) pos (String.length u)
    = Regex.findall_from p whole s (pos + String.length u) 0.
Proof.
  induction u as [|c u IH]; intros pos.
  - cbn [append String.length]. rewrite Nat.add_0_r. reflexivity.
  - cbn [append String.length Regex.findall_from]. rewrite IH.
    f_equal. lia.
Qed.

Lemma findall_match (p : list Regex.item) (whole : string) (c : ascii)
  (s : string) (pos e : nat) (caps : list nat) :
  Regex.match_items p [] (String c s) pos = Some (e, caps) ->
  Regex.findall_from p whole (String c s) pos 0
  = Regex.groups whole (rev caps)
      :: Regex.findall_from p whole s (S pos) (e - pos - 1).
Proof. intros H. cbn [Regex.findall_from]. rewrite H. reflexivity. Qed.

Lemma findall_no_match (p : list Regex.item) (whole : string) (c : ascii)
  (s : string) (pos : nat) :
  Regex.match_items p [] (String c s) pos = None ->
  Regex.findall_from p whole (String c s) pos 0
  = Regex.findall_from p whole s (S pos) 0.
Proof. intros H. cbn [Regex.findall_from]. rewrite H. reflexivity. Qed.

Lemma no_match_other (c : ascii) (s : string) (pos : nat) :
  Ascii.eqb "<" c = false ->
  Regex.match_items NOTES_PATTERN [] (String c s) pos = None.
Proof.
  intros H. unfold NOTES_PATTERN. cbn [Regex.match_items]. rewrite H.
  reflexivity.
Qed.

Lemma no_match_tag (c : ascii) (s : string) (pos : nat) :
  Ascii.eqb "p" c = false ->
  Regex.match_items NOTES_PATTERN [] (String "<" (String c s)) pos = None.
Proof.
  intros H. unfold NOTES_PATTERN. rewrite match_lit.
  cbn [Regex.match_items]. rewrite H. reflexivity.
Qed.

(** Scanning a text without an opening angle finds nothing. *)
Lemma findall_scan (whole u s : string) :
  PyStr.has_char "<" u = false ->
  forall pos,
    Regex.findall_from NOTES_PATTERN whole (u ++ s) pos 0
    = Regex.findall_from NOTES_PATTERN whole s (pos + String.length u) 0.
Proof.
  induction u as [|c u IH]; intros H pos.
  - cbn [append String.length]. rewrite Nat.add_0_r. reflexivity.
  - cbn [PyStr.has_char] in H. apply orb_false_iff in H as [Hc Hu].
    cbn [append String.length].
    rewrite (findall_no_match _ _ _ _ _ (no_match_other _ _ _ Hc)).
    rewrite (IH Hu). f_equal. lia.
Qed.

Lemma substring_mid (a b c : string) :
  String.substring (String.length a) (String.length b) (a ++ b ++ c) = b.
Proof.
  induction a as [|x a IH]; [exact (substring_prefix b c) | exact IH].
Qed.

Lemma append_nil_r (s : string) : (s ++ "")%string = s.
Proof. induction s as [|c s IH]; [reflexivity|]. cbn [append]. rewrite IH. reflexivity. Qed.

Lemma note_key_shape (k : string) :
  note_key k ->
  exists c w1 sp w2,
    k = String c (w1 ++ sp ++ w2)
    /\ PyStr.is_word c = true /\ all_chars PyStr.is_word w1 = true
    /\ all_chars PyStr.is_space sp = true
    /\ all_chars PyStr.is_word w2 = true
    /\ (sp = "" -> w2 = "").
Proof.
  intros [w [Hne Hw]|w1 sp w2 [Hne1 Hw1] [Hnes Hsp] [Hne2 Hw2]].
  - destruct w as [|c w]; [congruence|].
    cbn [all_chars] in Hw. apply andb_true_iff in Hw as [Hc Hw].
    exists c, w, "", "". cbn [append]. rewrite append_nil_r.
    repeat split; auto.
  - destruct w1 as [|c w1]; [congruence|].
    cbn [all_chars] in Hw1. apply andb_true_iff in Hw1 as [Hc Hw1].
    exists c, w1, sp, w2. repeat split; auto. congruence.
Qed.

Lemma note_value_shape (v : string) :
  note_value v ->
  exists vc v',
    v = String vc v'
    /\ notes_value_class vc = true /\ PyStr.is_space vc = false
    /\ all_chars notes_value_class v' = true.
Proof.
  intros [Hall Hob]. destruct v as [|vc v']; [discriminate Hob|].
  cbn [all_chars] in Hall. apply andb_true_iff in Hall as [Hvc Hv'].
  unfold no_outer_blank in Hob. apply andb_true_iff in Hob as [Hh _].
  exists vc, v'. repeat split; auto.
  destruct (PyStr.is_space vc); [discriminate Hh | reflexivity].
Qed.

Lemma paragraph_found (pre k v T : string) :
  note_key k -> note_value v ->
  Regex.findall_from NOTES_PATTERN
    (pre ++ paragraph (k, v) ++ NEWLINE ++ T)
    (paragraph (k, v) ++ NEWLINE ++ T) (String.length pre) 0
  = [k; v]
      :: Regex.findall_from NOTES_PATTERN
           (pre ++ paragraph (k, v) ++ NEWLINE ++ T) T
           (String.length (pre ++ paragraph (k, v) ++ NEWLINE)) 0.
Proof.
  intros Hk Hv.
  destruct (note_key_shape k Hk)
    as [c [w1 [sp [w2 [Ek [Hc [Hw1 [Hsp [Hw2 Hmid]]]]]]]]].
  destruct (note_value_shape v Hv) as [vc [v' [Ev [Hvc [Hvs Hv']]]]].
  remember (pre ++ paragraph (k, v) ++ NEWLINE ++ T)%string as whole
    eqn:Hwhole.
  assert (paragraph (k, v) ++ NEWLINE ++ T
          = String "<" (String "p" (String ">" (String c
              (w1 ++ sp ++ w2 ++ String ":" (String " " (String vc
                 (v' ++ String "<"
                    (("/p>" ++ NEWLINE) ++ T)))))))))%string as Es.
  { unfold paragraph. cbn [fst snd]. rewrite Ek, Ev.
    repeat (progress (rewrite ?append_assoc; cbn [append])).
    reflexivity. }
  rewrite Es.
  rewrite (findall_match _ _ _ _ _ _ _
             (match_paragraph c w1 sp w2 vc v' _ _
                Hc Hw1 Hsp Hw2 Hmid Hvc Hvs Hv')).
  assert (String.length k
          = S (String.length w1 + String.length sp + String.length w2))
    as Hlk.
  { rewrite Ek. cbn [String.length]. rewrite !length_app. lia. }
  assert (String.length v = S (String.length v')) as Hlv.
  { rewrite Ev. reflexivity. }
  rewrite <- Hlk, <- Hlv.
  f_equal.
  - cbn [rev app Regex.groups]. f_equal; [|f_equal].
    + replace (String.length pre + 3) with (String.length (pre ++ "<p>"))
        by (rewrite length_app; reflexivity).
      replace (String.length (pre ++ "<p>") + String.length k
               - String.length (pre ++ "<p>")) with (String.length k) by lia.
      replace whole
        with ((pre ++ "<p>") ++ k ++ (": " ++ v ++ "</p>") ++ NEWLINE ++ T)%string.
      * apply substring_mid.
      * rewrite Hwhole. unfold paragraph. cbn [fst snd].
        rewrite !append_assoc. reflexivity.
    + replace (String.length pre + 3 + String.length k + 2)
        with (String.length (pre ++ "<p>" ++ k ++ ": "))
        by (rewrite !length_app; cbn [String.length]; lia).
      replace (String.length (pre ++ "<p>" ++ k ++ ": ") + String.length v
               - String.length (pre ++ "<p>" ++ k ++ ": "))
        with (String.length v) by lia.
      replace whole
        with ((pre ++ "<p>" ++ k ++ ": ") ++ v ++ "</p>" ++ NEWLINE ++ T)%string.
      * apply substring_mid.
      * rewrite Hwhole. unfold paragraph. cbn [fst snd].
        rewrite !append_assoc. reflexivity.
  - replace (String "p" (String ">" (String c
              (w1 ++ sp ++ w2 ++ String ":" (String " " (String vc
                 (v' ++ String "<" (("/p>" ++ NEWLINE) ++ T))))))))%string
      with (("p>" ++ k ++ ": " ++ v ++ "<") ++ ("/p>" ++ NEWLINE) ++ T)%string.
    2:{ rewrite Ek, Ev.
        repeat (progress (rewrite ?append_assoc; cbn [append])).
        reflexivity. }
    replace (String.length pre + 3 + String.length k + 2 + String.length v + 1
             - String.length pre - 1)
      with (String.length ("p>" ++ k ++ ": " ++ v ++ "<"))
      by (cbn [append String.length]; rewrite !length_app;
          cbn [String.length]; rewrite !length_app; cbn [String.length]; lia).
    rewrite findall_skip.
    rewrite findall_scan by reflexivity.
    f_equal.
    rewrite !length_app. unfold paragraph. cbn [fst snd].
    cbn [append String.length]. rewrite !length_app.
    cbn [String.length]. rewrite !length_app. cbn [String.length].
    unfold NEWLINE. cbn [String.length]. lia.
Qed.

Lemma findall_body (notes : dict string) :
  Forall plain_note notes ->
  forall pre,
    Regex.findall_from NOTES_PATTERN (pre ++ notes_body notes)
      (notes_body notes) (String.length pre) 0
    = map (fun kv => [fst kv; snd kv]) notes.
Proof.
  induction 1 as [|[k v] notes [Hk Hv] _ IH]; intros pre.
  - cbn [notes_body map].
    rewrite (findall_no_match _ _ _ _ _ (no_match_tag "/" _ _ eq_refl)).
    change "/html>" with ("/html>" ++ "")%string.
    rewrite findall_scan by reflexivity. reflexivity.
  - cbn [notes_body map fst snd] in *.
    rewrite (paragraph_found pre k v (notes_body notes) Hk Hv).
    f_equal.
    replace (pre ++ paragraph (k, v) ++ NEWLINE ++ notes_body notes)%string
      with ((pre ++ paragraph (k, v) ++ NEWLINE) ++ notes_body notes)%string
      by (rewrite !append_assoc; reflexivity).
    apply IH.
Qed.

Lemma join_cons (sep x : string) (rest : list string) :
  rest <> [] -> PyStr.join sep (x :: rest) = (x ++ sep ++ PyStr.join sep rest)%string.
Proof. destruct rest; [congruence | reflexivity]. Qed.

Lemma join_body (notes : dict string) :
  PyStr.join NEWLINE (map paragraph notes ++ ["</html>"]) = notes_body notes.
Proof.
  induction notes as [|kv notes IH]; [reflexivity|].
  cbn [map app notes_body]. rewrite join_cons, IH; [reflexivity|].
  destruct (map paragraph notes); discriminate.
Qed.

Lemma notes_markup_body (notes : dict string) :
  notes <> [] ->
  notes_markup notes = Some (NOTES_HEADER ++ NEWLINE ++ notes_body notes)%string.
Proof.
  intros Hne. destruct notes as [|kv notes]; [congruence|].
  unfold notes_markup.
  change (String (ascii_of_nat 10) "") with NEWLINE.
  change ("<html xmlns = " ++ String (ascii_of_nat 34) ""
            ++ "http://www.w3.org/1999/xhtml"
            ++ String (ascii_of_nat 34) "" ++ " >")%string with NOTES_HEADER.
  change (fun kv0 : string * string =>
            ("<p>" ++ fst kv0 ++ ": " ++ snd kv0 ++ "</p>")%string)
    with paragraph.
  cbn [app]. rewrite join_cons, join_body; [reflexivity|].
  destruct (map paragraph (kv :: notes)); discriminate.
Qed.

Lemma findall_header (whole body : string) :
  Regex.findall_from NOTES_PATTERN whole
    ((NOTES_HEADER ++ NEWLINE) ++ body) 0 0
  = Regex.findall_from NOTES_PATTERN whole body
      (String.length (NOTES_HEADER ++ NEWLINE)) 0.
Proof.
  change ((NOTES_HEADER ++ NEWLINE) ++ body)%string
    with (String "<" (String "h"
            (PyStr.drop 2 (NOTES_HEADER ++ NEWLINE) ++ body)))%string.
  rewrite (findall_no_match _ _ _ _ _ (no_match_tag "h" _ _ eq_refl)).
  rewrite (findall_no_match _ _ _ _ _ (no_match_other "h" _ _ eq_refl)).
  rewrite findall_scan by reflexivity. reflexivity.
Qed.

Lemma findall_markup (notes : dict string) :
  Forall plain_note notes ->
  Regex.findall NOTES_PATTERN (NOTES_HEADER ++ NEWLINE ++ notes_body notes)
  = map (fun kv => [fst kv; snd kv]) notes.
Proof.
  intros H. unfold Regex.findall.
  rewrite <- append_assoc. rewrite findall_header.
  apply findall_body. exact H.
Qed.

Lemma lstrip_fixed (c : ascii) (s : string) :
  PyStr.is_space c = false -> PyStr.lstrip (String c s) = String c s.
Proof. intros H. cbn [PyStr.lstrip]. rewrite H. reflexivity. Qed.

Lemma rstrip_fixed (s : string) :
  match PyStr.last_char s with
  | Some c => negb (PyStr.is_space c)
  | None => false
  end = true ->
  PyStr.rstrip s = s.
Proof.
  induction s as [|a s IH]; [discriminate|].
  cbn [PyStr.last_char PyStr.rstrip]. destruct s as [|b s].
  - cbn [PyStr.rstrip]. intros H.
    destruct (PyStr.is_space a); [discriminate H | reflexivity].
  - intros H. rewrite (IH H). reflexivity.
Qed.

Lemma strip_fixed (s : string) :
  no_outer_blank s = true -> PyStr.strip s = s.
Proof.
  unfold no_outer_blank. intros H. apply andb_true_iff in H as [Hh Hl].
  destruct s as [|c s]; [discriminate Hh|].
  unfold PyStr.strip. rewrite lstrip_fixed.
  - apply rstrip_fixed, Hl.
  - destruct (PyStr.is_space c); [discriminate Hh | reflexivity].
Qed.

Lemma last_char_app_r (a b : string) :
  b <> "" -> PyStr.last_char (a ++ b) = PyStr.last_char b.
Proof.
  intros Hb. induction a as [|x a IH]; [reflexivity|].
  cbn [append PyStr.last_char]. rewrite IH.
  destruct (a ++ b)%string eqn:E; [|reflexivity].
  destruct a; [cbn [append] in E; congruence | discriminate E].
Qed.

Lemma last_char_all (cls : ascii -> bool) (s : string) :
  s <> "" -> all_chars cls s = true ->
  exists c, PyStr.last_char s = Some c /\ cls c = true.
Proof.
  induction s as [|a s IH]; [congruence|]. intros _ H.
  cbn [all_chars] in H. apply andb_true_iff in H as [Ha Hs].
  destruct s as [|b s].
  - exists a. split; [reflexivity | exact Ha].
  - destruct IH as [c [Hc Hcls]]; [discriminate | exact Hs |].
    exists c. split; [exact Hc | exact Hcls].
Qed.

Lemma word_no_outer_blank_head (w rest : string) :
  word w ->
  match (w ++ rest)%string with
  | String c _ => negb (PyStr.is_space c)
  | EmptyString => false
  end = true.
Proof.
  intros [Hne Hw]. destruct w as [|c w]; [congruence|].
  cbn [all_chars] in Hw. apply andb_true_iff in Hw as [Hc _].
  cbn [append]. rewrite (word_not_space _ Hc). reflexivity.
Qed.

Lemma word_last (w : string) :
  word w ->
  match PyStr.last_char w with
  | Some c => negb (PyStr.is_space c)
  | None => false
  end = true.
Proof.
  intros [Hne Hw]. destruct (last_char_all _ _ Hne Hw) as [c [-> Hc]].
  rewrite (word_not_space _ Hc). reflexivity.
Qed.

Lemma note_key_no_outer_blank (k : string) :
  note_key k -> no_outer_blank k = true.
Proof.
  intros [w Hw|w1 sp w2 Hw1 Hsp Hw2]; unfold no_outer_blank;
    apply andb_true_iff; split.
  - rewrite <- (append_nil_r w). apply word_no_outer_blank_head, Hw.
  - apply word_last, Hw.
  - apply word_no_outer_blank_head, Hw1.
  - destruct Hw2 as [Hne2 Hw2'].
    rewrite !last_char_app_r; [apply word_last; split; assumption| |]; auto.
    destruct sp; [|discriminate]. exact Hne2.
Qed.

Lemma dict_of_items_nodup {V : Type} (items : list (string * V)) :
  NoDup (keys items) -> dict_of_items items = items.
Proof.
  unfold dict_of_items.
  assert (forall d : dict V,
            NoDup (keys (d ++ items)) ->
            fold_left (fun d kv => dict_set d (fst kv) (snd kv)) items d
            = d ++ items) as H.
  { induction items as [|[k v] items IH]; intros d Hd.
    - rewrite app_nil_r. reflexivity.
    - cbn [fold_left fst snd]. rewrite dict_set_fresh.
      + rewrite IH; rewrite <- app_assoc; [reflexivity | exact Hd].
      + unfold keys in *. rewrite map_app in Hd. cbn [map fst] in Hd.
        apply NoDup_remove_2 in Hd. intros Hin. apply Hd.
        apply in_or_app. left. exact Hin. }
  intros Hnd. apply (H [] Hnd).
Qed.

(** X22. Notes written by [_sbase_notes_dict] and parsed by
    [_parse_notes_dict] from the text that was set come back as they were,
    in order, when the dictionary is not empty, no key occurs twice, every
    key is one word or two words with white space between them, and every
    value is made of word characters, pipes and white space and neither
    starts nor ends with white space. *)
Theorem notes_roundtrip (sbase : SBase) (notes : dict string) :
  notes <> [] -> NoDup (keys notes) -> Forall plain_note notes ->
  _parse_notes_dict (sb_notes (_sbase_notes_dict sbase notes)) = notes.
Proof.
  intros Hne Hnd Hall.
  unfold _sbase_notes_dict. rewrite (notes_markup_body notes Hne).
  cbn [setNotes sb_notes].
  unfold _parse_notes_dict.
  assert (Nat.ltb 0 (String.length
                       (NOTES_HEADER ++ NEWLINE ++ notes_body notes)) = true)
    as ->.
  { rewrite length_app. reflexivity. }
  unfold notes_stripped, notes_matches.
  rewrite (findall_markup notes Hall).
  assert (flat_map (fun g : list string =>
                      match g with
                      | [k; v] => [(k, v)]
                      | _ => []
                      end)
                   (map (fun kv : string * string => [fst kv; snd kv]) notes)
          = notes) as ->.
  { clear. induction notes as [|[k v] notes IH]; [reflexivity|].
    cbn [map flat_map fst snd app]. rewrite IH. reflexivity. }
  assert (map (fun kv : string * string =>
                 (PyStr.strip (fst kv), PyStr.strip (snd kv))) notes
          = notes) as ->.
  { clear Hne Hnd. induction Hall as [|[k v] notes [Hk [_ Hv]] _ IH];
      [reflexivity|].
    cbn [map fst snd] in *. rewrite IH.
    rewrite (strip_fixed k (note_key_no_outer_blank k Hk)).
    rewrite (strip_fixed v Hv). reflexivity. }
  rewrite (dict_of_items_nodup notes Hnd).
  clear Hne Hnd. induction Hall as [|[k v] notes [_ [_ Hv]] _ IH];
    [reflexivity|].
  cbn [filter snd]. rewrite IH.
  destruct v as [|c v]; [discriminate Hv | reflexivity].
Qed.

Lemma notes_roundtrip_witness :
  _parse_notes_dict
    (sb_notes (_sbase_notes_dict new_sbase
                 [("SUBSYSTEM", "Citric Acid Cycle");
                  ("GENE ASSOCIATION", "b0001 and b0002");
                  ("CHARGE", "2")]))
  = [("SUBSYSTEM", "Citric Acid Cycle");
     ("GENE ASSOCIATION", "b0001 and b0002");
     ("CHARGE", "2")].
Proof.
  apply notes_roundtrip.
  - discriminate.
  - repeat constructor; simpl; intuition discriminate.
  - apply Forall_cons; [|apply Forall_cons; [|apply Forall_cons;
                                                [|apply Forall_nil]]];
      (split; [|split; reflexivity]); cbn [fst].
    + apply key_word. split; [discriminate | reflexivity].
    + apply (key_words "GENE" " " "ASSOCIATION");
        split; (discriminate || reflexivity).
    + apply key_word. split; [discriminate | reflexivity].
Defined.

(** ** Validation and reading *)

(** X23. Validation without the libsbml checks returns a model exactly when
    [read_sbml_model] returns one for the same input with no identifier
    replacement, and it is the same model: the validator converts the
    document with the default of [_sbml_to_model], which replaces no id,
    where the reader by default strips the prefixes. *)
Theorem validate_reads_without_replacement
  (check : CModel -> list string) (libsbml_errors : list (severity * string))
  (warning_list : list string) (filename : sbml_input) (check_model : bool)
  (m : CModel) :
  value_of (read_sbml_model filename F_NONE) = Some m
  <-> exists errors,
        value_of (validate_sbml_model check libsbml_errors warning_list
                    filename false check_model) = Some (Some m, errors).
Proof.
  destruct filename as [doc|].
  - unfold read_sbml_model.
    cbv beta iota zeta delta [validate_sbml_model _get_doc_from_filename].
    rewrite !bind_ret_l.
    destruct (doc_model doc) as [model|] eqn:Hm.
    + destruct (_sbml_to_model doc F_NONE) as [l [[msg|cls msg]|m']].
      * split; [discriminate|]. intros [errors H]. discriminate H.
      * split; [discriminate|]. intros [errors H]. discriminate H.
      * split.
        -- intros H. injection H as ->. eexists. reflexivity.
        -- intros [errors H]. unfold value_of in H. cbn [snd] in H.
           injection H as -> _. reflexivity.
    + unfold _sbml_to_model. rewrite Hm.
      split; [discriminate|]. intros [errors H]. discriminate H.
  - split; [discriminate|]. intros [errors H]. discriminate H.
Qed.

(** The validator and the reader with its default replacements differ on
    the ids: the gene [G_b0001] of the document is [b0001] for the reader. *)
Example validate_keeps_prefixes :
  option_map (fun m => map gene_id (cm_genes m))
    (value_of (read_sbml_model
                 (InDocument MoreSamples.gene_product_document) F_REPLACE))
  = Some ["b0001"; "b0002"]
  /\ option_map (fun r => option_map (fun m => map gene_id (cm_genes m))
                                     (fst r))
       (value_of (validate_sbml_model Samples.no_findings [] []
                    (InDocument MoreSamples.gene_product_document)
                    false true))
     = Some (Some ["G_b0001"; "G_b0002"]).
Proof. split; vm_compute; reflexivity. Qed.

(** ** Members of groups without a reference *)

(** X24. A member of a group that has neither an id reference nor a meta id
    reference is read through the variable [obj] as the member before it
    left it: after a member with a reference that was read, it is read as
    that member once more; and when nothing has bound [obj] yet, reading it
    raises the [UnboundLocalError] for [obj]. *)
Theorem member_without_reference_repeats (f_replace : FReplace)
  (model : SModel) (cols : Collections) (gid : option string)
  (obj obj1 : option (option element)) (members members1 : list member)
  (m0 m : Member) :
  referenced m0 -> unreferenced m ->
  value_of (read_member f_replace model cols gid (obj, members) m0)
  = Some (obj1, members1) ->
  read_member f_replace model cols gid (obj1, members1) m
  = read_member f_replace model cols gid (obj, members1) m0
  /\ read_member f_replace model cols gid (None, members1) m
     = ([], inl obj_unbound).
Proof.
  intros Href [Hid Hmeta] H. split.
  - unfold read_member in *. rewrite Hid, Hmeta.
    assert (exists o,
              match m_id_ref m0, m_meta_id_ref m0 with
              | Some i, _ => Some (find_element sb_id model i)
              | None, Some i => Some (find_element sb_meta_id model i)
              | None, None => obj
              end = Some o) as [o Ho].
    { destruct (m_id_ref m0) as [i|] eqn:E1; [eexists; reflexivity|].
      destruct (m_meta_id_ref m0) as [i|] eqn:E2; [eexists; reflexivity|].
      destruct Href as [Hn|Hn]; congruence. }
    rewrite Ho in *.
    destruct o as [[i|i|i|]|]; try discriminate H.
    + destruct (get_by_id met_id (col_metabolites cols)
                  (apply_f (F_SPECIE f_replace) i)) eqn:Hg;
        [|discriminate H].
      injection H as <- _. cbn beta iota. rewrite ?Hg. reflexivity.
    + destruct (get_by_id rxn_id (col_reactions cols)
                  (apply_f (F_REACTION f_replace) i)) eqn:Hg;
        [|discriminate H].
      injection H as <- _. cbn beta iota. rewrite ?Hg. reflexivity.
    + destruct (get_by_id gene_id (col_genes cols)
                  (apply_f (F_GENE f_replace) i)) eqn:Hg;
        [|discriminate H].
      injection H as <- _. cbn beta iota. rewrite ?Hg. reflexivity.
    + injection H as <- _. reflexivity.
  - unfold read_member. rewrite Hid, Hmeta. reflexivity.
Qed.

Lemma member_without_reference_repeats_witness :
  read_member F_REPLACE MoreSamples.member_model
    MoreSamples.member_collections None
    (Some (Some (ElSpecies "M_a_c")), [MemMetabolite Samples.met_a])
    MoreSamples.member_bare
  = ([], inr (Some (Some (ElSpecies "M_a_c")),
              [MemMetabolite Samples.met_a; MemMetabolite Samples.met_a])).
Proof.
  destruct (member_without_reference_repeats F_REPLACE
              MoreSamples.member_model MoreSamples.member_collections None
              None (Some (Some (ElSpecies "M_a_c"))) []
              [MemMetabolite Samples.met_a]
              MoreSamples.member_by_id MoreSamples.member_bare)
    as [H _].
  - left. discriminate.
  - split; reflexivity.
  - reflexivity.
  - rewrite H. reflexivity.
Defined.
